(** * Prediction engine of Checkmk: resampling, partitioning, statistics, store

    A shallow embedding of [cmk/utils/prediction/_prediction.py].

    - Python [int] is [Z]; a [float] sample is an element of a carrier [F]
      that provides the arithmetic the module uses (class [PyFloat]),
      with the exceptions that arithmetic raises; the properties hold for
      every carrier, and the carrier of the runs is binary64 ([PrimFloat]).
    - [T | None] is [option T]; a raised exception is the [Raise] branch of
      [result]; code that also touches the prediction directory or queries
      livestatus threads a [World] through the monad [M].
    - The prediction directory is a finite map from file names to contents. *)

From Stdlib Require Import ZArith List Lia String Ascii Bool.
From Stdlib Require PrimFloat Uint63 SpecFloat FloatOps FloatAxioms.
From stdpp Require Import gmap strings pretty sorting.
Import ListNotations.

Set Default Proof Using "Type".
Set Warnings "-inexact-float".
Local Open Scope Z_scope.

(** ** Exceptions and results *)

Inductive exn : Type :=
| IndexError
| ValueError (msg : string)
| OverflowError
| MKGeneralException (msg : string)
| MKLivestatusNotFoundError (msg : string)
| MKLivestatusError (msg : string)
| FileNotFoundError
| ValidationError.

Inductive result (A : Type) : Type :=
| Ok (a : A)
| Raise (e : exn).
Arguments Ok {A} a.
Arguments Raise {A} e.

Definition rbind {A B} (r : result A) (k : A -> result B) : result B :=
  match r with
  | Ok a => k a
  | Raise e => Raise e
  end.

Declare Scope result_scope.
Delimit Scope result_scope with result.
Notation "'let!' x ':=' c 'in' k" := (rbind c (fun x => k))
  (at level 10, x name, c at level 100, k at level 200) : result_scope.
Local Open Scope result_scope.

(** [l[i]] for a non-negative index [i]. *)
Definition getitem {A} (l : list A) (i : nat) : result A :=
  match l !! i with
  | Some a => Ok a
  | None => Raise IndexError
  end.

(** Results collected from left to right; the first exception ends it. *)
Fixpoint result_mapM {A B} (f : A -> result B) (l : list A) : result (list B) :=
  match l with
  | [] => Ok []
  | a :: rest =>
      let! b := f a in
      let! bs := result_mapM f rest in
      Ok (b :: bs)
  end.

(** ** Time windows and [range] *)

Definition Seconds := Z.
Definition Timestamp := Z.
Definition TimeWindow : Type := Timestamp * Timestamp * Seconds.

Definition tw_start (w : TimeWindow) : Z := fst (fst w).
Definition tw_end (w : TimeWindow) : Z := snd (fst w).
Definition tw_step (w : TimeWindow) : Z := snd w.

Definition TimeWindow_eqb (a b : TimeWindow) : bool :=
  (tw_start a =? tw_start b) && (tw_end a =? tw_end b) && (tw_step a =? tw_step b).

(** [len(range(start, stop, step))] for [step <> 0]. *)
Definition range_len (start stop step : Z) : nat :=
  if 0 <? step then
    (if start <? stop then Z.to_nat ((stop - start - 1) / step + 1) else 0%nat)
  else
    (if stop <? start then Z.to_nat ((start - stop - 1) / (- step) + 1) else 0%nat).

(** The items of [range(start, stop, step)] for [step <> 0]. *)
Definition range_items (start stop step : Z) : list Z :=
  map (fun k => start + Z.of_nat k * step) (seq 0 (range_len start stop step)).

(** [range(start, stop, step)]; a zero step raises [ValueError]. *)
Definition py_range (start stop step : Z) : result (list Z) :=
  if step =? 0 then Raise (ValueError "range() arg 3 must not be zero")
  else Ok (range_items start stop step).

Definition rrd_timestamps (time_window : TimeWindow) : list Timestamp :=
  let '(start, end_, step) := time_window in
  if step =? 0 then [] else map (fun t => t + step) (range_items start end_ step).

(** ** TimeSeries *)

Section TimeSeries.
Context {F : Type}.

Definition TimeSeriesValue : Type := option F.
Definition TimeSeriesValues : Type := list TimeSeriesValue.

Record TimeSeries : Type := mkTimeSeries {
  ts_start : Z;
  ts_end : Z;
  ts_step : Z;
  ts_values : TimeSeriesValues
}.

(** [TimeSeries(data, time_window)] with the identity conversion. *)
Definition TimeSeries_init (data : TimeSeriesValues) (time_window : TimeWindow) : TimeSeries :=
  {| ts_start := tw_start time_window;
     ts_end := tw_end time_window;
     ts_step := tw_step time_window;
     ts_values := data |}.

Definition twindow (self : TimeSeries) : TimeWindow :=
  (ts_start self, ts_end self, ts_step self).

(** The loop of [bfill_upsample]: [i] is the running index into
    [current_times], [upsa] the values appended so far. *)
Fixpoint bfill_loop (current_times : list Z) (vals : TimeSeriesValues)
    (targets : list Z) (i : nat) (upsa : TimeSeriesValues) : result TimeSeriesValues :=
  match targets with
  | [] => Ok upsa
  | t :: rest =>
      let! c := getitem current_times i in
      let i' := if c <=? t then S i else i in
      let! v := getitem vals i' in
      bfill_loop current_times vals rest i' (upsa ++ [v])
  end.

Definition bfill_upsample (self : TimeSeries) (tw : TimeWindow) : result TimeSeriesValues :=
  if TimeWindow_eqb tw (twindow self) then Ok (ts_values self)
  else
    let current_times := rrd_timestamps (twindow self) in
    let! targets := py_range (tw_start tw) (tw_end tw) (tw_step tw) in
    bfill_loop current_times (ts_values self) targets 0 [].

Definition time_data_pairs (self : TimeSeries) : list (Timestamp * TimeSeriesValue) :=
  combine (rrd_timestamps (twindow self)) (ts_values self).

End TimeSeries.
Arguments TimeSeries F : clear implicits.
Arguments TimeSeriesValue F : clear implicits.
Arguments TimeSeriesValues F : clear implicits.

(** ** Float arithmetic

    The operations the module applies to samples.  [of_int] is [float(n)],
    [fltb x y] is [x < y], [fdiv x y] is [x / y] for a divisor other than
    zero (the module divides by counts that are not zero).  Three operations
    can raise: [fpow2 x] is [x ** 2] ([OverflowError] when the square of a
    finite [x] is out of range), [fsqrt] is [math.sqrt] ([ValueError] on a
    negative argument) and [fsum] is [math.fsum], the sum [statistics.fmean]
    takes ([OverflowError] on an intermediate overflow). *)

Class PyFloat (F : Type) : Type := {
  fzero : F;
  fadd : F -> F -> F;
  fsub : F -> F -> F;
  fmul : F -> F -> F;
  fdiv : F -> F -> F;
  fabs : F -> F;
  fltb : F -> F -> bool;
  of_int : Z -> F;
  fpow2 : F -> result F;
  fsqrt : F -> result F;
  fsum : list F -> result F
}.

Section Builtins.
Context {F : Type} `{PyFloat F}.

(** [sum(l)]: the items added one after the other, from 0. *)
Definition py_sum (l : list F) : F := fold_left fadd l fzero.

(** [max(x :: l)]: the running maximum is replaced by an item only when
    that item is greater. *)
Definition py_max (x : F) (l : list F) : F :=
  fold_left (fun m item => if fltb m item then item else m) l x.

(** [min(x :: l)]: replaced only when the item is smaller. *)
Definition py_min (x : F) (l : list F) : F :=
  fold_left (fun m item => if fltb item m then item else m) l x.

(** [statistics.fmean(l)] for a non-empty [l]: [fsum(l) / len(l)]. *)
Definition fmean (l : list F) : result F :=
  let! total := fsum l in
  Ok (fdiv total (of_int (Z.of_nat (length l)))).
End Builtins.

(** ** Strings *)

Definition ascii_lower (c : ascii) : ascii :=
  let n := nat_of_ascii c in
  if ((65 <=? n) && (n <=? 90))%nat then ascii_of_nat (n + 32) else c.

(** [s.lower()] on ASCII letters; other bytes are kept. *)
Fixpoint str_lower (s : string) : string :=
  match s with
  | EmptyString => EmptyString
  | String c rest => String (ascii_lower c) (str_lower rest)
  end.

Definition ConsolidationFunctionName := string.

(** ** Aggregation and downsampling *)

Section Aggregation.
Context {F : Type} `{PyFloat F}.

(** [[x for x in series if x is not None]] *)
Fixpoint drop_none (series : TimeSeriesValues F) : list F :=
  match series with
  | [] => []
  | Some x :: rest => x :: drop_none rest
  | None :: rest => drop_none rest
  end.

Definition aggregation_functions (series : TimeSeriesValues F)
    (aggr : option ConsolidationFunctionName) : result (TimeSeriesValue F) :=
  let cleaned_series := drop_none series in
  match cleaned_series with
  | [] => Ok None
  | x :: rest =>
      let aggr := match aggr with None => "max"%string | Some a => str_lower a end in
      if String.eqb aggr "average" then
        let! mean := fmean cleaned_series in Ok (Some mean)
      else if String.eqb aggr "max" then Ok (Some (py_max x rest))
      else if String.eqb aggr "min" then Ok (Some (py_min x rest))
      else Raise (ValueError ("Invalid Aggregation function " ++ aggr
                               ++ ", only max, min, average allowed"))
  end.

(** The loop of [downsample] over [time_data_pairs]: the state is
    [(dwsa, co, i)]. *)
Fixpoint downsample_loop (desired_times : list Z) (cf : option ConsolidationFunctionName)
    (pairs : list (Timestamp * TimeSeriesValue F))
    (dwsa co : TimeSeriesValues F) (i : nat)
    : result (TimeSeriesValues F * TimeSeriesValues F * nat) :=
  match pairs with
  | [] => Ok (dwsa, co, i)
  | (t, val) :: rest =>
      let! d := getitem desired_times i in
      if d <? t then
        let! a := aggregation_functions co cf in
        downsample_loop desired_times cf rest (dwsa ++ [a]) [val] (S i)
      else
        downsample_loop desired_times cf rest dwsa (co ++ [val]) i
  end.

Definition downsample (self : TimeSeries F) (tw : TimeWindow)
    (cf : option ConsolidationFunctionName) : result (TimeSeriesValues F) :=
  if TimeWindow_eqb tw (twindow self) then Ok (ts_values self)
  else
    let desired_times := rrd_timestamps tw in
    let! st := downsample_loop desired_times cf (time_data_pairs self) [] [] 0 in
    let '(dwsa, co, _) := st in
    if (length dwsa <? length desired_times)%nat then
      let! a := aggregation_functions co cf in
      Ok ((dwsa ++ [a])
            ++ repeat None (length desired_times - length dwsa - 1))
    else Ok dwsa.

(** The default of the parameter [cf] of [downsample]. *)
Definition downsample_cf_default : option ConsolidationFunctionName := Some "max"%string.

Definition downsample_default (self : TimeSeries F) (tw : TimeWindow) :=
  downsample self tw downsample_cf_default.

End Aggregation.

(** ** Statistical summary *)

Section Statistics.
Context {F : Type} `{PyFloat F}.

Record DataStat : Type := mkDataStat {
  average : F;
  min_ : F;
  max_ : F;
  stdev : option F
}.

Record PredictionData : Type := mkPredictionData {
  points : list (option DataStat);
  data_twindow : list Timestamp;
  step : Seconds
}.

Definition num_points (self : PredictionData) : nat := length (points self).

(** The squares [p**2] are taken one after the other, then [average**2];
    the first that overflows ends the call. *)
Definition _std_dev (point_line : list F) (average : F) : result (option F) :=
  let samples := Z.of_nat (length point_line) in
  if samples =? 1 then Ok None
  else
    let! squares := result_mapM fpow2 point_line in
    let! average_squared := fpow2 average in
    let! root :=
      fsqrt (fdiv (fabs (fsub (py_sum squares)
                              (fmul average_squared (of_int samples))))
                  (of_int (samples - 1))) in
    Ok (Some root).

(** [zip( *slices)]: the columns, as many as the shortest slice has items. *)
Fixpoint zip_star (slices : list (TimeSeriesValues F)) : list (TimeSeriesValues F) :=
  match slices with
  | [] => []
  | l :: rest =>
      match rest with
      | [] => map (fun x => [x]) l
      | _ :: _ => map (fun p => fst p :: snd p) (combine l (zip_star rest))
      end
  end.

Definition data_stat_of_column (time_column : TimeSeriesValues F)
    : result (option DataStat) :=
  let point_line := drop_none time_column in
  match point_line with
  | [] => Ok None
  | x :: rest =>
      let average := fdiv (py_sum point_line) (of_int (Z.of_nat (length point_line))) in
      let! deviation := _std_dev point_line average in
      Ok (Some {| average := average;
                  min_ := py_min x rest;
                  max_ := py_max x rest;
                  stdev := deviation |})
  end.

(** The loop over the columns; an exception of a column ends it. *)
Definition _data_stats (slices : list (TimeSeriesValues F))
    : result (list (option DataStat)) :=
  result_mapM data_stat_of_column (zip_star slices).

Fixpoint upsample_each (tw : TimeWindow) (slices : list (TimeSeries F * Z))
    : result (list (TimeSeriesValues F)) :=
  match slices with
  | [] => Ok []
  | (ts, shift) :: rest =>
      let! v := bfill_upsample ts (tw_start tw - shift, tw_end tw - shift, tw_step tw) in
      let! vs := upsample_each tw rest in
      Ok (v :: vs)
  end.

Definition _upsample (slices : list (TimeSeries F * Z))
    : result (TimeWindow * list (TimeSeriesValues F)) :=
  let! first := getitem slices 0 in
  let tw := twindow (fst first) in
  let! up := upsample_each tw slices in
  Ok (tw, up).

Definition _calculate_data_for_prediction (raw_slices : list (TimeSeries F * Z))
    : result PredictionData :=
  let! r := _upsample raw_slices in
  let '(tw, slices) := r in
  let! stats := _data_stats slices in
  Ok {| points := stats;
        data_twindow := [tw_start tw; tw_end tw];
        step := tw_step tw |}.

End Statistics.
Arguments DataStat F : clear implicits.
Arguments PredictionData F : clear implicits.

(** ** The carrier of the runs: binary64

    Python's [float] is the binary64 format, and [+ - * / abs <] on it are the
    IEEE operations of [PrimFloat].  [x ** 2] is CPython's [float_pow]: it
    answers for NaN, the infinities, zero and one itself and otherwise calls
    [pow] of the C library on [|x|], whose infinite result is the range
    error.  That [pow] is a parameter, [libm_pow2] for the exponent 2: the
    C library rounds the square to a neighbouring float, not always the
    nearest.  [math.sqrt] raises where the root of a number is not a number.
    [math.fsum] is the summation with exact partial sums of CPython's
    [math] module; the partial sums are kept smallest first. *)

Import PrimFloat.PrimFloatNotationsInternalA.
Number Notation PrimFloat.float PrimFloat.parser PrimFloat.printer : float_scope.

Definition float_of_Z (z : Z) : PrimFloat.float :=
  if z <? 0 then PrimFloat.opp (PrimFloat.of_uint63 (Uint63.of_Z (- z)))
  else PrimFloat.of_uint63 (Uint63.of_Z z).

Definition float_pow2 (libm_pow2 : PrimFloat.float -> PrimFloat.float)
    (x : PrimFloat.float) : result PrimFloat.float :=
  if PrimFloat.is_nan x then Ok x
  else if PrimFloat.is_infinity x then Ok (PrimFloat.abs x)
  else if PrimFloat.eqb x 0%float then Ok 0%float
  else if PrimFloat.eqb (PrimFloat.abs x) 1%float then Ok 1%float
  else
    let square := libm_pow2 (PrimFloat.abs x) in
    if PrimFloat.is_infinity square then Raise OverflowError else Ok square.

(** A C library whose [pow] gives the nearest float to the square. *)
Definition rounded_pow2 (x : PrimFloat.float) : PrimFloat.float := PrimFloat.mul x x.

Definition math_sqrt (x : PrimFloat.float) : result PrimFloat.float :=
  let root := PrimFloat.sqrt x in
  if PrimFloat.is_nan root && negb (PrimFloat.is_nan x)
  then Raise (ValueError "math domain error")
  else Ok root.

(** One summand [x] against the partial sums: each partial sum is added to
    [x] exactly, the rounding error of the addition is kept as a new partial
    sum unless it is zero, and the rounded sum is carried on. *)
Fixpoint fsum_partials (x : PrimFloat.float) (partials : list PrimFloat.float)
    : PrimFloat.float * list PrimFloat.float :=
  match partials with
  | [] => (x, [])
  | p :: rest =>
      let larger := if PrimFloat.ltb (PrimFloat.abs x) (PrimFloat.abs p) then p else x in
      let smaller := if PrimFloat.ltb (PrimFloat.abs x) (PrimFloat.abs p) then x else p in
      let hi := PrimFloat.add larger smaller in
      let lo := PrimFloat.sub smaller (PrimFloat.sub hi larger) in
      let '(total, kept) := fsum_partials hi rest in
      (total, if PrimFloat.eqb lo 0%float then kept else lo :: kept)
  end.

Record fsum_state : Type := mkFsumState {
  fsum_p : list PrimFloat.float;
  special_sum : PrimFloat.float;
  inf_sum : PrimFloat.float
}.

Definition fsum_step (st : fsum_state) (xsave : PrimFloat.float) : result fsum_state :=
  let '(x, kept) := fsum_partials xsave (fsum_p st) in
  if PrimFloat.eqb x 0%float then
    Ok {| fsum_p := kept; special_sum := special_sum st; inf_sum := inf_sum st |}
  else if PrimFloat.is_finite x then
    Ok {| fsum_p := kept ++ [x]; special_sum := special_sum st; inf_sum := inf_sum st |}
  else if PrimFloat.is_finite xsave then Raise OverflowError
  else
    Ok {| fsum_p := [];
          special_sum := PrimFloat.add (special_sum st) xsave;
          inf_sum := if PrimFloat.is_infinity xsave
                     then PrimFloat.add (inf_sum st) xsave else inf_sum st |}.

Fixpoint fsum_loop (st : fsum_state) (l : list PrimFloat.float) : result fsum_state :=
  match l with
  | [] => Ok st
  | x :: rest => let! st' := fsum_step st x in fsum_loop st' rest
  end.

(** The partial sums added from the largest down, until an addition is
    inexact: the sum so far, the error of the last addition, and the partial
    sums not yet added. *)
Fixpoint fsum_top_down (hi : PrimFloat.float) (below : list PrimFloat.float)
    : PrimFloat.float * PrimFloat.float * list PrimFloat.float :=
  match below with
  | [] => (hi, 0%float, [])
  | y :: rest =>
      let hi' := PrimFloat.add hi y in
      let lo := PrimFloat.sub y (PrimFloat.sub hi' hi) in
      if PrimFloat.eqb lo 0%float then fsum_top_down hi' rest else (hi', lo, rest)
  end.

Definition fsum_finish (st : fsum_state) : result PrimFloat.float :=
  if negb (PrimFloat.eqb (special_sum st) 0%float) then
    if PrimFloat.is_nan (inf_sum st) then Raise (ValueError "-inf + inf in fsum")
    else Ok (special_sum st)
  else
    match rev (fsum_p st) with
    | [] => Ok 0%float
    | top :: below =>
        let '(hi, lo, rest) := fsum_top_down top below in
        match rest with
        | [] => Ok hi
        | next :: _ =>
            (* half-even rounding across several partial sums *)
            if (PrimFloat.ltb lo 0%float && PrimFloat.ltb next 0%float)
               || (PrimFloat.ltb 0%float lo && PrimFloat.ltb 0%float next)
            then
              let y := PrimFloat.mul lo 2%float in
              let x := PrimFloat.add hi y in
              if PrimFloat.eqb y (PrimFloat.sub x hi) then Ok x else Ok hi
            else Ok hi
        end
    end.

Definition math_fsum (l : list PrimFloat.float) : result PrimFloat.float :=
  let! st := fsum_loop {| fsum_p := []; special_sum := 0%float; inf_sum := 0%float |} l in
  fsum_finish st.

Definition binary64 (libm_pow2 : PrimFloat.float -> PrimFloat.float)
    : PyFloat PrimFloat.float := {|
  fzero := PrimFloat.zero;
  fadd := PrimFloat.add;
  fsub := PrimFloat.sub;
  fmul := PrimFloat.mul;
  fdiv := PrimFloat.div;
  fabs := PrimFloat.abs;
  fltb := PrimFloat.ltb;
  of_int := float_of_Z;
  fpow2 := float_pow2 libm_pow2;
  fsqrt := math_sqrt;
  fsum := math_fsum
|}.

#[export] Instance PyFloat_binary64 : PyFloat PrimFloat.float := binary64 rounded_pow2.

(** ** Local time

    [time.localtime], [time.timezone] and [time.altzone] belong to the
    process environment.  A [Zone] gives the two offsets (seconds west of
    UTC, as the [time] module has them) and tells at which instants daylight
    saving time is in force; [localtime] is the broken-down Gregorian date of
    the instant shifted by the offset in force. *)

Record Zone : Type := mkZone {
  zone_timezone : Z;
  zone_altzone : Z;
  zone_dst : Timestamp -> bool
}.

Record struct_time : Type := mkStructTime {
  tm_mday : Z;
  tm_wday : Z;
  tm_isdst : Z
}.

(** Day of the month of the day that lies [days] days after 1970-01-01. *)
Definition mday_of_days (days : Z) : Z :=
  let z := days + 719468 in
  let era := z / 146097 in
  let doe := z - era * 146097 in
  let yoe := (doe - doe / 1460 + doe / 36524 - doe / 146096) / 365 in
  let doy := doe - (365 * yoe + yoe / 4 - yoe / 100) in
  let mp := (5 * doy + 2) / 153 in
  doy - (153 * mp + 2) / 5 + 1.

(** Monday is 0; 1970-01-01 was a Thursday. *)
Definition wday_of_days (days : Z) : Z := (days + 3) mod 7.

Definition localtime (zone : Zone) (t : Timestamp) : struct_time :=
  let offset := if zone_dst zone t then zone_altzone zone else zone_timezone zone in
  let days := (t - offset) / 86400 in
  {| tm_mday := mday_of_days days;
     tm_wday := wday_of_days days;
     tm_isdst := if zone_dst zone t then 1 else 0 |}.

(** Modelled from the spec: [cmk.utils.dateutils.weekday_ids] is not among
    the sources; the bucket identity of the weekday period is the
    day-of-week name, Monday first. *)
Definition weekday_ids : list string :=
  ["monday"; "tuesday"; "wednesday"; "thursday"; "friday"; "saturday"; "sunday"]%string.

(** [str(n)] for an integer. *)
Definition py_str (n : Z) : string := pretty n.

(** ** Period catalog and time-window partitioner *)

Definition Timegroup := string.

Record _PeriodInfo : Type := mkPeriodInfo {
  pi_slice : Z;
  pi_groupby : Timestamp -> Timegroup * Timestamp;
  pi_valid : Z
}.

Inductive _PeriodName : Type := wday | day | hour | minute.

Definition _TimeSlices : Type := list (Timestamp * Timestamp).

Section Periods.
Variable zone : Zone.

Definition is_dst (timestamp : Timestamp) : bool :=
  negb (tm_isdst (localtime zone timestamp) =? 0).

Definition timezone_at (timestamp : Timestamp) : Z :=
  if is_dst timestamp then zone_altzone zone else zone_timezone zone.

Definition _window_start (timestamp span : Z) : Z :=
  (timestamp - timezone_at timestamp) mod span.

Definition _group_by_wday (t : Timestamp) : Timegroup * Timestamp :=
  let wd := tm_wday (localtime zone t) in
  (nth (Z.to_nat wd) weekday_ids ""%string, _window_start t 86400).

Definition _group_by_day (t : Timestamp) : Timegroup * Timestamp :=
  ("everyday"%string, _window_start t 86400).

Definition _group_by_day_of_month (t : Timestamp) : Timegroup * Timestamp :=
  let mday := tm_mday (localtime zone t) in
  (py_str mday, _window_start t 86400).

Definition _group_by_everyhour (t : Timestamp) : Timegroup * Timestamp :=
  ("everyhour"%string, _window_start t 3600).

Definition PREDICTION_PERIODS (name : _PeriodName) : _PeriodInfo :=
  match name with
  | wday => {| pi_slice := 86400; pi_groupby := _group_by_wday; pi_valid := 7 |}
  | day => {| pi_slice := 86400; pi_groupby := _group_by_day_of_month; pi_valid := 28 |}
  | hour => {| pi_slice := 86400; pi_groupby := _group_by_day; pi_valid := 1 |}
  | minute => {| pi_slice := 3600; pi_groupby := _group_by_everyhour; pi_valid := 24 |}
  end.
End Periods.

Definition get_timegroup_relative_time (t : Timestamp) (period_info : _PeriodInfo)
    : Timegroup * Timestamp * Timestamp * Seconds :=
  let '(timegroup, rel_time) := pi_groupby period_info t in
  let from_time := t - rel_time in
  let until_time := from_time + pi_slice period_info in
  (timegroup, from_time, until_time, rel_time).

(** The loop of [_time_slices] over the visited [begin]s. *)
Fixpoint time_slices_loop (period_info : _PeriodInfo) (timegroup : Timegroup)
    (begins : list Timestamp) : _TimeSlices :=
  match begins with
  | [] => []
  | begin :: rest =>
      let '(tg, start, end_, _) := get_timegroup_relative_time begin period_info in
      if String.eqb tg timegroup
      then (start, end_) :: time_slices_loop period_info timegroup rest
      else time_slices_loop period_info timegroup rest
  end.

Definition _time_slices (timestamp : Timestamp) (horizon : Seconds)
    (period_info : _PeriodInfo) (timegroup : Timegroup) : result _TimeSlices :=
  let abs_begin := timestamp - horizon in
  let! begins := py_range timestamp abs_begin (- pi_slice period_info) in
  Ok (time_slices_loop period_info timegroup begins).

(** ** Prediction metadata *)

Definition HostName := string.
Definition ServiceName := string.

Inductive LevelsKind : Type := absolute | relative | stdev_levels.

Section Info.
Context {F : Type}.

Definition LevelsSpec : Type := LevelsKind * (F * F).

Record PredictionParameters : Type := mkPredictionParameters {
  period : _PeriodName;
  horizon : Z;
  levels_upper : option LevelsSpec;
  levels_upper_min : option (F * F);
  levels_lower : option LevelsSpec
}.

Record PredictionInfo : Type := mkPredictionInfo {
  info_name : Timegroup;
  info_time : Z;
  info_range : Timestamp * Timestamp;
  info_cf : ConsolidationFunctionName;
  info_dsname : string;
  info_slice : Z;
  info_params : PredictionParameters
}.

(** [livestatus.RRDResponse] *)
Record RRDResponse : Type := mkRRDResponse {
  resp_window : TimeWindow;
  resp_values : TimeSeriesValues F
}.

(** What a call of [livestatus.get_rrd_data] does: it raises
    [MKLivestatusNotFoundError], raises another livestatus error, or returns
    a response or [None]. *)
Inductive LivestatusOutcome : Type :=
| LsNotFound (msg : string)
| LsFailure (msg : string)
| LsReturn (response : option RRDResponse).
End Info.
Arguments PredictionParameters F : clear implicits.
Arguments PredictionInfo F : clear implicits.
Arguments RRDResponse F : clear implicits.
Arguments LivestatusOutcome F : clear implicits.
Arguments LevelsSpec F : clear implicits.

(** ** The world: the prediction directory and the livestatus queries so far

    [files] maps the name of a file below the store's directory to its text;
    [dir_exists] tells whether the directory itself exists. *)

Record RRDQuery : Type := mkRRDQuery {
  q_host : HostName;
  q_service : string;
  q_column : string;
  q_from : Timestamp;
  q_until : Timestamp
}.

Record World : Type := mkWorld {
  dir_exists : bool;
  files : gmap string string;
  rrd_queries : list RRDQuery
}.

Definition M (A : Type) : Type := World -> result A * World.

Definition ret {A} (a : A) : M A := fun w => (Ok a, w).
Definition raise {A} (e : exn) : M A := fun w => (Raise e, w).
Definition bind {A B} (m : M A) (k : A -> M B) : M B :=
  fun w => match m w with
           | (Ok a, w') => k a w'
           | (Raise e, w') => (Raise e, w')
           end.
Definition lift {A} (r : result A) : M A := fun w => (r, w).

Declare Scope world_scope.
Delimit Scope world_scope with world.
Notation "'do!' x ':=' c 'in' k" := (bind c (fun x => k))
  (at level 10, x name, c at level 100, k at level 200) : world_scope.
Notation "c ';;' k" := (bind c (fun _ => k))
  (at level 100, k at level 200, right associativity) : world_scope.

Fixpoint mapM {A B} (f : A -> M B) (l : list A) : M (list B) :=
  match l with
  | [] => ret []
  | a :: rest =>
      (do! b := f a in
       do! bs := mapM f rest in
       ret (b :: bs))%world
  end.

(** *** File operations on the prediction directory *)

Definition mkdir_exist_ok : M unit :=
  fun w => (Ok tt, {| dir_exists := true; files := files w; rrd_queries := rrd_queries w |}).

Definition write_text (path text : string) : M unit :=
  fun w =>
    if dir_exists w
    then (Ok tt, {| dir_exists := true;
                    files := <[path := text]> (files w);
                    rrd_queries := rrd_queries w |})
    else (Raise FileNotFoundError, w).

Definition unlink_missing_ok (path : string) : M unit :=
  fun w => (Ok tt, {| dir_exists := dir_exists w;
                      files := delete path (files w);
                      rrd_queries := rrd_queries w |}).

Definition read_text (path : string) : M string :=
  fun w =>
    if dir_exists w
    then match files w !! path with
         | Some text => (Ok text, w)
         | None => (Raise FileNotFoundError, w)
         end
    else (Raise FileNotFoundError, w).

(** ** The environment of the store and of the orchestrator

    What the module takes from outside the sources: the suffix constants of
    [._paths]; [Path(timegroup).with_suffix(suffix)], relative to the store's
    directory; pydantic's [.json()] and [.parse_raw()] of the two models
    ([parse_raw] gives [None] where pydantic raises a validation error);
    [cmk.utils.debug.enabled()]; and [livestatus.get_rrd_data], whose outcome
    may depend on the queries made before. *)

Record Environment {F : Type} : Type := mkEnvironment {
  DATA_FILE_SUFFIX : string;
  INFO_FILE_SUFFIX : string;
  with_suffix : Timegroup -> string -> string;
  info_json : PredictionInfo F -> string;
  info_parse_raw : string -> option (PredictionInfo F);
  data_json : PredictionData F -> string;
  data_parse_raw : string -> option (PredictionData F);
  debug_enabled : bool;
  livestatus_get_rrd_data : list RRDQuery -> RRDQuery -> LivestatusOutcome F
}.
Arguments Environment F : clear implicits.

(** ** Prediction store and orchestrator *)

Section Store.
Context {F : Type} `{PyFloat F}.

Variable env : Environment F.

Definition _data_file (timegroup : Timegroup) : string :=
  with_suffix env timegroup (DATA_FILE_SUFFIX env).

Definition _info_file (timegroup : Timegroup) : string :=
  with_suffix env timegroup (INFO_FILE_SUFFIX env).

Definition save_prediction (info : PredictionInfo F) (data : PredictionData F) : M unit :=
  (mkdir_exist_ok ;;
   write_text (_info_file (info_name info)) (info_json env info) ;;
   write_text (_data_file (info_name info)) (data_json env data))%world.

Definition remove_prediction (timegroup : Timegroup) : M unit :=
  (unlink_missing_ok (_data_file timegroup) ;;
   unlink_missing_ok (_info_file timegroup))%world.

(** [try: return parse_raw(read_text()) except FileNotFoundError: return None] *)
Definition read_model {A} (parse_raw : string -> option A) (file_path : string)
    : M (option A) :=
  fun w =>
    match read_text file_path w with
    | (Ok text, w') =>
        match parse_raw text with
        | Some a => (Ok (Some a), w')
        | None => (Raise ValidationError, w')
        end
    | (Raise FileNotFoundError, w') => (Ok None, w')
    | (Raise e, w') => (Raise e, w')
    end.

Definition get_info (timegroup : Timegroup) : M (option (PredictionInfo F)) :=
  read_model (info_parse_raw env) (_info_file timegroup).

Definition get_data (timegroup : Timegroup) : M (option (PredictionData F)) :=
  read_model (data_parse_raw env) (_data_file timegroup).

(** *** The data source *)

Definition query_livestatus (q : RRDQuery) : M (LivestatusOutcome F) :=
  fun w => (Ok (livestatus_get_rrd_data env (rrd_queries w) q),
            {| dir_exists := dir_exists w;
               files := files w;
               rrd_queries := rrd_queries w ++ [q] |}).

(** The [try]/[except] around the livestatus call and the check of the
    response for [None]. *)
Definition response_or_exception (outcome : LivestatusOutcome F) : result (RRDResponse F) :=
  match outcome with
  | LsNotFound e =>
      if debug_enabled env then Raise (MKLivestatusNotFoundError e)
      else Raise (MKGeneralException
                    ("Cannot get historic metrics via Livestatus: " ++ e))
  | LsFailure e => Raise (MKLivestatusError e)
  | LsReturn None =>
      Raise (MKGeneralException "Cannot retrieve historic data with Nagios Core")
  | LsReturn (Some response) => Ok response
  end.

Definition rrd_query (host_name : HostName) (service_description metric_name : string)
    (cf : ConsolidationFunctionName) (fromtime untiltime : Timestamp) : RRDQuery :=
  {| q_host := host_name;
     q_service := service_description;
     q_column := metric_name ++ "." ++ str_lower cf;
     q_from := fromtime;
     q_until := untiltime |}.

Definition get_rrd_data_with_mk_general_exception
    (host_name : HostName) (service_description metric_name : string)
    (cf : ConsolidationFunctionName) (fromtime untiltime : Timestamp)
    : M (RRDResponse F) :=
  (do! outcome := query_livestatus
         (rrd_query host_name service_description metric_name cf fromtime untiltime) in
   lift (response_or_exception outcome))%world.

Definition fetch_slice (info : PredictionInfo F) (host_name : HostName)
    (service_description : ServiceName) (from_time : Timestamp)
    (window : Timestamp * Timestamp) : M (RRDResponse F * Z) :=
  (do! rrd_response := get_rrd_data_with_mk_general_exception
         host_name service_description (info_dsname info) (info_cf info)
         (fst window) (snd window) in
   ret (rrd_response, from_time - fst window))%world.

Definition raw_slice_of (r : RRDResponse F * Z) : TimeSeries F * Z :=
  (TimeSeries_init (resp_values (fst r)) (resp_window (fst r)), snd r).

Definition compute_prediction (info : PredictionInfo F) (now : Z)
    (period_info : _PeriodInfo) (host_name : HostName)
    (service_description : ServiceName) : M (PredictionData F) :=
  (remove_prediction (info_name info) ;;
   do! time_windows :=
     lift (_time_slices now (horizon (info_params info) * 86400)
                        period_info (info_name info)) in
   do! first := lift (getitem time_windows 0) in
   let from_time := fst first in
   do! rrd_responses :=
     mapM (fetch_slice info host_name service_description from_time) time_windows in
   let raw_slices := map raw_slice_of rrd_responses in
   do! data_for_pred := lift (_calculate_data_for_prediction raw_slices) in
   save_prediction info data_for_pred ;;
   ret data_for_pred)%world.

End Store.

(** ** What upsampling is compared with *)

Section UpsampleSpec.
Context {F : Type}.

(** The value of the first source bucket whose end timestamp lies strictly
    after [t]. *)
Definition first_after (cts : list Z) (vals : TimeSeriesValues F) (t : Z) : option (TimeSeriesValue F) :=
  match list_find (fun c => t < c) cts with
  | Some (k, _) => vals !! k
  | None => None
  end.

(** The spec's wording of the same: the value of the first source bucket
    whose end timestamp is at or after [t]. *)
Definition first_at_or_after (cts : list Z) (vals : TimeSeriesValues F) (t : Z) : option (TimeSeriesValue F) :=
  match list_find (fun c => t <= c) cts with
  | Some (k, _) => vals !! k
  | None => None
  end.

(** The target timestamps lie in the source's domain [[start, end)]. *)
Definition covered (self : TimeSeries F) (tw : TimeWindow) : Prop :=
  Forall (fun t => ts_start self <= t < ts_end self)
         (range_items (tw_start tw) (tw_end tw) (tw_step tw)).

End UpsampleSpec.

(** The [k]-th timestamp of a grid that starts at [start]. *)
Definition target_at (start step : Z) (k : nat) : Z := start + Z.of_nat k * step.

(** ** The standard deviation as the spec writes it *)

Section StdevSpec.
Context {F : Type} `{PyFloat F}.

(** [sqrt(|sum of squares - n * average^2| / (n - 1))] in the arithmetic of
    the carrier, from the squares of the [n] samples and the square of the
    average. *)
Definition stdev_formula (squares : list F) (average_squared : F) : result F :=
  let n := Z.of_nat (length squares) in
  fsqrt (fdiv (fabs (fsub (py_sum squares) (fmul (of_int n) average_squared)))
              (of_int (n - 1))).

End StdevSpec.

(** ** The order of the samples *)

(** [x < y] is irreflexive and transitive on the items of [l]. *)
Definition strict_order_on {F : Type} `{PyFloat F} (l : list F) : Prop :=
  (forall x, x ∈ l -> fltb x x = false) /\
  (forall x y z, x ∈ l -> y ∈ l -> z ∈ l ->
     fltb x y = true -> fltb y z = true -> fltb x z = true).

(** ** The partitioner's walk *)

(** The bucket identity of a timestamp and the bucket around it. *)
Definition identity_of (period_info : _PeriodInfo) (t : Timestamp) : Timegroup :=
  fst (pi_groupby period_info t).

Definition bucket_of (period_info : _PeriodInfo) (t : Timestamp) : Timestamp * Timestamp :=
  let from_time := t - snd (pi_groupby period_info t) in
  (from_time, from_time + pi_slice period_info).

(** The timestamps visited from [now] backwards, [n] of them. *)
Definition begins_back (now : Timestamp) (slice_width : Z) (n : nat) : list Timestamp :=
  map (fun k => now - Z.of_nat k * slice_width) (seq 0 n).

(** Example zones: UTC, and Central European Time with the daylight saving
    period of 2024 (from 2024-03-31 01:00 UTC to 2024-10-27 01:00 UTC). *)
Definition utc : Zone :=
  {| zone_timezone := 0; zone_altzone := 0; zone_dst := fun _ => false |}.

Definition berlin_2024 : Zone :=
  {| zone_timezone := -3600;
     zone_altzone := -7200;
     zone_dst := fun t => (1711846800 <=? t) && (t <? 1729990800) |}.

(** ** Worlds and queries of a run *)

(** The world with another query log. *)
Definition with_queries (w : World) (queries : list RRDQuery) : World :=
  {| dir_exists := dir_exists w; files := files w; rrd_queries := queries |}.

(** The files of a directory after [remove_prediction]. *)
Definition removed_files {F : Type} (env : Environment F) (timegroup : Timegroup)
    (fs : gmap string string) : gmap string string :=
  delete (_info_file env timegroup) (delete (_data_file env timegroup) fs).

(** The livestatus query made for a window. *)
Definition slice_query {F : Type} (info : PredictionInfo F) (host_name : HostName)
    (service_description : ServiceName) (window : Timestamp * Timestamp) : RRDQuery :=
  rrd_query host_name service_description (info_dsname info) (info_cf info)
            (fst window) (snd window).

(** ** A concrete environment: one stored artifact, a fixed data source *)

Definition example_params : PredictionParameters PrimFloat.float :=
  {| period := hour; horizon := 2;
     levels_upper := None; levels_upper_min := None; levels_lower := None |}.

Definition example_info : PredictionInfo PrimFloat.float :=
  {| info_name := "everyday";
     info_time := 1712053800;
     info_range := (1712016000, 1712102400);
     info_cf := "MAX";
     info_dsname := "load1";
     info_slice := 86400;
     info_params := example_params |}.

Definition example_data : PredictionData PrimFloat.float :=
  {| points := [None; None]; data_twindow := [1712016000; 1712102400]; step := 43200 |}.

Definition example_response : RRDResponse PrimFloat.float :=
  {| resp_window := (1712016000, 1712102400, 43200); resp_values := [None; None] |}.

(** The floats pydantic writes as numbers; it writes an infinity or a NaN
    as [null]. *)
Definition finite_stat (st : DataStat PrimFloat.float) : bool :=
  PrimFloat.is_finite (average st) && PrimFloat.is_finite (min_ st)
  && PrimFloat.is_finite (max_ st).

Definition finite_data (data : PredictionData PrimFloat.float) : bool :=
  forallb (fun point => match point with None => true | Some st => finite_stat st end)
          (points data).

(** The suffixes are those of Checkmk's [_paths] module; the bucket
    identities of the catalog have no dot, so [with_suffix] appends.  Of
    pydantic the environment keeps that it reads back the stored artifact,
    and that it does not accept the [null] it has written for a float that
    is not finite. *)
Definition example_env (debug : bool)
    (livestatus : list RRDQuery -> RRDQuery -> LivestatusOutcome PrimFloat.float) : Environment PrimFloat.float :=
  {| DATA_FILE_SUFFIX := "";
     INFO_FILE_SUFFIX := ".info";
     with_suffix := fun timegroup suffix => (timegroup ++ suffix)%string;
     info_json := fun _ => "info of everyday"%string;
     info_parse_raw := fun text =>
       if String.eqb text "info of everyday" then Some example_info else None;
     data_json := fun data =>
       if finite_data data then "data of everyday"%string
       else "data with null for a float"%string;
     data_parse_raw := fun text =>
       if String.eqb text "data of everyday" then Some example_data else None;
     debug_enabled := debug;
     livestatus_get_rrd_data := livestatus |}.

(** Livestatus does not know the metric. *)
Definition not_found : list RRDQuery -> RRDQuery -> LivestatusOutcome PrimFloat.float :=
  fun _ _ => LsNotFound "no such metric".

(** Livestatus (the Nagios core) returns no response. *)
Definition no_response : list RRDQuery -> RRDQuery -> LivestatusOutcome PrimFloat.float :=
  fun _ _ => LsReturn None.

(** Livestatus fails with an error other than not-found. *)
Definition socket_error : list RRDQuery -> RRDQuery -> LivestatusOutcome PrimFloat.float :=
  fun _ _ => LsFailure "socket error".

(** Livestatus answers the first query and has lost the metric afterwards. *)
Definition found_once : list RRDQuery -> RRDQuery -> LivestatusOutcome PrimFloat.float :=
  fun history _ =>
    match history with
    | [] => LsReturn (Some example_response)
    | _ :: _ => LsNotFound "no such metric"
    end.

Definition stored_world : World :=
  {| dir_exists := true;
     files := {[ "everyday"%string := "data of everyday"%string;
                 "everyday.info"%string := "info of everyday"%string ]};
     rrd_queries := [] |}.

(** ** The constructor of [TimeSeries] in full

    [to_int] is [int(x)] on a float, [conversion] the unit conversion.  The
    argument of the [ValueError] (the data) is not kept. *)

Section TimeSeriesNew.
Context {F : Type}.
(** [int(x)] on a float: fails on an infinity or a NaN. *)
Variable to_int : F -> result Z.
Variable conversion : F -> F.

Definition convert_values (data : TimeSeriesValues F) : TimeSeriesValues F :=
  map (fun v => match v with None => None | Some x => Some (conversion x) end) data.

(** [data[i] is None], which raises [IndexError] past the end of [data]. *)
Definition item_is_none (data : TimeSeriesValues F) (i : nat) : result (option F) :=
  getitem data i.

Definition TimeSeries_new (data : TimeSeriesValues F) (time_window : option TimeWindow)
    : result (TimeSeries F) :=
  match time_window with
  | Some tw =>
      Ok {| ts_start := tw_start tw; ts_end := tw_end tw; ts_step := tw_step tw;
            ts_values := convert_values data |}
  | None =>
      match data with
      | [] => Raise (ValueError "data")
      | _ :: _ =>
          let! d0 := item_is_none data 0 in
          match d0 with
          | None => Raise (ValueError "data")
          | Some x0 =>
              let! d1 := item_is_none data 1 in
              match d1 with
              | None => Raise (ValueError "data")
              | Some x1 =>
                  let! d2 := item_is_none data 2 in
                  match d2 with
                  | None => Raise (ValueError "data")
                  | Some x2 =>
                      let! start := to_int x0 in
                      let! end_ := to_int x1 in
                      let! step := to_int x2 in
                      Ok {| ts_start := start; ts_end := end_; ts_step := step;
                            ts_values := convert_values (drop 3 data) |}
                  end
              end
          end
      end
  end.

End TimeSeriesNew.

(** A directory that does not exist holds no files. *)
Definition world_ok (w : World) : Prop := dir_exists w = false -> files w = ∅.

(** Livestatus answers every query with the same response. *)
Definition always_found : list RRDQuery -> RRDQuery -> LivestatusOutcome PrimFloat.float :=
  fun _ _ => LsReturn (Some example_response).



(** ** What downsampling is compared with *)

Section DownsampleSpec.
Context {F : Type} `{PyFloat F}.

(** The values of the pairs whose timestamp lies in bucket [j] of the window
    [tw]: after the bucket's start [start + j * step], at or before its end
    [start + (j + 1) * step]. *)
Definition bucket_values (tw : TimeWindow) (pairs : list (Timestamp * TimeSeriesValue F))
    (j : nat) : TimeSeriesValues F :=
  map snd
      (filter (fun pr => tw_start tw + Z.of_nat j * tw_step tw < fst pr
                         <= tw_start tw + (Z.of_nat j + 1) * tw_step tw)
              pairs).

(** The part of [downsample] after its loop. *)
Definition downsample_finish (desired_times : list Z) (cf : option ConsolidationFunctionName)
    (st : TimeSeriesValues F * TimeSeriesValues F * nat) : result (TimeSeriesValues F) :=
  let '(dwsa, co, _) := st in
  if (length dwsa <? length desired_times)%nat then
    let! a := aggregation_functions co cf in
    Ok ((dwsa ++ [a])
          ++ repeat None (length desired_times - length dwsa - 1))
  else Ok dwsa.

(** Pairs whose timestamps go up in steps of [p] from [tau]. *)
Definition stepping (p tau : Z) (pairs : list (Timestamp * TimeSeriesValue F)) : Prop :=
  forall (k : nat) pr, pairs !! k = Some pr -> fst pr = tau + Z.of_nat k * p.

End DownsampleSpec.

(** The type abbreviations of the module, unfolded for [lia] and rewriting. *)
Ltac unalias := unfold TimeSeriesValues, TimeSeriesValue, Timestamp, Seconds in *.

(** * Properties *)

(** ** The model at work, in binary64 *)

Example rrd_timestamps_right_aligned : rrd_timestamps (0, 30, 10) = [10; 20; 30].
Proof. reflexivity. Qed.

Example rrd_timestamps_zero_step : rrd_timestamps (0, 30, 0) = [].
Proof. reflexivity. Qed.

Example downsample_max_by_two :
  downsample (mkTimeSeries 0 40 10
                [Some (float_of_Z 1); Some (float_of_Z 2); Some (float_of_Z 3); None])
             (0, 40, 20) (Some "max"%string)
  = Ok [Some (float_of_Z 2); Some (float_of_Z 3)].
Proof. vm_compute. reflexivity. Qed.

Example downsample_fills_with_none :
  downsample (mkTimeSeries 0 20 10 [Some (float_of_Z 1); Some (float_of_Z 5)])
             (0, 60, 20) (Some "min"%string)
  = Ok [Some (float_of_Z 1); None; None].
Proof. vm_compute. reflexivity. Qed.

Example bfill_upsample_by_two :
  bfill_upsample (mkTimeSeries 0 20 10 [Some (float_of_Z 1); Some (float_of_Z 2)]) (0, 20, 5)
  = Ok [Some (float_of_Z 1); Some (float_of_Z 1); Some (float_of_Z 2); Some (float_of_Z 2)].
Proof. vm_compute. reflexivity. Qed.

Example bfill_upsample_overrun :
  bfill_upsample (mkTimeSeries 0 20 10 [Some (float_of_Z 1); Some (float_of_Z 2)]) (0, 40, 10)
  = Raise IndexError.
Proof. vm_compute. reflexivity. Qed.

(** The three aligned Tuesdays of the spec's end-to-end example. *)
Example data_stats_three_windows :
  let sample z := Some (float_of_Z z) in
  exists stats,
    _data_stats [[sample 10; sample 10; sample 12];
                 [sample 10; sample 12; sample 12];
                 [sample 12; sample 12; sample 12]] = Ok stats /\
    map (option_map average) stats
    = [Some (PrimFloat.div (float_of_Z 32) (float_of_Z 3));
       Some (PrimFloat.div (float_of_Z 34) (float_of_Z 3));
       Some (float_of_Z 12)] /\
    map (option_map min_) stats = [sample 10; sample 10; sample 12] /\
    map (option_map max_) stats = [sample 12; sample 12; sample 12].
Proof. eexists. split; [vm_compute; reflexivity|]. repeat split; reflexivity. Qed.

(** The mean of [statistics.fmean] is rounded: that of three times 0.1 is
    above 0.1. *)
Example fmean_above_the_maximum :
  aggregation_functions [Some 0.1%float; Some 0.1%float; Some 0.1%float]
                        (Some "average"%string)
  = Ok (Some 0.10000000000000002%float) /\
  PrimFloat.ltb 0.1%float 0.10000000000000002%float = true.
Proof. split; vm_compute; reflexivity. Qed.

(** A sum out of range: [math.fsum] raises, and with it the consolidation
    and the downsampling that asked for the mean. *)
Example downsample_average_overflow :
  downsample (mkTimeSeries 0 30 10 [Some 1e308%float; Some 1e308%float; Some 1%float])
             (0, 40, 20) (Some "average"%string)
  = Raise OverflowError.
Proof. vm_compute. reflexivity. Qed.

(** A square out of range: the summary of a column with two samples of
    1e200 raises. *)
Example data_stats_overflow :
  _data_stats [[Some 1e200%float]; [Some 1e200%float]] = Raise OverflowError.
Proof. vm_compute. reflexivity. Qed.

(** ** [range] and [rrd_timestamps] *)

Lemma range_items_length start stop step :
  length (range_items start stop step) = range_len start stop step.
Proof. unfold range_items. now rewrite length_map, length_seq. Qed.

Lemma range_items_lookup start stop step (k : nat) :
  (k < range_len start stop step)%nat ->
  range_items start stop step !! k = Some (start + Z.of_nat k * step).
Proof.
  intros Hk. unfold range_items.
  rewrite list_lookup_fmap, lookup_seq_lt by exact Hk. reflexivity.
Qed.

Lemma range_items_lookup_inv start stop step (k : nat) t :
  range_items start stop step !! k = Some t ->
  (k < range_len start stop step)%nat /\ t = start + Z.of_nat k * step.
Proof.
  intros Hl. assert (Hk : (k < range_len start stop step)%nat).
  { rewrite <- range_items_length. eapply lookup_lt_Some, Hl. }
  split; [exact Hk|]. rewrite range_items_lookup in Hl by exact Hk. congruence.
Qed.

(** Going up: [k] is an index of the range exactly when the [k]-th item is
    still below [stop]. *)
Lemma range_len_up start stop step (k : nat) :
  0 < step ->
  (k < range_len start stop step)%nat <-> start + Z.of_nat k * step < stop.
Proof.
  intros Hs. unfold range_len.
  destruct (Z.ltb_spec 0 step) as [_|]; [|lia].
  destruct (Z.ltb_spec start stop) as [Hlt|Hge].
  - pose proof (Z.div_mod (stop - start - 1) step ltac:(lia)) as Hdm.
    pose proof (Z.mod_pos_bound (stop - start - 1) step Hs) as Hb.
    assert (0 <= (stop - start - 1) / step) by (apply Z.div_pos; lia).
    split; intros Hk; nia.
  - split; [lia|]. intros Hk. nia.
Qed.

(** Going down, as [_time_slices] does. *)
Lemma range_len_down start stop step (k : nat) :
  step < 0 ->
  (k < range_len start stop step)%nat <-> stop < start + Z.of_nat k * step.
Proof.
  intros Hs. unfold range_len.
  destruct (Z.ltb_spec 0 step) as [|_]; [lia|].
  destruct (Z.ltb_spec stop start) as [Hlt|Hge].
  - pose proof (Z.div_mod (start - stop - 1) (- step) ltac:(lia)) as Hdm.
    pose proof (Z.mod_pos_bound (start - stop - 1) (- step) ltac:(lia)) as Hb.
    assert (0 <= (start - stop - 1) / (- step)) by (apply Z.div_pos; lia).
    split; intros Hk; nia.
  - split; [lia|]. intros Hk. nia.
Qed.

Lemma rrd_timestamps_length start end_ step :
  0 < step ->
  length (rrd_timestamps (start, end_, step)) = range_len start end_ step.
Proof.
  intros Hs. unfold rrd_timestamps.
  destruct (Z.eqb_spec step 0) as [|_]; [lia|].
  now rewrite length_map, range_items_length.
Qed.

Lemma rrd_timestamps_lookup start end_ step (k : nat) :
  0 < step ->
  (k < range_len start end_ step)%nat ->
  rrd_timestamps (start, end_, step) !! k = Some (start + (Z.of_nat k + 1) * step).
Proof.
  intros Hs Hk. unfold rrd_timestamps.
  destruct (Z.eqb_spec step 0) as [|_]; [lia|].
  rewrite list_lookup_fmap, range_items_lookup by exact Hk. simpl. f_equal. lia.
Qed.

(** ** Upsampling *)

Section Upsample.
Context {F : Type}.
Implicit Types (vals : TimeSeriesValues F) (cts : list Z).

Lemma first_after_index cts vals t (i : nat) c :
  cts !! i = Some c ->
  t < c ->
  (forall j d, cts !! j = Some d -> (j < i)%nat -> d <= t) ->
  first_after cts vals t = vals !! i.
Proof.
  intros Hi Hc Hbefore. unfold first_after.
  assert (list_find (fun c => t < c) cts = Some (i, c)) as ->; [|reflexivity].
  apply list_find_Some. split_and!; [exact Hi|exact Hc|].
  intros j d Hj Hlt. specialize (Hbefore j d Hj Hlt). lia.
Qed.

(** Where no source bucket ends strictly inside the target slot from [t] to
    [t + width], the first bucket ending after [t] is the first one ending
    at or after the slot's end. *)
Lemma first_after_slot_end cts vals (t width : Z) :
  0 < width ->
  (forall c, c ∈ cts -> t < c -> t + width <= c) ->
  first_after cts vals t = first_at_or_after cts vals (t + width).
Proof.
  intros Hwidth Hgrid. unfold first_after, first_at_or_after.
  assert (Hfind : list_find (fun c => t < c) cts = list_find (fun c => t + width <= c) cts);
    [|now rewrite Hfind].
  induction cts as [|c rest IH]; [reflexivity|]. cbn [list_find].
  rewrite IH by (intros d Hd; apply Hgrid; now right).
  destruct (decide (t < c)) as [Hlt|Hge], (decide (t + width <= c)) as [Hle|Hgt];
    try reflexivity.
  - exfalso. apply Hgt, Hgrid; [left|exact Hlt].
  - lia.
Qed.

Section Loop.
(** A source grid [s + p, s + 2p, ..., s + np] with one value per bucket,
    and target timestamps [s' + k p']. *)
Variables (s p s' p' : Z) (n : nat).
Variables (cts : list Z) (vals : TimeSeriesValues F).
Hypothesis Hp : 0 < p.
Hypothesis Hp' : 0 < p' <= p.
Hypothesis Hcts : forall k, (k < n)%nat -> cts !! k = Some (s + (Z.of_nat k + 1) * p).
Hypothesis Hlen_cts : length cts = n.
Hypothesis Hlen_vals : length vals = n.

Local Abbreviation target := (target_at s' p').

Lemma cts_lookup_inv j d : cts !! j = Some d -> d = s + (Z.of_nat j + 1) * p.
Proof using Hcts Hlen_cts.
  intros Hj. assert (j < n)%nat by (rewrite <- Hlen_cts; eapply lookup_lt_Some, Hj).
  rewrite Hcts in Hj by assumption. congruence.
Qed.

(** At index [i] before the target [a]: the buckets before [i] have ended,
    and bucket [i + 1] has not. *)
Lemma bfill_loop_first_after (m a i : nat) (acc : TimeSeriesValues F) :
  (forall j, (j < m)%nat -> s <= target (a + j)%nat < s + Z.of_nat n * p) ->
  (i = 0%nat \/ s + Z.of_nat i * p <= target a) ->
  target a < s + (Z.of_nat i + 2) * p ->
  exists outs,
    bfill_loop cts vals (map target (seq a m)) i acc = Ok (acc ++ outs) /\
    Forall2 (fun t v => first_after cts vals t = Some v) (map target (seq a m)) outs.
Proof using Hp Hp' Hcts Hlen_cts Hlen_vals.
  revert a i acc. induction m as [|m IH]; intros a i acc Hcov Hlow Hup.
  - exists []. simpl. rewrite app_nil_r. split; [reflexivity|constructor].
  - pose proof (Hcov 0%nat ltac:(lia)) as Hc0. rewrite Nat.add_0_r in Hc0.
    assert (Hi : (i < n)%nat) by (unfold target_at in *; destruct Hlow; nia).
    simpl. unfold getitem at 1. rewrite (Hcts i Hi). simpl.
    set (i' := if s + (Z.of_nat i + 1) * p <=? target a then S i else i).
    assert (Hi' : (i' < n)%nat /\ target a < s + (Z.of_nat i' + 1) * p /\
                  (i' = 0%nat \/ s + Z.of_nat i' * p <= target a)).
    { subst i'. destruct (Z.leb_spec (s + (Z.of_nat i + 1) * p) (target a)).
      - unfold target_at in *. split_and!; [nia|nia|right; nia].
      - split_and!; [lia|lia|]. destruct Hlow; [left; assumption|right; lia]. }
    destruct Hi' as (Hlt & Hafter & Hbefore).
    destruct (lookup_lt_is_Some_2 vals i') as [v Hv]; [lia|].
    unfold getitem. rewrite Hv. simpl.
    assert (Hfirst : first_after cts vals (target a) = Some v).
    { rewrite <- Hv. apply (first_after_index _ _ _ _ _ (Hcts i' Hlt) Hafter).
      intros j d Hj Hji. apply cts_lookup_inv in Hj. subst d.
      destruct Hbefore; nia. }
    destruct (IH (S a) i' (acc ++ [v])) as (outs & Hrun & Hspec).
    + intros j Hj. replace (S a + j)%nat with (a + S j)%nat by lia.
      apply Hcov. lia.
    + unfold target_at in *. destruct Hbefore; [left; assumption|right; nia].
    + unfold target_at in *. nia.
    + exists (v :: outs). split.
      * rewrite Hrun, <- app_assoc. reflexivity.
      * constructor; assumption.
Qed.
End Loop.

(** When the target window is the source's own, the values themselves are
    the first-after values. *)
Lemma own_window_first_after (self : TimeSeries F) :
  0 < ts_step self ->
  length (ts_values self) = length (rrd_timestamps (twindow self)) ->
  Forall2 (fun t v => first_after (rrd_timestamps (twindow self)) (ts_values self) t = Some v)
          (range_items (ts_start self) (ts_end self) (ts_step self)) (ts_values self).
Proof.
  intros Hp Hlen. unfold twindow in *.
  rewrite rrd_timestamps_length in Hlen by exact Hp.
  apply Forall2_same_length_lookup_2.
  - now rewrite range_items_length.
  - intros k t v Ht Hv. apply range_items_lookup_inv in Ht as [Hk ->].
    rewrite <- Hv.
    apply (first_after_index _ _ _ _ _ (rrd_timestamps_lookup _ _ _ _ Hp Hk)); [nia|].
    intros j d Hj Hjk. rewrite rrd_timestamps_lookup in Hj by (exact Hp || lia).
    injection Hj as <-. nia.
Qed.

Lemma TimeWindow_eqb_eq (a b : TimeWindow) : TimeWindow_eqb a b = true <-> a = b.
Proof.
  destruct a as [[a1 a2] a3], b as [[b1 b2] b3].
  unfold TimeWindow_eqb, tw_start, tw_end, tw_step; simpl.
  rewrite !andb_true_iff, !Z.eqb_eq. split; [intros [[-> ->] ->]; reflexivity|].
  intros [= -> -> ->]. auto.
Qed.

End Upsample.

(** C1 (amended).  For a series with one value per bucket and a positive
    step, and a target window with a positive step not larger than the
    source's, whose timestamps [start, start + step, ...] (below [end]) all lie
    in the source's domain and whose start is less than two source steps
    after the source's start: [bfill_upsample] returns without an index
    overrun, with one value per target timestamp [t], each the value of the
    first source bucket whose end timestamp is strictly greater than [t];
    where no source bucket ends strictly inside the target slot that starts
    at [t], that is the first source bucket whose end timestamp is at or
    after the slot's end [t + step]. *)
Theorem bfill_upsample_first_after {F : Type} (self : TimeSeries F) (tw : TimeWindow) :
  0 < ts_step self ->
  0 < tw_step tw <= ts_step self ->
  length (ts_values self) = length (rrd_timestamps (twindow self)) ->
  covered self tw ->
  tw_start tw < ts_start self + 2 * ts_step self ->
  exists upsa,
    bfill_upsample self tw = Ok upsa /\
    Forall2 (fun t v =>
               first_after (rrd_timestamps (twindow self)) (ts_values self) t = Some v /\
               ((forall c, c ∈ rrd_timestamps (twindow self) -> t < c -> t + tw_step tw <= c) ->
                first_at_or_after (rrd_timestamps (twindow self)) (ts_values self)
                                  (t + tw_step tw) = Some v))
            (range_items (tw_start tw) (tw_end tw) (tw_step tw)) upsa.
Proof.
  intros Hp Hp' Hlen Hcov Hstart.
  cut (exists upsa,
          bfill_upsample self tw = Ok upsa /\
          Forall2 (fun t v =>
                     first_after (rrd_timestamps (twindow self)) (ts_values self) t = Some v)
                  (range_items (tw_start tw) (tw_end tw) (tw_step tw)) upsa).
  { intros (upsa & Hrun & Hspec). exists upsa. split; [exact Hrun|].
    eapply Forall2_impl; [exact Hspec|]. intros t v Hv. split; [exact Hv|].
    intros Hgrid. rewrite <- Hv. symmetry. apply first_after_slot_end; [lia|exact Hgrid]. }
  unfold bfill_upsample.
  destruct (TimeWindow_eqb tw (twindow self)) eqn:Heq.
  - apply TimeWindow_eqb_eq in Heq. subst tw. exists (ts_values self).
    split; [reflexivity|]. now apply own_window_first_after.
  - unfold py_range. destruct (Z.eqb_spec (tw_step tw) 0) as [|_]; [lia|]. simpl.
    unfold twindow in *. rewrite rrd_timestamps_length in Hlen by exact Hp.
    set (n := range_len (ts_start self) (ts_end self) (ts_step self)) in *.
    assert (Hend : ts_end self <= ts_start self + Z.of_nat n * ts_step self).
    { pose proof (range_len_up (ts_start self) (ts_end self) (ts_step self) n Hp) as Hn.
      fold n in Hn. destruct (Z.lt_ge_cases (ts_start self + Z.of_nat n * ts_step self)
                                            (ts_end self)) as [Hlt|]; [|lia].
      apply Hn in Hlt. lia. }
    unfold range_items.
    apply (bfill_loop_first_after (ts_start self) (ts_step self) (tw_start tw) (tw_step tw) n
             _ _ Hp Hp').
    + intros k Hk. now apply rrd_timestamps_lookup.
    + now apply rrd_timestamps_length.
    + exact Hlen.
    + intros j Hj. unfold target_at, covered in *.
      rewrite Forall_lookup in Hcov.
      specialize (Hcov j _ (range_items_lookup _ _ _ j Hj)). simpl in *. lia.
    + left. reflexivity.
    + unfold target_at. simpl. lia.
Qed.

Lemma bfill_upsample_first_after_witness :
  let self := mkTimeSeries 0 20 10 [Some 1%float; Some 2%float] in
  let tw : TimeWindow := (0, 20, 5) in
  exists upsa,
    bfill_upsample self tw = Ok upsa /\
    Forall2 (fun t v =>
               first_after (rrd_timestamps (twindow self)) (ts_values self) t = Some v /\
               ((forall c, c ∈ rrd_timestamps (twindow self) -> t < c -> t + tw_step tw <= c) ->
                first_at_or_after (rrd_timestamps (twindow self)) (ts_values self)
                                  (t + tw_step tw) = Some v))
            (range_items (tw_start tw) (tw_end tw) (tw_step tw)) upsa.
Proof.
  apply (bfill_upsample_first_after (mkTimeSeries 0 20 10 [Some 1%float; Some 2%float]) (0, 20, 5)).
  - simpl. lia.
  - unfold tw_step. simpl. lia.
  - reflexivity.
  - unfold covered. change (Forall (fun t => 0 <= t < 20) [0; 5; 10; 15]).
    repeat (apply List.Forall_cons; [lia|]). apply List.Forall_nil.
  - unfold tw_start. simpl. lia.
Defined.

(** C1 (as stated) fails.  Source buckets ending at 10, 20, 30 with values
    1, 2, 3; target timestamps 4, 10, 16, 22, all inside the source's domain.
    At the target timestamp 10 the code has already moved on to the bucket
    ending at 20, while the first bucket whose end is at or after 10 is the
    one ending at 10.  Reading "target timestamp" as the end of the target
    slot does not help: for the slot from 16 to 22 the code yields the value
    of the bucket ending at 20. *)
Lemma bfill_upsample_at_or_after_counterexample :
  let self := mkTimeSeries 0 30 10 [Some 1%float; Some 2%float; Some 3%float] in
  let tw : TimeWindow := (4, 28, 6) in
  let cts := rrd_timestamps (twindow self) in
  covered self tw /\
  range_items (tw_start tw) (tw_end tw) (tw_step tw) = [4; 10; 16; 22] /\
  bfill_upsample self tw = Ok [Some 1%float; Some 2%float; Some 2%float; Some 3%float] /\
  ~ (exists upsa,
       bfill_upsample self tw = Ok upsa /\
       Forall2 (fun t v => first_at_or_after cts (ts_values self) t = Some v)
               [4; 10; 16; 22] upsa) /\
  ~ (exists upsa,
       bfill_upsample self tw = Ok upsa /\
       Forall2 (fun t v => first_at_or_after cts (ts_values self) (t + 6) = Some v)
               [4; 10; 16; 22] upsa).
Proof.
  cbv zeta.
  assert (Hrun : bfill_upsample (mkTimeSeries 0 30 10 [Some 1%float; Some 2%float; Some 3%float]) (4, 28, 6)
                 = Ok [Some 1%float; Some 2%float; Some 2%float; Some 3%float]) by reflexivity.
  split_and!.
  - unfold covered. change (Forall (fun t => 0 <= t < 30) [4; 10; 16; 22]).
    repeat (apply List.Forall_cons; [lia|]). apply List.Forall_nil.
  - reflexivity.
  - exact Hrun.
  - intros (upsa & Hup & Hspec). rewrite Hrun in Hup. injection Hup as <-.
    inversion Hspec as [|? ? ? ? _ Hrest]; subst.
    inversion Hrest as [|? ? ? ? Hat10 _]; subst.
    change (Some (Some 1%float) = Some (Some 2%float)) in Hat10.
    apply (f_equal (fun o => match o with
                             | Some (Some x) => PrimFloat.eqb x 2%float
                             | _ => false
                             end)) in Hat10.
    vm_compute in Hat10. discriminate.
  - intros (upsa & Hup & Hspec). rewrite Hrun in Hup. injection Hup as <-.
    inversion Hspec as [|? ? ? ? _ Hrest]; subst.
    inversion Hrest as [|? ? ? ? _ Hrest']; subst.
    inversion Hrest' as [|? ? ? ? Hat22 _]; subst.
    change (Some (Some 3%float) = Some (Some 2%float)) in Hat22.
    apply (f_equal (fun o => match o with
                             | Some (Some x) => PrimFloat.eqb x 2%float
                             | _ => false
                             end)) in Hat22.
    vm_compute in Hat22. discriminate.
Qed.

(** ** Consolidation functions *)

Section AggregationProps.
Context {F : Type} `{PyFloat F}.

Lemma drop_none_all_none (series : TimeSeriesValues F) :
  Forall (fun v => v = None) series -> drop_none series = [].
Proof.
  induction 1 as [|v rest Hv _ IH]; [reflexivity|]. subst v. exact IH.
Qed.

Lemma str_lower_idemp (s : string) : str_lower (str_lower s) = str_lower s.
Proof.
  induction s as [|c rest IH]; [reflexivity|]. simpl. rewrite IH. f_equal.
  clear. destruct c as [[] [] [] [] [] [] [] []]; reflexivity.
Qed.

Lemma aggregation_functions_lower (series : TimeSeriesValues F) (a : string) :
  aggregation_functions series (Some a) = aggregation_functions series (Some (str_lower a)).
Proof. unfold aggregation_functions. now rewrite str_lower_idemp. Qed.

Lemma aggregation_functions_default (series : TimeSeriesValues F) :
  aggregation_functions series None = aggregation_functions series (Some "max"%string).
Proof. reflexivity. Qed.

(** [downsample] uses [cf] only through [aggregation_functions]. *)
Lemma downsample_loop_ext (cf cf' : option ConsolidationFunctionName) :
  (forall series : TimeSeriesValues F,
      aggregation_functions series cf = aggregation_functions series cf') ->
  forall desired_times pairs dwsa co i,
    downsample_loop desired_times cf pairs dwsa co i
    = downsample_loop desired_times cf' pairs dwsa co i.
Proof.
  intros Hagg desired_times pairs.
  induction pairs as [|[t val] rest IH]; intros dwsa co i; [reflexivity|].
  simpl. destruct (getitem desired_times i) as [d|e]; [|reflexivity]. simpl.
  destruct (d <? t); [|apply IH].
  rewrite Hagg. destruct (aggregation_functions co cf'); [|reflexivity]. simpl. apply IH.
Qed.

Lemma downsample_ext (cf cf' : option ConsolidationFunctionName) :
  (forall series : TimeSeriesValues F,
      aggregation_functions series cf = aggregation_functions series cf') ->
  forall self tw, downsample self tw cf = downsample self tw cf'.
Proof.
  intros Hagg self tw. unfold downsample.
  destruct (TimeWindow_eqb tw (twindow self)); [reflexivity|].
  rewrite (downsample_loop_ext cf cf' Hagg).
  destruct (downsample_loop _ cf' _ _ _ _) as [[[dwsa co] i]|e]; [|reflexivity].
  simpl. destruct (_ <? _)%nat; [|reflexivity]. now rewrite Hagg.
Qed.
End AggregationProps.

(** C4.  Whatever the consolidation function: a series without a value (all
    [None], or empty) aggregates to [None], not to a number and not to an
    error. *)
Theorem aggregation_all_none {F : Type} `{PyFloat F}
    (series : TimeSeriesValues F) (aggr : option ConsolidationFunctionName) :
  Forall (fun v => v = None) series ->
  aggregation_functions series aggr = Ok None.
Proof.
  intros Hnone. unfold aggregation_functions.
  now rewrite (drop_none_all_none series Hnone).
Qed.

Lemma aggregation_all_none_witness :
  aggregation_functions (F := PrimFloat.float) [None; None] (Some "average"%string) = Ok None
  /\ aggregation_functions (F := PrimFloat.float) [] (Some "min"%string) = Ok None.
Proof.
  split.
  - apply (aggregation_all_none (F := PrimFloat.float)). repeat (apply List.Forall_cons; [reflexivity|]).
    apply List.Forall_nil.
  - apply (aggregation_all_none (F := PrimFloat.float)). apply List.Forall_nil.
Defined.

(** C3 (amended).  On a series with at least one value, a consolidation
    function name that in lower case is none of average, max, min raises the
    invalid-aggregation error (a [ValueError]); no other function is applied
    and no [None] is returned. *)
Theorem aggregation_unknown_name {F : Type} `{PyFloat F}
    (series : TimeSeriesValues F) (name : ConsolidationFunctionName) :
  drop_none series <> [] ->
  str_lower name <> "average"%string ->
  str_lower name <> "max"%string ->
  str_lower name <> "min"%string ->
  aggregation_functions series (Some name)
  = Raise (ValueError ("Invalid Aggregation function " ++ str_lower name
                        ++ ", only max, min, average allowed")).
Proof.
  intros Hvals Havg Hmax Hmin. unfold aggregation_functions.
  destruct (drop_none series) as [|x rest]; [congruence|].
  destruct (String.eqb_spec (str_lower name) "average"); [congruence|].
  destruct (String.eqb_spec (str_lower name) "max"); [congruence|].
  destruct (String.eqb_spec (str_lower name) "min"); [congruence|].
  reflexivity.
Qed.

Lemma aggregation_unknown_name_witness :
  aggregation_functions (F := PrimFloat.float) [None; Some 1%float] (Some "Median"%string)
  = Raise (ValueError "Invalid Aggregation function median, only max, min, average allowed").
Proof.
  apply (aggregation_unknown_name (F := PrimFloat.float) [None; Some 1%float] "Median");
    simpl; discriminate.
Defined.

(** C3 (as stated) fails: on a series without a value an unknown name is not
    looked at, the result is [None]. *)
Lemma aggregation_unknown_name_counterexample :
  "median"%string <> "average"%string /\
  "median"%string <> "max"%string /\
  "median"%string <> "min"%string /\
  aggregation_functions (F := PrimFloat.float) [None; None] (Some "median"%string) = Ok None.
Proof. split_and!; [discriminate..|reflexivity]. Qed.

(** C9.  The consolidation function is chosen by the lower-cased name, so
    names that differ only in case select the same function; without a name
    ([None]) the maximum is taken; and [downsample] called without [cf]
    consolidates with "max". *)
Theorem aggregation_name_case_and_default {F : Type} `{PyFloat F} :
  (forall (series : TimeSeriesValues F) (a b : ConsolidationFunctionName),
      str_lower a = str_lower b ->
      aggregation_functions series (Some a) = aggregation_functions series (Some b)) /\
  (forall (series : TimeSeriesValues F) (name : ConsolidationFunctionName) x rest,
      drop_none series = x :: rest ->
      (str_lower name = "max"%string ->
       aggregation_functions series (Some name) = Ok (Some (py_max x rest))) /\
      (str_lower name = "min"%string ->
       aggregation_functions series (Some name) = Ok (Some (py_min x rest))) /\
      (str_lower name = "average"%string ->
       aggregation_functions series (Some name)
       = let! mean := fmean (x :: rest) in Ok (Some mean)) /\
      aggregation_functions series None = Ok (Some (py_max x rest))) /\
  (forall series : TimeSeriesValues F,
      aggregation_functions series None = aggregation_functions series (Some "max"%string)) /\
  downsample_cf_default = Some "max"%string /\
  (forall (self : TimeSeries F) (tw : TimeWindow),
      downsample_default self tw = downsample self tw (Some "max"%string) /\
      downsample_default self tw = downsample self tw (Some "MAX"%string) /\
      downsample_default self tw = downsample self tw None).
Proof.
  split_and!.
  - intros series a b Hab.
    rewrite (aggregation_functions_lower series a), (aggregation_functions_lower series b).
    now rewrite Hab.
  - intros series name x rest Hvals. unfold aggregation_functions. rewrite Hvals.
    split_and!; try (intros ->); reflexivity.
  - intros series. apply aggregation_functions_default.
  - reflexivity.
  - intros self tw. unfold downsample_default, downsample_cf_default. split_and!.
    + reflexivity.
    + apply downsample_ext. intros series.
      now rewrite (aggregation_functions_lower series "MAX").
    + apply downsample_ext. intros series. symmetry. apply aggregation_functions_default.
Qed.

Lemma aggregation_name_case_and_default_witness :
  aggregation_functions (F := PrimFloat.float) [Some 1%float; None] (Some "Average"%string)
  = aggregation_functions (F := PrimFloat.float) [Some 1%float; None] (Some "AVERAGE"%string).
Proof.
  apply (proj1 (aggregation_name_case_and_default (F := PrimFloat.float))). reflexivity.
Defined.

(** C6.  Downsampling onto the series' own window returns the series' values
    as they are, whatever the consolidation function. *)
Theorem downsample_own_window {F : Type} `{PyFloat F}
    (self : TimeSeries F) (cf : option ConsolidationFunctionName) :
  downsample self (twindow self) cf = Ok (ts_values self).
Proof.
  unfold downsample.
  now rewrite (proj2 (TimeWindow_eqb_eq (twindow self) (twindow self)) eq_refl).
Qed.

(** ** Standard deviation *)

Lemma result_mapM_Forall2 {A B} (f : A -> result B) (l : list A) (l' : list B) :
  result_mapM f l = Ok l' <-> Forall2 (fun a b => f a = Ok b) l l'.
Proof.
  revert l'. induction l as [|a l IH]; intros l'; simpl.
  - split; [intros [= <-]; constructor|intros Hall; inversion Hall; reflexivity].
  - destruct (f a) as [b|e] eqn:Hfa; simpl.
    + destruct (result_mapM f l) as [bs|e] eqn:Hrest; simpl.
      * split.
        -- intros [= <-]. constructor; [exact Hfa|]. now apply IH.
        -- intros Hall. inversion Hall as [|? b' ? bs' Hb Hbs]; subst.
           apply IH in Hbs. congruence.
      * split; [discriminate|]. intros Hall.
        inversion Hall as [|? b' ? bs' Hb Hbs]; subst. apply IH in Hbs. discriminate.
    + split; [discriminate|]. intros Hall. inversion Hall; subst. congruence.
Qed.

(** The first item on which [f] raises decides. *)
Lemma result_mapM_first_raise {A B} (f : A -> result B) (l : list A) :
  forall (k : nat) a e,
    l !! k = Some a -> f a = Raise e ->
    (forall (j : nat) q, (j < k)%nat -> l !! j = Some q -> exists b, f q = Ok b) ->
    result_mapM f l = Raise e.
Proof.
  induction l as [|a0 l IH]; intros k a e Hk Hfa Hbefore; [discriminate|].
  destruct k as [|k]; simpl.
  - injection Hk as ->. now rewrite Hfa.
  - destruct (Hbefore 0%nat a0 ltac:(lia) eq_refl) as [b0 Hb0]. rewrite Hb0. simpl.
    rewrite (IH k a e Hk Hfa); [reflexivity|].
    intros j q Hj Hq. apply (Hbefore (S j) q); [lia|exact Hq].
Qed.

Lemma result_mapM_raise {A B} (f : A -> result B) (l : list A) e :
  result_mapM f l = Raise e -> exists a, a ∈ l /\ f a = Raise e.
Proof.
  induction l as [|a l IH]; simpl; [discriminate|].
  destruct (f a) as [b|e'] eqn:Hfa; simpl.
  - destruct (result_mapM f l) as [bs|e'] eqn:Hrest; simpl; [discriminate|].
    intros [= ->]. destruct (IH eq_refl) as (a' & Hin & Ha'). exists a'.
    split; [now right|exact Ha'].
  - intros [= ->]. exists a. split; [left|exact Hfa].
Qed.

Lemma result_mapM_length {A B} (f : A -> result B) (l : list A) (l' : list B) :
  result_mapM f l = Ok l' -> length l' = length l.
Proof.
  intros Hrun. apply result_mapM_Forall2 in Hrun. symmetry. exact (Forall2_length _ _ _ Hrun).
Qed.

(** The product of two binary64 numbers does not depend on their order. *)
Lemma SFmul_comm prec emax (x y : SpecFloat.spec_float) :
  SpecFloat.SFmul prec emax x y = SpecFloat.SFmul prec emax y x.
Proof.
  destruct x as [sx|sx| |sx mx ex], y as [sy|sy| |sy my ey]; simpl;
    try reflexivity; try (now rewrite xorb_comm).
  now rewrite xorb_comm, Pos.mul_comm, Z.add_comm.
Qed.

Lemma binary64_mul_comm (x y : PrimFloat.float) : PrimFloat.mul x y = PrimFloat.mul y x.
Proof.
  apply FloatAxioms.Prim2SF_inj. rewrite !FloatAxioms.mul_spec. apply SFmul_comm.
Qed.

(** C5 (amended).  With one sample the standard deviation is [None].  With
    another number of samples the squares of the samples and of the average
    are taken first; when none of them is out of range the result is
    [sqrt(|sum of squares - n * average^2| / (n - 1))] in the arithmetic of
    the carrier, where [average^2 * n], as the code has it, is
    [n * average^2]; on binary64 it always is, whatever the C library.  A
    square out of range ends the call with the exception of the first such
    square.  For the samples 2 and 4 with average 3, whose squares every C
    library gives exactly, the result is the binary64 square root of 2. *)
Theorem std_dev_spec :
  (forall (F : Type) (Fl : PyFloat F) (x average : F), _std_dev [x] average = Ok None) /\
  (forall (F : Type) (Fl : PyFloat F) (samples : list F) (average : F)
          (squares : list F) (average_squared : F),
      length samples <> 1%nat ->
      Forall2 (fun p square => fpow2 p = Ok square) samples squares ->
      fpow2 average = Ok average_squared ->
      fmul average_squared (of_int (Z.of_nat (length samples)))
      = fmul (of_int (Z.of_nat (length samples))) average_squared ->
      _std_dev samples average
      = let! root := stdev_formula squares average_squared in Ok (Some root)) /\
  (forall (F : Type) (Fl : PyFloat F) (samples : list F) (average : F)
          (k : nat) (p : F) (e : exn),
      length samples <> 1%nat ->
      samples !! k = Some p ->
      fpow2 p = Raise e ->
      (forall (j : nat) q, (j < k)%nat -> samples !! j = Some q ->
         exists square, fpow2 q = Ok square) ->
      _std_dev samples average = Raise e) /\
  (forall (F : Type) (Fl : PyFloat F) (samples : list F) (average : F)
          (squares : list F) (e : exn),
      length samples <> 1%nat ->
      Forall2 (fun p square => fpow2 p = Ok square) samples squares ->
      fpow2 average = Raise e ->
      _std_dev samples average = Raise e) /\
  (forall (libm_pow2 : PrimFloat.float -> PrimFloat.float)
          (samples : list PrimFloat.float) (average : PrimFloat.float)
          (squares : list PrimFloat.float) (average_squared : PrimFloat.float),
      length samples <> 1%nat ->
      Forall2 (fun p square => float_pow2 libm_pow2 p = Ok square) samples squares ->
      float_pow2 libm_pow2 average = Ok average_squared ->
      @_std_dev _ (binary64 libm_pow2) samples average
      = let! root := @stdev_formula _ (binary64 libm_pow2) squares average_squared in
        Ok (Some root)) /\
  (forall libm_pow2 : PrimFloat.float -> PrimFloat.float,
      libm_pow2 2%float = 4%float ->
      libm_pow2 4%float = 16%float ->
      libm_pow2 3%float = 9%float ->
      @_std_dev _ (binary64 libm_pow2) [2%float; 4%float] 3%float
      = Ok (Some (PrimFloat.sqrt 2%float))) /\
  PrimFloat.sqrt 2%float = 1.4142135623730951%float.
Proof.
  assert (Hvalue : forall (F : Type) (Fl : PyFloat F) (samples : list F) (average : F)
            (squares : list F) (average_squared : F),
            length samples <> 1%nat ->
            Forall2 (fun p square => fpow2 p = Ok square) samples squares ->
            fpow2 average = Ok average_squared ->
            fmul average_squared (of_int (Z.of_nat (length samples)))
            = fmul (of_int (Z.of_nat (length samples))) average_squared ->
            _std_dev samples average
            = let! root := stdev_formula squares average_squared in Ok (Some root)).
  { intros F Fl samples average squares a2 Hn Hsq Ha2 Hcomm. unfold _std_dev, stdev_formula.
    destruct (Z.eqb_spec (Z.of_nat (length samples)) 1) as [Heq|_]; [lia|].
    rewrite (proj2 (result_mapM_Forall2 fpow2 samples squares) Hsq). cbn [rbind].
    rewrite Ha2. cbn [rbind]. rewrite Hcomm.
    now rewrite (Forall2_length _ _ _ Hsq). }
  split_and!.
  - reflexivity.
  - exact Hvalue.
  - intros F Fl samples average k p e Hn Hk Hp Hbefore. unfold _std_dev.
    destruct (Z.eqb_spec (Z.of_nat (length samples)) 1) as [Heq|_]; [lia|].
    now rewrite (result_mapM_first_raise fpow2 samples k p e Hk Hp Hbefore).
  - intros F Fl samples average squares e Hn Hsq Ha2. unfold _std_dev.
    destruct (Z.eqb_spec (Z.of_nat (length samples)) 1) as [Heq|_]; [lia|].
    rewrite (proj2 (result_mapM_Forall2 fpow2 samples squares) Hsq). cbn [rbind].
    now rewrite Ha2.
  - intros libm_pow2 samples average squares a2 Hn Hsq Ha2.
    apply (Hvalue _ (binary64 libm_pow2) samples average squares a2 Hn Hsq Ha2).
    apply binary64_mul_comm.
  - intros libm_pow2 H2 H4 H3.
    rewrite (Hvalue _ (binary64 libm_pow2) [2%float; 4%float] 3%float
               [4%float; 16%float] 9%float).
    + reflexivity.
    + simpl. lia.
    + repeat constructor; cbn [fpow2 binary64]; unfold float_pow2.
      * change (PrimFloat.abs 2%float) with 2%float. now rewrite H2.
      * change (PrimFloat.abs 4%float) with 4%float. now rewrite H4.
    + cbn [fpow2 binary64]. unfold float_pow2.
      change (PrimFloat.abs 3%float) with 3%float. now rewrite H3.
    + apply binary64_mul_comm.
  - vm_compute. reflexivity.
Qed.

Lemma std_dev_spec_witness :
  _std_dev [1%float; 2%float; 6%float] 3%float
  = let! root := stdev_formula [1%float; 4%float; 36%float] 9%float in Ok (Some root).
Proof.
  apply (proj1 (proj2 std_dev_spec) PrimFloat.float PyFloat_binary64
           [1%float; 2%float; 6%float] 3%float [1%float; 4%float; 36%float] 9%float).
  - simpl. lia.
  - repeat constructor.
  - reflexivity.
  - reflexivity.
Defined.

(** C5 (as stated) fails where a square is out of range: for two samples of
    1e200, whose mean is 1e200, nothing is returned, the call raises
    [OverflowError]. *)
Lemma std_dev_overflow_counterexample :
  fdiv (py_sum [1e200%float; 1e200%float]) (of_int 2) = 1e200%float /\
  _std_dev [1e200%float; 1e200%float] 1e200%float = Raise OverflowError /\
  ~ (exists r, _std_dev [1e200%float; 1e200%float] 1e200%float = Ok r).
Proof.
  assert (Hrun : _std_dev [1e200%float; 1e200%float] 1e200%float = Raise OverflowError)
    by (vm_compute; reflexivity).
  split; [vm_compute; reflexivity|]. split; [exact Hrun|].
  intros [r Hr]. rewrite Hrun in Hr. discriminate.
Qed.

(** ** Time-window partitioner *)

Lemma time_slices_loop_filter period_info timegroup begins :
  time_slices_loop period_info timegroup begins
  = map (bucket_of period_info)
        (filter (fun b => identity_of period_info b = timegroup) begins).
Proof.
  induction begins as [|b rest IH]; [reflexivity|].
  simpl. unfold get_timegroup_relative_time, identity_of.
  destruct (pi_groupby period_info b) as [tg rel] eqn:Hg.
  destruct (String.eqb_spec tg timegroup) as [Heq|Hne].
  - rewrite filter_cons_True by (rewrite Hg; exact Heq).
    simpl. unfold bucket_of at 1. rewrite Hg. simpl. f_equal. exact IH.
  - rewrite filter_cons_False by (rewrite Hg; exact Hne). exact IH.
Qed.

Lemma range_items_back now abs_begin slice_width :
  0 < slice_width ->
  range_items now abs_begin (- slice_width)
  = begins_back now slice_width (range_len now abs_begin (- slice_width)).
Proof.
  intros _. unfold range_items, begins_back. apply map_ext. intros k. lia.
Qed.

Lemma time_slices_walk now horizon period_info timegroup :
  0 < pi_slice period_info ->
  exists n : nat,
    (forall k : nat, (k < n)%nat <-> now - horizon < now - Z.of_nat k * pi_slice period_info) /\
    _time_slices now horizon period_info timegroup
    = Ok (map (bucket_of period_info)
              (filter (fun b => identity_of period_info b = timegroup)
                      (begins_back now (pi_slice period_info) n))).
Proof.
  intros Hs. exists (range_len now (now - horizon) (- pi_slice period_info)). split.
  - intros k. rewrite range_len_down by lia. lia.
  - unfold _time_slices, py_range.
    destruct (Z.eqb_spec (- pi_slice period_info) 0) as [|_]; [lia|]. simpl.
    now rewrite time_slices_loop_filter, range_items_back.
Qed.

(** The visited timestamps go down by at least one slice width. *)
Lemma begins_back_sorted now slice_width n :
  0 < slice_width ->
  StronglySorted (fun b b' => b' <= b - slice_width) (begins_back now slice_width n).
Proof.
  intros Hs. unfold begins_back. generalize 0%nat as a.
  induction n as [|n IH]; intros a; simpl; [constructor|].
  constructor; [apply IH|].
  apply Forall_forall. intros b' Hb'.
  apply list_elem_of_fmap in Hb' as (k & -> & Hk).
  apply elem_of_seq in Hk. nia.
Qed.

Lemma StronglySorted_filter {A} (R : A -> A -> Prop) (P : A -> Prop)
    `{forall x, Decision (P x)} (l : list A) :
  StronglySorted R l -> StronglySorted R (filter P l).
Proof.
  induction 1 as [|x l Hl IH Hx]; [constructor|].
  rewrite filter_cons. destruct (decide (P x)); [|exact IH].
  constructor; [exact IH|].
  apply Forall_forall. intros y Hy. apply list_elem_of_filter in Hy as [_ Hy].
  rewrite Forall_forall in Hx. now apply Hx.
Qed.

Lemma StronglySorted_map {A B} (R : A -> A -> Prop) (R' : B -> B -> Prop)
    (f : A -> B) (l : list A) :
  (forall x y, R x y -> R' (f x) (f y)) ->
  StronglySorted R l -> StronglySorted R' (map f l).
Proof.
  intros Hf. induction 1 as [|x l Hl IH Hx]; simpl; [constructor|].
  constructor; [exact IH|].
  apply Forall_forall. intros y Hy. apply list_elem_of_fmap in Hy as (y' & -> & Hy').
  rewrite Forall_forall in Hx. apply Hf. now apply Hx.
Qed.

(** In every catalog period the offset into the bucket is below the slice
    width. *)
Lemma catalog_offset_bounds zone name t :
  let period_info := PREDICTION_PERIODS zone name in
  0 < pi_slice period_info /\
  0 <= snd (pi_groupby period_info t) < pi_slice period_info.
Proof.
  destruct name; simpl; (split; [lia|]); unfold _window_start;
    apply Z.mod_pos_bound; lia.
Qed.

Lemma is_dst_zone zone t : is_dst zone t = zone_dst zone t.
Proof. unfold is_dst, localtime. simpl. now destruct (zone_dst zone t). Qed.

(** Going back whole days under an unchanged UTC offset moves the weekday
    back and keeps the offset into the day. *)
Lemma group_by_wday_back zone now (k : Z) :
  zone_dst zone (now - k * 86400) = zone_dst zone now ->
  _group_by_wday zone (now - k * 86400)
  = (nth (Z.to_nat ((tm_wday (localtime zone now) - k) mod 7)) weekday_ids ""%string,
     _window_start zone now 86400).
Proof.
  intros Hdst. unfold _group_by_wday, _window_start, timezone_at.
  rewrite !is_dst_zone. unfold localtime. rewrite Hdst. simpl.
  set (offset := if zone_dst zone now then zone_altzone zone else zone_timezone zone).
  replace (now - k * 86400 - offset) with ((now - offset) + (- k) * 86400) by lia.
  rewrite Z.div_add, Z_mod_plus_full by lia. f_equal.
  unfold wday_of_days. rewrite Zminus_mod_idemp_l.
  replace ((now - offset) / 86400 + - k + 3) with ((now - offset) / 86400 + 3 - k) by lia.
  reflexivity.
Qed.

Lemma tuesday_index (r : Z) :
  0 <= r < 7 ->
  String.eqb (nth (Z.to_nat r) weekday_ids ""%string) "tuesday" = (r =? 1).
Proof.
  intros Hr.
  assert (Hcases : r = 0 \/ r = 1 \/ r = 2 \/ r = 3 \/ r = 4 \/ r = 5 \/ r = 6) by lia.
  repeat (destruct Hcases as [->|Hcases]; [reflexivity|]). subst r. reflexivity.
Qed.

Lemma time_slices_loop_tuesday zone now (ks : list nat) :
  (forall k, k ∈ ks -> zone_dst zone (now - Z.of_nat k * 86400) = zone_dst zone now) ->
  tm_wday (localtime zone now) = 1 ->
  time_slices_loop (PREDICTION_PERIODS zone wday) "tuesday"
                   (map (fun k => now - Z.of_nat k * 86400) ks)
  = map (fun k => let from_time := now - _window_start zone now 86400 - Z.of_nat k * 86400 in
                  (from_time, from_time + 86400))
        (filter (fun k => Z.of_nat k mod 7 = 0) ks).
Proof.
  intros Hdst Htue. induction ks as [|k ks IH]; [reflexivity|].
  cbn [map time_slices_loop]. unfold get_timegroup_relative_time.
  change (pi_groupby (PREDICTION_PERIODS zone wday)) with (_group_by_wday zone).
  change (pi_slice (PREDICTION_PERIODS zone wday)) with 86400.
  rewrite group_by_wday_back by (apply Hdst; left).
  rewrite Htue, tuesday_index by (apply Z.mod_pos_bound; lia).
  rewrite IH by (intros k' Hk'; apply Hdst; now right).
  destruct (Z.eqb_spec ((1 - Z.of_nat k) mod 7) 1) as [Hk|Hk].
  - rewrite filter_cons_True by (revert Hk; Z.div_mod_to_equations; lia).
    simpl. do 2 f_equal; lia.
  - rewrite filter_cons_False by (revert Hk; Z.div_mod_to_equations; lia). reflexivity.
Qed.

Lemma time_slices_tuesday_fortnight zone now :
  (forall k : Z, 0 <= k < 14 -> zone_dst zone (now - k * 86400) = zone_dst zone now) ->
  tm_wday (localtime zone now) = 1 ->
  identity_of (PREDICTION_PERIODS zone wday) now = "tuesday"%string /\
  let from_time := now - _window_start zone now 86400 in
  _time_slices now (14 * 86400) (PREDICTION_PERIODS zone wday) "tuesday"
  = Ok [(from_time, from_time + 86400);
        (from_time - 7 * 86400, from_time + 86400 - 7 * 86400)].
Proof.
  intros Hdst Htue. split.
  - unfold identity_of.
    change (pi_groupby (PREDICTION_PERIODS zone wday)) with (_group_by_wday zone).
    unfold _group_by_wday. cbn [fst]. now rewrite Htue.
  - cbv zeta. unfold _time_slices, py_range.
    change (pi_slice (PREDICTION_PERIODS zone wday)) with 86400.
    change (Z.opp 86400 =? 0) with false. cbn [rbind].
    rewrite range_items_back by lia.
    assert (Hlen : range_len now (now - 14 * 86400) (Z.opp 86400) = 14%nat).
    { unfold range_len. change (0 <? Z.opp 86400) with false. cbv iota.
      destruct (Z.ltb_spec (now - 14 * 86400) now) as [_|]; [|lia].
      replace (now - (now - 14 * 86400) - 1) with 1209599 by lia. reflexivity. }
    rewrite Hlen. unfold begins_back.
    rewrite time_slices_loop_tuesday; [|intros k Hk; apply Hdst; apply elem_of_seq in Hk; lia|exact Htue].
    f_equal. change (filter _ (seq 0 14)) with [0%nat; 7%nat]. cbn [map].
    change (Z.of_nat 0) with 0. change (Z.of_nat 7) with 7.
    repeat (apply f_equal2; [apply f_equal2; lia|]). reflexivity.
Qed.

Lemma catalog_slices_sorted zone name now horizon timegroup :
  exists windows,
    _time_slices now horizon (PREDICTION_PERIODS zone name) timegroup = Ok windows /\
    StronglySorted (fun w w' => fst w' < fst w) windows /\
    Forall (fun w => snd w = fst w + pi_slice (PREDICTION_PERIODS zone name)) windows.
Proof.
  set (period_info := PREDICTION_PERIODS zone name).
  pose proof (fun t => catalog_offset_bounds zone name t) as Hoff. cbv zeta in Hoff.
  fold period_info in Hoff.
  destruct (time_slices_walk now horizon period_info timegroup (proj1 (Hoff 0)))
    as (n & _ & Hrun).
  eexists. split; [exact Hrun|]. split.
  - eapply StronglySorted_map; [|apply StronglySorted_filter, begins_back_sorted, (Hoff 0)].
    intros b b' Hbb'. unfold bucket_of. cbn [fst].
    pose proof (proj2 (Hoff b)). pose proof (proj2 (Hoff b')). cbv beta in Hbb'. lia.
  - apply Forall_forall. intros w Hw.
    apply list_elem_of_fmap in Hw as (b & -> & _). reflexivity.
Qed.

(** C2 (amended).  With a positive slice width the partitioner visits
    [now], [now - slice], [now - 2 slice], ... as long as the timestamp is
    after [now - horizon], keeps the bucket of exactly those whose identity is
    the wanted one (that of [now] when it is the one asked for), in the order
    visited; for the catalog periods the windows come out most recent first,
    each one slice wide.  For the weekday period, 14 days back from a Tuesday
    and with the same UTC offset in force at the 14 visited timestamps, the
    result is exactly two windows, seven days apart. *)
Theorem time_slices_partition :
  (forall now horizon period_info timegroup,
      0 < pi_slice period_info ->
      exists n : nat,
        (forall k : nat,
            (k < n)%nat <-> now - horizon < now - Z.of_nat k * pi_slice period_info) /\
        _time_slices now horizon period_info timegroup
        = Ok (map (bucket_of period_info)
                  (filter (fun b => identity_of period_info b = timegroup)
                          (begins_back now (pi_slice period_info) n)))) /\
  (forall zone name now horizon timegroup,
      exists windows,
        _time_slices now horizon (PREDICTION_PERIODS zone name) timegroup = Ok windows /\
        StronglySorted (fun w w' => fst w' < fst w) windows /\
        Forall (fun w => snd w = fst w + pi_slice (PREDICTION_PERIODS zone name)) windows) /\
  (forall zone now,
      (forall k : Z, 0 <= k < 14 -> zone_dst zone (now - k * 86400) = zone_dst zone now) ->
      tm_wday (localtime zone now) = 1 ->
      identity_of (PREDICTION_PERIODS zone wday) now = "tuesday"%string /\
      let from_time := now - _window_start zone now 86400 in
      _time_slices now (14 * 86400) (PREDICTION_PERIODS zone wday) "tuesday"
      = Ok [(from_time, from_time + 86400);
            (from_time - 7 * 86400, from_time + 86400 - 7 * 86400)]).
Proof.
  split_and!.
  - apply time_slices_walk.
  - apply catalog_slices_sorted.
  - apply time_slices_tuesday_fortnight.
Qed.

Lemma time_slices_partition_witness :
  _time_slices 1712053800 (14 * 86400) (PREDICTION_PERIODS utc wday) "tuesday"
  = Ok [(1712016000, 1712102400); (1711411200, 1711497600)].
Proof.
  exact (proj2 (proj2 (proj2 time_slices_partition) utc 1712053800
                  (fun k _ => eq_refl) eq_refl)).
Defined.

(** C2 (as stated) fails where daylight saving time starts within the
    horizon.  Tuesday 2024-04-02 00:30 in Central European Summer Time: the
    visited timestamps of the two weeks before the change fall on 23:30 of
    the day before, so three Tuesdays match, and the latest two windows are
    less than seven days apart. *)
Lemma time_slices_tuesday_dst_counterexample :
  let now := 1712010600 in
  tm_wday (localtime berlin_2024 now) = 1 /\
  identity_of (PREDICTION_PERIODS berlin_2024 wday) now = "tuesday"%string /\
  _time_slices now (14 * 86400) (PREDICTION_PERIODS berlin_2024 wday) "tuesday"
  = Ok [(1712008800, 1712095200); (1711407600, 1711494000); (1710802800, 1710889200)] /\
  1712008800 - 1711407600 <> 7 * 86400.
Proof. cbv zeta. split_and!; [reflexivity| reflexivity | vm_compute; reflexivity | lia]. Qed.

(** ** Prediction store *)

Section StoreProps.
Context {F : Type} `{PyFloat F}.
Variable env : Environment F.

Lemma read_model_found {A} (parse_raw : string -> option A) path text a w :
  dir_exists w = true ->
  files w !! path = Some text ->
  parse_raw text = Some a ->
  read_model parse_raw path w = (Ok (Some a), w).
Proof.
  intros Hdir Hfile Hparse. unfold read_model, read_text.
  now rewrite Hdir, Hfile, Hparse.
Qed.

Lemma read_model_absent {A} (parse_raw : string -> option A) path w :
  files w !! path = None ->
  read_model parse_raw path w = (Ok None, w).
Proof.
  intros Hfile. unfold read_model, read_text.
  destruct (dir_exists w); [rewrite Hfile|]; reflexivity.
Qed.

Lemma save_prediction_run info data w :
  save_prediction env info data w
  = (Ok tt, {| dir_exists := true;
               files := <[_data_file env (info_name info) := data_json env data]>
                          (<[_info_file env (info_name info) := info_json env info]> (files w));
               rrd_queries := rrd_queries w |}).
Proof. reflexivity. Qed.

Lemma remove_prediction_run timegroup w :
  remove_prediction env timegroup w
  = (Ok tt, {| dir_exists := dir_exists w;
               files := removed_files env timegroup (files w);
               rrd_queries := rrd_queries w |}).
Proof. reflexivity. Qed.

Lemma removed_files_lookup timegroup (fs : gmap string string) :
  removed_files env timegroup fs !! _info_file env timegroup = None
  /\ removed_files env timegroup fs !! _data_file env timegroup = None.
Proof.
  unfold removed_files. split.
  - apply lookup_delete_eq.
  - apply lookup_delete_None. right. apply lookup_delete_eq.
Qed.

Lemma absent_after_removed timegroup w :
  files w = removed_files env timegroup (files w) ->
  fst (get_info env timegroup w) = Ok None /\ fst (get_data env timegroup w) = Ok None.
Proof.
  intros Hfiles. unfold get_info, get_data.
  rewrite !read_model_absent; [split; reflexivity|..];
    rewrite Hfiles; apply removed_files_lookup.
Qed.

End StoreProps.

(** C8.  After [save_prediction], [get_data] for the saved bucket identity
    returns the saved data and [get_info] the saved metadata, given that
    pydantic parses back what it serialised for them and that the two files
    of a bucket identity have different names; after [remove_prediction]
    both return [None] without an error, whether or not the files, or the
    directory, existed. *)
Theorem save_get_remove {F : Type} (env : Environment F)
    (info : PredictionInfo F) (data : PredictionData F) (timegroup : Timegroup) (w : World) :
  (data_parse_raw env (data_json env data) = Some data ->
   fst (save_prediction env info data w) = Ok tt /\
   fst (get_data env (info_name info) (snd (save_prediction env info data w)))
   = Ok (Some data)) /\
  (info_parse_raw env (info_json env info) = Some info ->
   _info_file env (info_name info) <> _data_file env (info_name info) ->
   fst (get_info env (info_name info) (snd (save_prediction env info data w)))
   = Ok (Some info)) /\
  fst (remove_prediction env timegroup w) = Ok tt /\
  fst (get_data env timegroup (snd (remove_prediction env timegroup w))) = Ok None /\
  fst (get_info env timegroup (snd (remove_prediction env timegroup w))) = Ok None.
Proof.
  rewrite save_prediction_run, remove_prediction_run. cbn [fst snd]. split_and!.
  - intros Hdata. split; [reflexivity|]. unfold get_data.
    erewrite read_model_found; [reflexivity|reflexivity| |exact Hdata].
    cbn [files]. apply lookup_insert_eq.
  - intros Hinfo Hne. unfold get_info.
    erewrite read_model_found; [reflexivity|reflexivity| |exact Hinfo].
    cbn [files]. rewrite lookup_insert_ne by congruence. apply lookup_insert_eq.
  - reflexivity.
  - unfold get_data. rewrite read_model_absent; [reflexivity|].
    cbn [files]. apply removed_files_lookup.
  - unfold get_info. rewrite read_model_absent; [reflexivity|].
    cbn [files]. apply removed_files_lookup.
Qed.

(** ** Orchestrator *)

Section OrchestratorProps.
Context {F : Type} `{PyFloat F}.
Variable env : Environment F.
Variable info : PredictionInfo F.
Variables (host_name : HostName) (service_description : ServiceName).
Variable from_time : Timestamp.

Lemma with_queries_same w : with_queries w (rrd_queries w) = w.
Proof. now destruct w. Qed.

Lemma fetch_slice_run window w :
  fetch_slice env info host_name service_description from_time window w
  = (match response_or_exception env
             (livestatus_get_rrd_data env (rrd_queries w)
                (slice_query info host_name service_description window)) with
     | Ok response => Ok (response, from_time - fst window)
     | Raise e => Raise e
     end,
     with_queries w (rrd_queries w
                       ++ [slice_query info host_name service_description window])).
Proof.
  unfold fetch_slice, get_rrd_data_with_mk_general_exception, bind, query_livestatus,
    lift, ret, slice_query, with_queries.
  now destruct (response_or_exception env _).
Qed.

(** Fetching the windows one after the other: every window is queried at
    most once, in order, and nothing but the query log changes. *)
Lemma mapM_fetch_run windows w :
  exists (m : nat) r,
    mapM (fetch_slice env info host_name service_description from_time) windows w
    = (r, with_queries w (rrd_queries w
            ++ map (slice_query info host_name service_description) (firstn m windows))) /\
    (m <= length windows)%nat /\
    match r with
    | Ok responses => m = length windows /\ length responses = length windows
    | Raise _ => True
    end.
Proof.
  revert w. induction windows as [|window rest IH]; intros w.
  - exists 0%nat, (Ok []). simpl. rewrite app_nil_r, with_queries_same. auto.
  - cbn [mapM]. unfold bind at 1. rewrite fetch_slice_run.
    destruct (response_or_exception env _) as [response|e].
    + set (w1 := with_queries w _). destruct (IH w1) as (m & r & Hrun & Hm & Hres).
      unfold bind at 1. rewrite Hrun.
      assert (Hworld : with_queries w1 (rrd_queries w1
                ++ map (slice_query info host_name service_description) (firstn m rest))
              = with_queries w (rrd_queries w
                ++ map (slice_query info host_name service_description)
                       (firstn (S m) (window :: rest)))).
      { unfold w1, with_queries. cbn [rrd_queries dir_exists files firstn map].
        now rewrite <- app_assoc. }
      rewrite Hworld. destruct r as [responses|e].
      * exists (S m), (Ok ((response, from_time - fst window) :: responses)).
        split; [reflexivity|]. destruct Hres as [-> Hlen]. simpl. lia.
      * exists (S m), (Raise e). split; [reflexivity|]. simpl. split; [lia|exact I].
    + exists 1%nat, (Raise e). split; [reflexivity|]. simpl. split; [lia|exact I].
Qed.

(** The first failing fetch ends the loop with its own exception. *)
Lemma mapM_fetch_fail windows : forall w (k : nat) window e,
  windows !! k = Some window ->
  (forall j wj, (j < k)%nat -> windows !! j = Some wj ->
     exists response,
       response_or_exception env
         (livestatus_get_rrd_data env
            (rrd_queries w ++ map (slice_query info host_name service_description)
                                  (firstn j windows))
            (slice_query info host_name service_description wj))
       = Ok response) ->
  response_or_exception env
    (livestatus_get_rrd_data env
       (rrd_queries w ++ map (slice_query info host_name service_description)
                             (firstn k windows))
       (slice_query info host_name service_description window))
  = Raise e ->
  mapM (fetch_slice env info host_name service_description from_time) windows w
  = (Raise e,
     with_queries w (rrd_queries w
       ++ map (slice_query info host_name service_description) (firstn (S k) windows))).
Proof.
  induction windows as [|w0 rest IH]; intros w k window e Hk Hbefore Hfail; [discriminate|].
  cbn [mapM]. unfold bind at 1. rewrite fetch_slice_run.
  destruct k as [|k].
  - injection Hk as ->. cbn [firstn map] in Hfail. rewrite app_nil_r in Hfail.
    rewrite Hfail. reflexivity.
  - destruct (Hbefore 0%nat w0 ltac:(lia) eq_refl) as [response Hresp].
    cbn [firstn map] in Hresp. rewrite app_nil_r in Hresp. rewrite Hresp.
    set (w1 := with_queries w _). cbv beta iota. unfold bind at 1.
    rewrite (IH w1 k window e Hk).
    + unfold w1, with_queries. cbn [rrd_queries dir_exists files firstn map].
      now rewrite <- !app_assoc.
    + intros j wj Hj Hwj. destruct (Hbefore (S j) wj ltac:(lia) Hwj) as [r Hr].
      exists r. unfold w1, with_queries. cbn [rrd_queries]. cbn [firstn map] in Hr.
      now rewrite <- app_assoc.
    + unfold w1, with_queries. cbn [rrd_queries]. cbn [firstn map] in Hfail.
      now rewrite <- app_assoc.
Qed.

End OrchestratorProps.

Section ComputePrediction.
Context {F : Type} `{PyFloat F}.
Variable env : Environment F.
Variable info : PredictionInfo F.
Variable now : Z.
Variable period_info : _PeriodInfo.
Variables (host_name : HostName) (service_description : ServiceName).

(** Every run: the old artifact is removed; the queries made are those of a
    prefix of the windows, each once; a failed run writes nothing; a
    successful run has fetched every window, computed the statistics of all
    of them, and written exactly that. *)
Lemma compute_prediction_run w :
  let windows :=
    match _time_slices now (horizon (info_params info) * 86400) period_info (info_name info) with
    | Ok ws => ws
    | Raise _ => []
    end in
  exists r w' (m : nat),
    compute_prediction env info now period_info host_name service_description w = (r, w') /\
    (m <= length windows)%nat /\
    rrd_queries w'
    = rrd_queries w ++ map (slice_query info host_name service_description) (firstn m windows) /\
    match r with
    | Raise _ =>
        files w' = removed_files env (info_name info) (files w) /\
        dir_exists w' = dir_exists w
    | Ok data =>
        m = length windows /\
        exists responses,
          length responses = length windows /\
          _calculate_data_for_prediction (map raw_slice_of responses) = Ok data /\
          files w' = <[_data_file env (info_name info) := data_json env data]>
                       (<[_info_file env (info_name info) := info_json env info]>
                          (removed_files env (info_name info) (files w))) /\
          dir_exists w' = true
    end.
Proof.
  unfold compute_prediction. unfold bind at 1. rewrite remove_prediction_run.
  set (w1 := {| dir_exists := dir_exists w;
                files := removed_files env (info_name info) (files w);
                rrd_queries := rrd_queries w |}).
  unfold bind at 1, lift at 1.
  destruct (_time_slices now _ period_info (info_name info)) as [ws|e]; cbv zeta.
  2:{ exists (Raise e), w1, 0%nat. simpl. rewrite app_nil_r. auto. }
  unfold bind at 1, lift at 1.
  destruct (getitem ws 0) as [first|e].
  2:{ exists (Raise e), w1, 0%nat. simpl. rewrite app_nil_r. split_and!; auto. lia. }
  unfold bind at 1.
  destruct (mapM_fetch_run env info host_name service_description (fst first) ws w1)
    as (m & r & Hrun & Hm & Hres).
  rewrite Hrun. destruct r as [responses|e].
  2:{ exists (Raise e), (with_queries w1
        (rrd_queries w1 ++ map (slice_query info host_name service_description) (firstn m ws))), m.
      simpl. auto. }
  destruct Hres as [-> Hlen]. unfold bind at 1, lift at 1.
  destruct (_calculate_data_for_prediction (map raw_slice_of responses)) as [data|e] eqn:Hcalc.
  2:{ exists (Raise e), (with_queries w1
        (rrd_queries w1 ++ map (slice_query info host_name service_description)
                               (firstn (length ws) ws))), (length ws).
      simpl. auto. }
  unfold bind at 1. rewrite save_prediction_run. unfold ret.
  eexists (Ok data), _, (length ws). split; [reflexivity|]. simpl.
  split_and!; auto. exists responses. auto.
Qed.

(** A failing fetch, after the fetches of the windows before it have
    succeeded, ends the run with its exception; the failing window has been
    queried once and no later window at all; the old artifact is gone and
    nothing has been written. *)
Lemma compute_prediction_fetch_failure w windows (k : nat) window e :
  _time_slices now (horizon (info_params info) * 86400) period_info (info_name info)
  = Ok windows ->
  windows !! k = Some window ->
  (forall j wj, (j < k)%nat -> windows !! j = Some wj ->
     exists response,
       response_or_exception env
         (livestatus_get_rrd_data env
            (rrd_queries w ++ map (slice_query info host_name service_description)
                                  (firstn j windows))
            (slice_query info host_name service_description wj))
       = Ok response) ->
  response_or_exception env
    (livestatus_get_rrd_data env
       (rrd_queries w ++ map (slice_query info host_name service_description)
                             (firstn k windows))
       (slice_query info host_name service_description window))
  = Raise e ->
  compute_prediction env info now period_info host_name service_description w
  = (Raise e,
     {| dir_exists := dir_exists w;
        files := removed_files env (info_name info) (files w);
        rrd_queries := rrd_queries w
          ++ map (slice_query info host_name service_description) (firstn (S k) windows) |}).
Proof.
  intros Hts Hk Hbefore Hfail.
  unfold compute_prediction. unfold bind at 1. rewrite remove_prediction_run.
  unfold bind at 1, lift at 1. rewrite Hts.
  unfold bind at 1, lift at 1.
  destruct windows as [|w0 rest]; [discriminate|]. cbn [getitem lookup list_lookup].
  unfold bind at 1.
  erewrite mapM_fetch_fail; [reflexivity|exact Hk|exact Hbefore|exact Hfail].
Qed.

Lemma response_or_exception_raises outcome e :
  response_or_exception env outcome = Raise e ->
  (debug_enabled env = false /\
   exists msg, outcome = LsNotFound msg /\
     e = MKGeneralException ("Cannot get historic metrics via Livestatus: " ++ msg)) \/
  (outcome = LsReturn None /\
   e = MKGeneralException "Cannot retrieve historic data with Nagios Core") \/
  (debug_enabled env = true /\
   exists msg, outcome = LsNotFound msg /\ e = MKLivestatusNotFoundError msg) \/
  (exists msg, outcome = LsFailure msg /\ e = MKLivestatusError msg).
Proof.
  unfold response_or_exception.
  destruct outcome as [msg|msg|[response|]]; [destruct (debug_enabled env) eqn:Hdebug|..];
    intros [= <-]; eauto 10.
Qed.

End ComputePrediction.

Lemma save_get_remove_witness :
  fst (get_info (example_env false not_found) "everyday"
         (snd (save_prediction (example_env false not_found) example_info example_data
                               stored_world)))
  = Ok (Some example_info).
Proof.
  apply (proj1 (proj2 (save_get_remove (example_env false not_found)
                         example_info example_data "everyday" stored_world))).
  - reflexivity.
  - discriminate.
Defined.

(** C8 (as stated) fails for data with a float that is not finite.  The
    summary of a single window whose sample is an infinity has an infinite
    average; pydantic writes it as [null], and reading the file back raises
    the validation error instead of returning the saved data. *)
Lemma save_get_nonfinite_counterexample :
  let env := example_env false not_found in
  let stat := {| average := PrimFloat.infinity; min_ := PrimFloat.infinity;
                 max_ := PrimFloat.infinity; stdev := None |} in
  let data := {| points := [Some stat]; data_twindow := [1712016000; 1712102400];
                 step := 86400 |} in
  _data_stats [[Some PrimFloat.infinity]] = Ok (points data) /\
  fst (save_prediction env example_info data stored_world) = Ok tt /\
  fst (get_data env "everyday" (snd (save_prediction env example_info data stored_world)))
  = Raise ValidationError /\
  ~ (fst (get_data env "everyday" (snd (save_prediction env example_info data stored_world)))
     = Ok (Some data)).
Proof.
  cbv zeta. split; [vm_compute; reflexivity|]. split; [reflexivity|].
  assert (Hget : fst (get_data (example_env false not_found) "everyday"
                        (snd (save_prediction (example_env false not_found) example_info
                                {| points := [Some {| average := PrimFloat.infinity;
                                                      min_ := PrimFloat.infinity;
                                                      max_ := PrimFloat.infinity;
                                                      stdev := None |}];
                                   data_twindow := [1712016000; 1712102400];
                                   step := 86400 |} stored_world)))
                 = Raise ValidationError) by reflexivity.
  split; [exact Hget|]. rewrite Hget. discriminate.
Qed.

(** C10.  When [compute_prediction] fails, for whatever reason and in
    particular in a fetch, the artifact of the bucket identity is gone:
    [get_info] and [get_data] on the world it leaves return [None], not the
    artifact stored before. *)
Theorem failed_prediction_leaves_absence {F : Type} `{PyFloat F}
    (env : Environment F) (info : PredictionInfo F) (now : Z) (period_info : _PeriodInfo)
    (host_name : HostName) (service_description : ServiceName) (w : World) (e : exn) :
  fst (compute_prediction env info now period_info host_name service_description w) = Raise e ->
  fst (get_info env (info_name info)
         (snd (compute_prediction env info now period_info host_name service_description w)))
  = Ok None /\
  fst (get_data env (info_name info)
         (snd (compute_prediction env info now period_info host_name service_description w)))
  = Ok None.
Proof.
  destruct (compute_prediction_run env info now period_info host_name service_description w)
    as (r & w' & m & Hrun & _ & _ & Hres).
  rewrite Hrun. cbn [fst snd]. intros ->. destruct Hres as [Hfiles _].
  unfold get_info, get_data.
  rewrite !read_model_absent; [split; reflexivity|..];
    rewrite Hfiles; apply removed_files_lookup.
Qed.

Lemma failed_prediction_leaves_absence_witness :
  let env := example_env false not_found in
  let run := compute_prediction env example_info 1712053800 (PREDICTION_PERIODS utc hour)
                                "host" "service" stored_world in
  fst (get_info env "everyday" stored_world) = Ok (Some example_info) /\
  fst run = Raise (MKGeneralException
                     "Cannot get historic metrics via Livestatus: no such metric") /\
  fst (get_info env "everyday" (snd run)) = Ok None /\
  fst (get_data env "everyday" (snd run)) = Ok None.
Proof.
  cbv zeta. split; [reflexivity|]. split; [reflexivity|].
  apply (failed_prediction_leaves_absence (example_env false not_found) example_info
           1712053800 (PREDICTION_PERIODS utc hour) "host" "service" stored_world
           (MKGeneralException "Cannot get historic metrics via Livestatus: no such metric")).
  reflexivity.
Defined.

(** C7 (amended).  [compute_prediction] removes the artifact of the bucket
    identity whatever happens afterwards.  A failing fetch ends the run with
    the exception the fetch raised, unchanged, after one query for the
    failing window and none for a later one: when livestatus reports
    not-found the run raises [MKGeneralException] (the data-unavailable
    error) with debug mode off and the livestatus not-found error itself
    with debug mode on; when livestatus returns no response it raises
    [MKGeneralException]; another livestatus error comes out as it is; and
    nothing else makes a fetch fail.  A failed run writes nothing; a
    successful run writes after every window was fetched and the statistics
    of all of them were computed, and writes just those. *)
Theorem compute_prediction_propagates {F : Type} `{PyFloat F} (env : Environment F)
    (info : PredictionInfo F) (now : Z) (period_info : _PeriodInfo)
    (host_name : HostName) (service_description : ServiceName) (w : World) :
  (let windows :=
     match _time_slices now (horizon (info_params info) * 86400) period_info (info_name info) with
     | Ok ws => ws
     | Raise _ => []
     end in
   exists r w' (m : nat),
     compute_prediction env info now period_info host_name service_description w = (r, w') /\
     (m <= length windows)%nat /\
     rrd_queries w'
     = rrd_queries w ++ map (slice_query info host_name service_description) (firstn m windows) /\
     match r with
     | Raise _ =>
         files w' = removed_files env (info_name info) (files w) /\
         dir_exists w' = dir_exists w
     | Ok data =>
         m = length windows /\
         exists responses,
           length responses = length windows /\
           _calculate_data_for_prediction (map raw_slice_of responses) = Ok data /\
           files w' = <[_data_file env (info_name info) := data_json env data]>
                        (<[_info_file env (info_name info) := info_json env info]>
                           (removed_files env (info_name info) (files w))) /\
           dir_exists w' = true
     end) /\
  (forall windows (k : nat) window e,
      _time_slices now (horizon (info_params info) * 86400) period_info (info_name info)
      = Ok windows ->
      windows !! k = Some window ->
      (forall j wj, (j < k)%nat -> windows !! j = Some wj ->
         exists response,
           response_or_exception env
             (livestatus_get_rrd_data env
                (rrd_queries w ++ map (slice_query info host_name service_description)
                                      (firstn j windows))
                (slice_query info host_name service_description wj))
           = Ok response) ->
      response_or_exception env
        (livestatus_get_rrd_data env
           (rrd_queries w ++ map (slice_query info host_name service_description)
                                 (firstn k windows))
           (slice_query info host_name service_description window))
      = Raise e ->
      compute_prediction env info now period_info host_name service_description w
      = (Raise e,
         {| dir_exists := dir_exists w;
            files := removed_files env (info_name info) (files w);
            rrd_queries := rrd_queries w
              ++ map (slice_query info host_name service_description)
                     (firstn (S k) windows) |})) /\
  (forall outcome e,
      response_or_exception env outcome = Raise e ->
      (debug_enabled env = false /\
       exists msg, outcome = LsNotFound msg /\
         e = MKGeneralException ("Cannot get historic metrics via Livestatus: " ++ msg)) \/
      (outcome = LsReturn None /\
       e = MKGeneralException "Cannot retrieve historic data with Nagios Core") \/
      (debug_enabled env = true /\
       exists msg, outcome = LsNotFound msg /\ e = MKLivestatusNotFoundError msg) \/
      (exists msg, outcome = LsFailure msg /\ e = MKLivestatusError msg)) /\
  (forall windows (k : nat) window,
      _time_slices now (horizon (info_params info) * 86400) period_info (info_name info)
      = Ok windows ->
      windows !! k = Some window ->
      (forall j wj, (j < k)%nat -> windows !! j = Some wj ->
         exists response,
           livestatus_get_rrd_data env
             (rrd_queries w ++ map (slice_query info host_name service_description)
                                   (firstn j windows))
             (slice_query info host_name service_description wj)
           = LsReturn (Some response)) ->
      let outcome :=
        livestatus_get_rrd_data env
          (rrd_queries w ++ map (slice_query info host_name service_description)
                                (firstn k windows))
          (slice_query info host_name service_description window) in
      let after :=
        {| dir_exists := dir_exists w;
           files := removed_files env (info_name info) (files w);
           rrd_queries := rrd_queries w
             ++ map (slice_query info host_name service_description)
                    (firstn (S k) windows) |} in
      (forall msg, outcome = LsNotFound msg -> debug_enabled env = false ->
         compute_prediction env info now period_info host_name service_description w
         = (Raise (MKGeneralException
                     ("Cannot get historic metrics via Livestatus: " ++ msg)), after)) /\
      (forall msg, outcome = LsNotFound msg -> debug_enabled env = true ->
         compute_prediction env info now period_info host_name service_description w
         = (Raise (MKLivestatusNotFoundError msg), after)) /\
      (outcome = LsReturn None ->
         compute_prediction env info now period_info host_name service_description w
         = (Raise (MKGeneralException "Cannot retrieve historic data with Nagios Core"),
            after)) /\
      (forall msg, outcome = LsFailure msg ->
         compute_prediction env info now period_info host_name service_description w
         = (Raise (MKLivestatusError msg), after))) /\
  (forall response,
      response_or_exception env (LsReturn (Some response)) = Ok response).
Proof.
  split_and!.
  - apply compute_prediction_run.
  - apply compute_prediction_fetch_failure.
  - apply response_or_exception_raises.
  - intros windows k window Hts Hk Hbefore outcome after.
    assert (Hresp : forall j wj, (j < k)%nat -> windows !! j = Some wj ->
              exists response,
                response_or_exception env
                  (livestatus_get_rrd_data env
                     (rrd_queries w ++ map (slice_query info host_name service_description)
                                           (firstn j windows))
                     (slice_query info host_name service_description wj))
                = Ok response).
    { intros j wj Hj Hwj. destruct (Hbefore j wj Hj Hwj) as [response Hr].
      exists response. now rewrite Hr. }
    split_and!.
    + intros msg Hout Hdebug.
      apply (compute_prediction_fetch_failure env info now period_info host_name
               service_description w windows k window _ Hts Hk Hresp).
      fold outcome. rewrite Hout. unfold response_or_exception. now rewrite Hdebug.
    + intros msg Hout Hdebug.
      apply (compute_prediction_fetch_failure env info now period_info host_name
               service_description w windows k window _ Hts Hk Hresp).
      fold outcome. rewrite Hout. unfold response_or_exception. now rewrite Hdebug.
    + intros Hout.
      apply (compute_prediction_fetch_failure env info now period_info host_name
               service_description w windows k window _ Hts Hk Hresp).
      fold outcome. now rewrite Hout.
    + intros msg Hout.
      apply (compute_prediction_fetch_failure env info now period_info host_name
               service_description w windows k window _ Hts Hk Hresp).
      fold outcome. now rewrite Hout.
  - reflexivity.
Qed.


Lemma compute_prediction_propagates_witness :
  let env := example_env false found_once in
  compute_prediction env example_info 1712053800 (PREDICTION_PERIODS utc hour)
                     "host" "service" stored_world
  = (Raise (MKGeneralException "Cannot get historic metrics via Livestatus: no such metric"),
     {| dir_exists := true;
        files := removed_files env "everyday" (files stored_world);
        rrd_queries :=
          [rrd_query "host" "service" "load1" "MAX" 1712016000 1712102400;
           rrd_query "host" "service" "load1" "MAX" 1711929600 1712016000] |}).
Proof.
  refine (proj1 (proj2 (compute_prediction_propagates (example_env false found_once)
            example_info 1712053800 (PREDICTION_PERIODS utc hour) "host" "service"
            stored_world))
          [(1712016000, 1712102400); (1711929600, 1712016000)] 1%nat
          (1711929600, 1712016000) _ eq_refl eq_refl _ eq_refl).
  intros j wj Hj Hwj. destruct j as [|j]; [|lia].
  injection Hwj as <-. exists example_response. reflexivity.
Defined.

Example compute_prediction_no_response :
  fst (compute_prediction (example_env true no_response) example_info 1712053800
         (PREDICTION_PERIODS utc hour) "host" "service" stored_world)
  = Raise (MKGeneralException "Cannot retrieve historic data with Nagios Core").
Proof. reflexivity. Qed.

Example compute_prediction_socket_error :
  fst (compute_prediction (example_env false socket_error) example_info 1712053800
         (PREDICTION_PERIODS utc hour) "host" "service" stored_world)
  = Raise (MKLivestatusError "socket error").
Proof. reflexivity. Qed.

(** C7 (as stated) fails in debug mode: the exception that reaches the
    caller is the livestatus not-found error, not [MKGeneralException]. *)
Lemma compute_prediction_debug_counterexample :
  fst (compute_prediction (example_env true not_found) example_info 1712053800
         (PREDICTION_PERIODS utc hour) "host" "service" stored_world)
  = Raise (MKLivestatusNotFoundError "no such metric") /\
  (forall msg, MKLivestatusNotFoundError "no such metric" <> MKGeneralException msg).
Proof. split; [reflexivity|discriminate]. Qed.


(** * Further properties of the module *)

(** ** Timestamps of a window *)

Lemma rrd_timestamps_lookup_iff start end_ step (k : nat) t :
  0 < step ->
  rrd_timestamps (start, end_, step) !! k = Some t <->
  t = start + (Z.of_nat k + 1) * step /\ start + Z.of_nat k * step < end_.
Proof.
  intros Hs. rewrite <- (range_len_up start end_ step k Hs).
  unfold rrd_timestamps. destruct (Z.eqb_spec step 0) as [|_]; [lia|].
  rewrite list_lookup_fmap. split.
  - destruct (range_items start end_ step !! k) as [t0|] eqn:Hk; [|discriminate].
    apply range_items_lookup_inv in Hk as [Hk ->]. simpl. intros [= <-]. split; [lia|exact Hk].
  - intros [-> Hk]. rewrite range_items_lookup by exact Hk. simpl. f_equal. lia.
Qed.

(** X1.  [rrd_timestamps] is empty for a zero step; for a positive step its
    [k]-th timestamp is [start + (k + 1) * step], and there is one exactly for
    the [k] with [start + k * step < end]: the timestamps are the right ends
    of the buckets, the first one a step after [start].  For a negative step
    the grid runs downwards in the same way. *)
Theorem rrd_timestamps_grid (start end_ step : Z) :
  (step = 0 -> rrd_timestamps (start, end_, step) = []) /\
  (0 < step -> forall (k : nat) t,
      rrd_timestamps (start, end_, step) !! k = Some t <->
      t = start + (Z.of_nat k + 1) * step /\ start + Z.of_nat k * step < end_) /\
  (step < 0 -> forall (k : nat) t,
      rrd_timestamps (start, end_, step) !! k = Some t <->
      t = start + (Z.of_nat k + 1) * step /\ end_ < start + Z.of_nat k * step).
Proof.
  split_and!.
  - intros ->. reflexivity.
  - intros Hs k t. now apply rrd_timestamps_lookup_iff.
  - intros Hs k t. rewrite <- (range_len_down start end_ step k Hs).
    unfold rrd_timestamps. destruct (Z.eqb_spec step 0) as [|_]; [lia|].
    rewrite list_lookup_fmap. split.
    + destruct (range_items start end_ step !! k) as [t0|] eqn:Hk; [|discriminate].
      apply range_items_lookup_inv in Hk as [Hk ->]. simpl. intros [= <-]. split; [lia|exact Hk].
    + intros [-> Hk]. rewrite range_items_lookup by exact Hk. simpl. f_equal. lia.
Qed.

Lemma rrd_timestamps_grid_witness :
  rrd_timestamps (100, 125, 10) !! 2%nat = Some 130.
Proof.
  apply (proj1 (proj2 (rrd_timestamps_grid 100 125 10)) ltac:(lia) 2%nat 130).
  split; reflexivity.
Defined.

Lemma lookup_combine {A B} (l : list A) (l' : list B) (k : nat) a b :
  combine l l' !! k = Some (a, b) <-> l !! k = Some a /\ l' !! k = Some b.
Proof.
  revert l' k. induction l as [|x l IH]; intros l' k.
  - simpl. split; [discriminate|]. intros [? _]. discriminate.
  - destruct l' as [|y l']; simpl.
    + split; [discriminate|]. intros [_ ?]. discriminate.
    + destruct k as [|k]; simpl; [|apply IH].
      split; [intros [= -> ->]; auto|intros [[= ->] [= ->]]; reflexivity].
Qed.

(** X2.  For a positive step, [time_data_pairs] holds at position [k] the
    pair of the bucket end [start + (k + 1) * step] and the [k]-th value, and
    it holds a pair only where [start + k * step < end] and a [k]-th value
    exists: values beyond the window's last timestamp, and timestamps
    without a value, are left out without an error. *)
Theorem time_data_pairs_lookup {F : Type} (self : TimeSeries F)
    (k : nat) (t : Timestamp) (v : TimeSeriesValue F) :
  0 < ts_step self ->
  (time_data_pairs self !! k = Some (t, v) <->
   t = ts_start self + (Z.of_nat k + 1) * ts_step self /\
   ts_start self + Z.of_nat k * ts_step self < ts_end self /\
   ts_values self !! k = Some v) /\
  length (time_data_pairs self)
  = Nat.min (range_len (ts_start self) (ts_end self) (ts_step self)) (length (ts_values self)).
Proof.
  intros Hs. unfold time_data_pairs, twindow. split.
  - rewrite lookup_combine.
    rewrite (rrd_timestamps_lookup_iff _ _ _ k t Hs). tauto.
  - now rewrite length_combine, rrd_timestamps_length.
Qed.

Lemma time_data_pairs_lookup_witness :
  time_data_pairs (mkTimeSeries 0 20 10 [Some 1%float; None; Some 3%float]) !! 1%nat
  = Some (20, None).
Proof.
  apply (proj1 (time_data_pairs_lookup (mkTimeSeries 0 20 10 [Some 1%float; None; Some 3%float])
                  1%nat 20 None ltac:(simpl; lia))).
  simpl. split_and!; [lia|lia|reflexivity].
Defined.

(** ** Upsampling: what any successful call returns *)

Lemma bfill_loop_shape {F : Type} (cts : list Z) (vals : TimeSeriesValues F) targets :
  forall i acc out,
    bfill_loop cts vals targets i acc = Ok out ->
    length out = (length acc + length targets)%nat /\
    (Forall (fun v => v ∈ vals) acc -> Forall (fun v => v ∈ vals) out).
Proof.
  induction targets as [|t rest IH]; intros i acc out; simpl.
  - intros [= <-]. split; [simpl; lia|auto].
  - destruct (getitem cts i) as [c|]; [|discriminate]. cbn [rbind].
    unfold getitem.
    destruct (_ !! (if c <=? t then S i else i)) as [v|] eqn:Hv;
      cbn [rbind]; [|discriminate].
    intros Hrun. apply IH in Hrun as [Hlen Hmem]. split.
    + rewrite Hlen, length_app. simpl. lia.
    + intros Hacc. apply Hmem. apply Forall_app. split; [exact Hacc|].
      apply Forall_singleton. eapply list_elem_of_lookup_2, Hv.
Qed.

(** X3.  Whenever [bfill_upsample] returns, every value it returns is one of
    the series' own values (nothing is interpolated or invented), and, unless
    the target window is the series' own, there is exactly one value per
    timestamp of [range(start, end, step)] of the target window. *)
Theorem bfill_upsample_shape {F : Type} (self : TimeSeries F) (tw : TimeWindow)
    (upsa : TimeSeriesValues F) :
  bfill_upsample self tw = Ok upsa ->
  Forall (fun v => v ∈ ts_values self) upsa /\
  (tw <> twindow self ->
   length upsa = range_len (tw_start tw) (tw_end tw) (tw_step tw)).
Proof.
  unfold bfill_upsample. destruct (TimeWindow_eqb tw (twindow self)) eqn:Heq.
  - intros [= <-]. split.
    + apply Forall_forall. auto.
    + intros Hne. apply TimeWindow_eqb_eq in Heq. contradiction.
  - unfold py_range. destruct (tw_step tw =? 0); [discriminate|]. simpl.
    intros Hrun. apply bfill_loop_shape in Hrun as [Hlen Hmem]. split.
    + apply Hmem. constructor.
    + intros _. rewrite Hlen, range_items_length. reflexivity.
Qed.

Lemma bfill_upsample_shape_witness :
  let self := mkTimeSeries 0 20 10 [Some 1%float; Some 2%float] in
  Forall (fun v => v ∈ ts_values self) [Some 1%float; Some 1%float; Some 2%float; Some 2%float] /\
  ((0, 20, 5) <> twindow self ->
   length [Some 1%float; Some 1%float; Some 2%float; Some 2%float] = range_len 0 20 5).
Proof.
  exact (bfill_upsample_shape (mkTimeSeries 0 20 10 [Some 1%float; Some 2%float]) (0, 20, 5)
           [Some 1%float; Some 1%float; Some 2%float; Some 2%float] eq_refl).
Defined.

(** X4.  [bfill_upsample] onto another window fails in two ways only: with a
    [ValueError] exactly when the target step is zero, else with an
    [IndexError]; and on a series without values every target window with a
    timestamp in it gives [IndexError]. *)
Theorem bfill_upsample_errors {F : Type} (self : TimeSeries F) (tw : TimeWindow) :
  tw <> twindow self ->
  (tw_step tw = 0 ->
   bfill_upsample self tw = Raise (ValueError "range() arg 3 must not be zero")) /\
  (tw_step tw <> 0 -> forall e, bfill_upsample self tw = Raise e -> e = IndexError) /\
  (tw_step tw <> 0 -> ts_values self = [] ->
   range_len (tw_start tw) (tw_end tw) (tw_step tw) <> 0%nat ->
   bfill_upsample self tw = Raise IndexError).
Proof.
  intros Hne. unfold bfill_upsample.
  destruct (TimeWindow_eqb tw (twindow self)) eqn:Heq;
    [apply TimeWindow_eqb_eq in Heq; contradiction|].
  unfold py_range. split_and!.
  - intros ->. reflexivity.
  - intros Hstep e. destruct (Z.eqb_spec (tw_step tw) 0) as [|_]; [contradiction|]. simpl.
    generalize (range_items (tw_start tw) (tw_end tw) (tw_step tw)) as targets.
    generalize (@nil (TimeSeriesValue F)) as acc. generalize 0%nat as i.
    intros i acc targets. revert i acc.
    induction targets as [|t rest IH]; intros i acc; simpl; [discriminate|].
    unfold getitem at 1. destruct (_ !! i) as [c|]; simpl; [|congruence].
    unfold getitem at 1. destruct (_ !! _) as [v|]; simpl; [apply IH|congruence].
  - intros Hstep Hvals Hlen. destruct (Z.eqb_spec (tw_step tw) 0) as [|_]; [contradiction|].
    simpl. rewrite <- range_items_length in Hlen.
    destruct (range_items _ _ _) as [|t rest]; [contradiction|]. simpl.
    unfold getitem at 1. destruct (_ !! 0%nat) as [c|]; simpl; [|reflexivity].
    rewrite Hvals. unfold getitem. now rewrite lookup_nil.
Qed.

Lemma bfill_upsample_errors_witness :
  bfill_upsample (mkTimeSeries 0 20 10 [Some 1%float; Some 2%float]) (0, 20, 0)
  = Raise (ValueError "range() arg 3 must not be zero").
Proof.
  assert (Hne : (0, 20, 0) <> twindow (mkTimeSeries 0 20 10 [Some 1%float; Some 2%float]))
    by (unfold twindow; simpl; congruence).
  apply (proj1 (bfill_upsample_errors (mkTimeSeries 0 20 10 [Some 1%float; Some 2%float]) (0, 20, 0)
                  Hne)).
  reflexivity.
Defined.

(** ** The constructor *)

(** X5.  [TimeSeries(data)] without a time window: when [data] starts
    with three values, they are converted with [int], left to right, and
    become the window, the rest the values, and an exception of [int] is the
    exception of the call; it succeeds only in this way.  Otherwise the first
    of the three items that is not a value decides: a [None] gives
    [ValueError], as empty data does; a missing second or third item gives
    [IndexError].  With a time window the constructor always succeeds,
    converts every value and keeps every [None]. *)
Theorem TimeSeries_new_from_data {F : Type} (to_int : F -> result Z) (conversion : F -> F)
    (data : TimeSeriesValues F) :
  (forall a b c rest,
      data = Some a :: Some b :: Some c :: rest ->
      TimeSeries_new to_int conversion data None
      = let! start := to_int a in
        let! end_ := to_int b in
        let! step := to_int c in
        Ok {| ts_start := start; ts_end := end_; ts_step := step;
              ts_values := convert_values conversion rest |}) /\
  (forall ts,
      TimeSeries_new to_int conversion data None = Ok ts ->
      exists a b c rest,
        data = Some a :: Some b :: Some c :: rest /\
        to_int a = Ok (ts_start ts) /\ to_int b = Ok (ts_end ts) /\
        to_int c = Ok (ts_step ts) /\
        ts_values ts = convert_values conversion rest) /\
  (forall k : nat,
      (k < 3)%nat ->
      (forall j : nat, (j < k)%nat -> exists x, data !! j = Some (Some x)) ->
      (data !! k = Some None ->
       TimeSeries_new to_int conversion data None = Raise (ValueError "data")) /\
      (data !! k = None ->
       TimeSeries_new to_int conversion data None
       = Raise (if Nat.eqb k 0 then ValueError "data" else IndexError))) /\
  (forall tw,
      exists ts,
        TimeSeries_new to_int conversion data (Some tw) = Ok ts /\
        twindow ts = tw /\
        length (ts_values ts) = length data /\
        forall k, ts_values ts !! k = option_map (option_map conversion) (data !! k)).
Proof.
  split_and!.
  - intros a b c rest ->. reflexivity.
  - intros ts. destruct data as [|[a|] [|[b|] [|[c|] rest]]]; try discriminate.
    cbn. destruct (to_int a) as [s|] eqn:Ea; [|discriminate].
    destruct (to_int b) as [e|] eqn:Eb; [|discriminate].
    destruct (to_int c) as [p|] eqn:Ec; [|discriminate].
    cbn. intros [= <-]. exists a, b, c, rest. cbn. rewrite Ea, Eb, Ec. auto.
  - intros k Hk Hbefore.
    assert (H0 : (0 < k)%nat -> exists x, data !! 0%nat = Some (Some x))
      by (intros; apply Hbefore; lia).
    assert (H1 : (1 < k)%nat -> exists x, data !! 1%nat = Some (Some x))
      by (intros; apply Hbefore; lia).
    destruct k as [|[|[|k]]]; [| | |lia].
    + split; intros Hd; destruct data as [|[a|] rest]; try discriminate; reflexivity.
    + destruct H0 as [x Hx]; [lia|].
      destruct data as [|[a|] rest]; try discriminate.
      split; intros Hd; destruct rest as [|[b|] rest]; try discriminate; reflexivity.
    + destruct H0 as [x Hx]; [lia|]. destruct H1 as [y Hy]; [lia|].
      destruct data as [|[a|] [|[b|] rest]]; try discriminate.
      split; intros Hd; destruct rest as [|[c|] rest]; try discriminate; reflexivity.
  - intros [[s e] p]. eexists. split; [reflexivity|]. split; [reflexivity|].
    cbn [ts_values]. unfold convert_values. split; [apply length_map|].
    intros k. unalias. rewrite list_lookup_fmap. destruct (data !! k) as [[x|]|]; reflexivity.
Qed.

(** ** Downsampling: what any call returns *)

Lemma downsample_loop_shape {F : Type} `{PyFloat F} desired cf
    (pairs : list (Timestamp * TimeSeriesValue F)) :
  forall dwsa co i dwsa' co' i',
    downsample_loop desired cf pairs dwsa co i = Ok (dwsa', co', i') ->
    length dwsa = i -> (i <= length desired)%nat ->
    length dwsa' = i' /\ (i' <= length desired)%nat.
Proof.
  induction pairs as [|[t val] rest IH]; intros dwsa co i dwsa' co' i'; simpl.
  - intros [= <- <- <-]. auto.
  - unfold getitem at 1. destruct (_ !! i) as [d|] eqn:Hd; cbn [rbind]; [|discriminate].
    apply lookup_lt_Some in Hd. destruct (d <? t).
    + destruct (aggregation_functions co cf) as [a|]; cbn [rbind]; [|discriminate].
      intros Hrun Hlen _. eapply IH; [exact Hrun| |lia].
      rewrite length_app. simpl. lia.
    + intros Hrun Hlen Hi. eapply IH; eauto.
Qed.

(** X6.  Whenever [downsample] onto another window returns, it returns
    exactly one value per bucket end of the target window
    ([rrd_timestamps] of it), however many values the series has. *)
Theorem downsample_length {F : Type} `{PyFloat F} (self : TimeSeries F) (tw : TimeWindow)
    (cf : option ConsolidationFunctionName) (dwsa : TimeSeriesValues F) :
  tw <> twindow self ->
  downsample self tw cf = Ok dwsa ->
  length dwsa = length (rrd_timestamps tw).
Proof.
  intros Hne. unfold downsample.
  destruct (TimeWindow_eqb tw (twindow self)) eqn:Heq;
    [apply TimeWindow_eqb_eq in Heq; contradiction|].
  destruct (downsample_loop _ cf _ [] [] 0) as [[[dw co] i]|] eqn:Hloop; cbn [rbind];
    [|discriminate].
  apply downsample_loop_shape in Hloop as [Hlen Hi]; [|reflexivity|lia].
  destruct (Nat.ltb_spec (length dw) (length (rrd_timestamps tw))) as [Hlt|Hge].
  - destruct (aggregation_functions co cf) as [a|]; cbn [rbind]; [|discriminate].
    intros [= <-]. rewrite !length_app, repeat_length. simpl. unalias. lia.
  - intros [= <-]. unalias. lia.
Qed.

Lemma downsample_length_witness :
  length [Some 2%float; Some 3%float] = length (rrd_timestamps (0, 40, 20)).
Proof.
  assert (Hne : (0, 40, 20) <> twindow (mkTimeSeries 0 30 10 [Some 1%float; Some 2%float; Some 3%float]))
    by (unfold twindow; simpl; congruence).
  apply (downsample_length (mkTimeSeries 0 30 10 [Some 1%float; Some 2%float; Some 3%float])
           (0, 40, 20) (Some "max"%string) _ Hne).
  reflexivity.
Defined.

(** ** Downsampling: the buckets *)

Lemma result_mapM_ext {A B} (f g : A -> result B) (l : list A) :
  (forall a, a ∈ l -> f a = g a) -> result_mapM f l = result_mapM g l.
Proof.
  induction l as [|a l IH]; intros Hfg; [reflexivity|]. simpl.
  rewrite (Hfg a) by left. rewrite IH by (intros b Hb; apply Hfg; now right). reflexivity.
Qed.

Lemma result_mapM_none {A B} (f : A -> result (option B)) (l : list A) :
  (forall a, a ∈ l -> f a = Ok None) -> result_mapM f l = Ok (repeat None (length l)).
Proof.
  induction l as [|a l IH]; intros Hf; [reflexivity|]. simpl.
  rewrite (Hf a) by left. rewrite IH by (intros b Hb; apply Hf; now right). reflexivity.
Qed.

Lemma filter_none {A} (P : A -> Prop) `{forall x, Decision (P x)} (l : list A) :
  (forall x, x ∈ l -> ~ P x) -> filter P l = [].
Proof.
  induction l as [|x l IH]; intros Hnot; [reflexivity|].
  rewrite filter_cons_False by (apply Hnot; left).
  apply IH. intros y Hy. apply Hnot. now right.
Qed.

Section DownsampleBuckets.
Context {F : Type} `{PyFloat F}.
Variables (tw : TimeWindow) (p : Z) (cf : option ConsolidationFunctionName).
Hypothesis Hp : 0 < p <= tw_step tw.

Local Abbreviation N := (length (rrd_timestamps tw)).
Local Abbreviation bucket_start := (fun j : nat => tw_start tw + Z.of_nat j * tw_step tw).

Lemma stepping_tail tau (pr : Z * option F) rest :
  stepping p tau (pr :: rest) -> stepping p (tau + p) rest.
Proof.
  intros Hst k q Hk. pose proof (Hst (S k) q Hk) as Hq. unalias. lia.
Qed.

Lemma stepping_lower tau (pairs : list (Z * option F)) pr :
  stepping p tau pairs -> pr ∈ pairs -> tau <= fst pr.
Proof using Hp.
  intros Hst Hin. apply list_elem_of_lookup in Hin as [k Hk].
  pose proof (Hst k pr Hk) as Hpr. unalias. nia.
Qed.

Lemma bucket_values_cons_in t (v : option F) (rest : list (Z * option F)) (j : nat) :
  bucket_start j < t <= bucket_start j + tw_step tw ->
  bucket_values tw ((t, v) :: rest) j = v :: bucket_values tw rest j.
Proof.
  intros Hin. unfold bucket_values. rewrite filter_cons_True by (unalias; cbv beta in *; cbn [fst]; lia). reflexivity.
Qed.

Lemma bucket_values_cons_out t (v : option F) (rest : list (Z * option F)) (j : nat) :
  ~ (bucket_start j < t <= bucket_start j + tw_step tw) ->
  bucket_values tw ((t, v) :: rest) j = bucket_values tw rest j.
Proof.
  intros Hout. unfold bucket_values. rewrite filter_cons_False by (unalias; cbv beta in *; cbn [fst]; lia). reflexivity.
Qed.

Lemma bucket_values_later tau (pairs : list (Z * option F)) (j : nat) :
  stepping p tau pairs ->
  bucket_start j + tw_step tw < tau ->
  bucket_values tw pairs j = [].
Proof using Hp.
  intros Hst Hlater. unfold bucket_values. rewrite filter_none; [reflexivity|].
  intros pr Hin. pose proof (stepping_lower tau pairs pr Hst Hin). unalias. cbv beta in *. lia.
Qed.

Lemma desired_times_lookup (j : nat) :
  (j < N)%nat -> rrd_timestamps tw !! j = Some (bucket_start j + tw_step tw).
Proof using Hp.
  destruct tw as [[S E] P]. unfold tw_start, tw_step in *. cbn [fst snd] in *. intros Hj.
  rewrite rrd_timestamps_length in Hj by lia.
  rewrite rrd_timestamps_lookup by (lia || exact Hj). f_equal. lia.
Qed.

Lemma aggregation_functions_nil : aggregation_functions (F := F) [] cf = Ok None.
Proof. reflexivity. Qed.

(** The loop, started in bucket [i] with the group [co] collected so far,
    followed by the closing part: bucket [i] gets [co] and the remaining
    values of the bucket, every later bucket its own values. *)
Lemma downsample_loop_buckets (rem : list (Z * option F)) :
  forall tau (dwsa co : list (option F)) (i : nat),
    stepping p tau rem ->
    (i < N)%nat ->
    (rem <> [] -> bucket_start i < tau <= bucket_start i + 2 * tw_step tw) ->
    Forall (fun pr => fst pr <= bucket_start N) rem ->
    length dwsa = i ->
    rbind (downsample_loop (rrd_timestamps tw) cf rem dwsa co i)
          (downsample_finish (rrd_timestamps tw) cf)
    = (let! a := aggregation_functions (co ++ bucket_values tw rem i) cf in
       let! rest := result_mapM (fun j => aggregation_functions (bucket_values tw rem j) cf)
                                (seq (S i) (N - S i)) in
       Ok (dwsa ++ a :: rest)).
Proof using Hp.
  induction rem as [|[t v] rest IH]; intros tau dwsa co i Hst Hi Htau Hcov Hlen.
  - cbn [downsample_loop rbind downsample_finish]. unalias.
    match goal with
    | |- context [(?a <? ?b)%nat] => destruct (Nat.ltb_spec a b) as [_|]; [|unalias; lia]
    end.
    unfold bucket_values at 1. cbn [filter list_filter map]. rewrite app_nil_r.
    destruct (aggregation_functions co cf) as [a|e]; cbn [rbind]; [|reflexivity].
    rewrite result_mapM_none by (intros; apply aggregation_functions_nil).
    cbn [rbind]. rewrite length_seq, <- app_assoc. cbn [app].
    do 4 f_equal. unalias. lia.
  - assert (Ht : t = tau)
      by (pose proof (Hst 0%nat (t, v) eq_refl) as Ht0; simpl in Ht0; lia).
    subst tau.
    specialize (Htau ltac:(discriminate)).
    apply Forall_cons in Hcov as [Ht_cov Hcov]. cbn [fst] in Ht_cov.
    apply stepping_tail in Hst.
    cbn [downsample_loop]. unfold getitem.
    pose proof (desired_times_lookup i Hi) as Hd. unalias. rewrite Hd. clear Hd. cbn [rbind].
    destruct (Z.ltb_spec (bucket_start i + tw_step tw) t) as [Hadv|Hstay].
    + assert (HSi : (S i < N)%nat) by (unalias; cbv beta in *; nia).
      rewrite bucket_values_cons_out by (unalias; cbv beta in *; lia).
      rewrite (bucket_values_later (t + p) rest i Hst) by (unalias; cbv beta in *; lia).
      rewrite app_nil_r.
      destruct (aggregation_functions co cf) as [a|e]; cbn [rbind]; [|reflexivity].
      etransitivity.
      { apply (IH (t + p) (dwsa ++ [a]) [v] (S i) Hst HSi); [|exact Hcov|].
        - intros _. unalias. cbv beta in *. nia.
        - rewrite length_app. simpl. lia. }
      match goal with
      | |- context [seq (S i) ?n] => replace n with (S (N - S (S i))) by (unalias; lia)
      end.
      cbn [seq result_mapM].
      rewrite (bucket_values_cons_in t v rest (S i)) by (unalias; cbv beta in *; nia).
      cbn [app].
      destruct (aggregation_functions (v :: bucket_values tw rest (S i)) cf) as [a'|e];
        cbn [rbind]; [|reflexivity].
      rewrite (result_mapM_ext
                 (fun j => aggregation_functions (bucket_values tw ((t, v) :: rest) j) cf)
                 (fun j => aggregation_functions (bucket_values tw rest j) cf)).
      2:{ intros j Hj. apply elem_of_seq in Hj.
          rewrite bucket_values_cons_out by (unalias; cbv beta in *; nia). reflexivity. }
      destruct (result_mapM _ _) as [rest'|e]; cbn [rbind]; [|reflexivity].
      now rewrite <- app_assoc.
    + etransitivity.
      { apply (IH (t + p) dwsa (co ++ [v]) i Hst Hi); [|exact Hcov|exact Hlen].
        intros _. unalias. cbv beta in *. nia. }
      rewrite (bucket_values_cons_in t v rest i) by (unalias; cbv beta in *; lia).
      rewrite <- app_assoc. cbn [app].
      rewrite (result_mapM_ext
                 (fun j => aggregation_functions (bucket_values tw ((t, v) :: rest) j) cf)
                 (fun j => aggregation_functions (bucket_values tw rest j) cf)).
      2:{ intros j Hj. apply elem_of_seq in Hj.
          rewrite bucket_values_cons_out by (unalias; cbv beta in *; nia). reflexivity. }
      reflexivity.
Qed.

End DownsampleBuckets.

Lemma time_data_pairs_stepping {F : Type} (self : TimeSeries F) :
  0 < ts_step self ->
  stepping (ts_step self) (ts_start self + ts_step self) (time_data_pairs self).
Proof.
  intros Hs k [t v] Hk. unfold time_data_pairs, twindow in Hk.
  apply lookup_combine in Hk as [Ht _].
  apply rrd_timestamps_lookup_iff in Ht as [-> _]; [|exact Hs]. simpl. lia.
Qed.

(** X7.  Downsampling onto another window whose step is at least the
    series' step, when the first timestamp of the series lies in one of the
    first two target buckets and no timestamp lies after the last target
    bucket: the result has, for each target bucket in order, the
    consolidation of exactly the values whose timestamp lies in that bucket
    (after its start, at or before its end); a bucket without values gives
    [None]; an exception of the consolidation function for the earliest
    bucket that has one is the exception of the call. *)
Theorem downsample_buckets {F : Type} `{PyFloat F} (self : TimeSeries F) (tw : TimeWindow)
    (cf : option ConsolidationFunctionName) :
  tw <> twindow self ->
  0 < ts_step self <= tw_step tw ->
  tw_start tw < ts_start self + ts_step self <= tw_start tw + 2 * tw_step tw ->
  Forall (fun pr => fst pr <= tw_start tw
                               + Z.of_nat (length (rrd_timestamps tw)) * tw_step tw)
         (time_data_pairs self) ->
  downsample self tw cf
  = result_mapM (fun j => aggregation_functions
                            (bucket_values tw (time_data_pairs self) j) cf)
                (seq 0 (length (rrd_timestamps tw))).
Proof.
  intros Hne Hp Hfirst Hcov. unfold downsample.
  destruct (TimeWindow_eqb tw (twindow self)) eqn:Heq;
    [apply TimeWindow_eqb_eq in Heq; contradiction|].
  change (rbind (downsample_loop (rrd_timestamps tw) cf (time_data_pairs self) [] [] 0)
                (downsample_finish (rrd_timestamps tw) cf)
          = result_mapM (fun j => aggregation_functions
                                    (bucket_values tw (time_data_pairs self) j) cf)
                        (seq 0 (length (rrd_timestamps tw)))).
  pose proof (time_data_pairs_stepping self ltac:(lia)) as Hst.
  destruct (length (rrd_timestamps tw)) as [|n] eqn:HN.
  - destruct (time_data_pairs self) as [|[t v] rest].
    + cbn [downsample_loop rbind downsample_finish]. unalias. rewrite HN. reflexivity.
    + apply Forall_cons in Hcov as [Ht _].
      pose proof (Hst 0%nat (t, v) eq_refl) as Ht0. unalias. simpl in *. lia.
  - etransitivity.
    { apply (downsample_loop_buckets tw (ts_step self) cf Hp (time_data_pairs self)
               (ts_start self + ts_step self) [] [] 0%nat Hst).
      - unalias. lia.
      - intros _. unalias. simpl. lia.
      - unalias. rewrite HN. exact Hcov.
      - reflexivity. }
    unalias. rewrite HN. replace (S n - 1)%nat with n by lia. reflexivity.
Qed.

Lemma downsample_buckets_witness :
  let self := mkTimeSeries 0 30 10 [Some 1%float; Some 2%float; Some 3%float] in
  let tw : TimeWindow := (0, 40, 20) in
  downsample self tw (Some "max"%string)
  = result_mapM (fun j => aggregation_functions
                            (bucket_values tw (time_data_pairs self) j) (Some "max"%string))
                (seq 0 (length (rrd_timestamps tw))).
Proof.
  assert (Hne : (0, 40, 20) <> twindow (mkTimeSeries 0 30 10 [Some 1%float; Some 2%float; Some 3%float]))
    by (unfold twindow; simpl; congruence).
  apply (downsample_buckets (mkTimeSeries 0 30 10 [Some 1%float; Some 2%float; Some 3%float])
           (0, 40, 20) (Some "max"%string) Hne).
  - unfold tw_step. simpl. lia.
  - unfold tw_start, tw_step. simpl. lia.
  - change (Forall (fun pr : Z * option PrimFloat.float => fst pr <= 0 + 2 * 20)
                   [(10, Some 1%float); (20, Some 2%float); (30, Some 3%float)]).
    repeat (apply List.Forall_cons; [simpl; lia|]). apply List.Forall_nil.
Defined.

(** ** Consolidation: maximum and minimum *)

Lemma elem_of_drop_none {F : Type} (series : TimeSeriesValues F) (y : F) :
  y ∈ drop_none series <-> Some y ∈ series.
Proof.
  induction series as [|[x|] rest IH]; simpl.
  - split; intros Hin; inversion Hin.
  - rewrite !elem_of_cons, IH. split; intros [Heq|Hin]; auto; left; congruence.
  - rewrite elem_of_cons, IH. split; [auto|]. intros [Heq|Hin]; [discriminate|exact Hin].
Qed.

Lemma strict_order_on_subset {F : Type} `{PyFloat F} (l l' : list F) :
  strict_order_on l -> (forall z, z ∈ l' -> z ∈ l) -> strict_order_on l'.
Proof.
  intros [Hirr Htrans] Hsub. split.
  - intros x Hx. apply Hirr, Hsub, Hx.
  - intros x y z Hx Hy Hz. apply Htrans; apply Hsub; assumption.
Qed.

(** The running maximum ends on an item that is the first one or above it,
    and that is below no item. *)
Lemma py_max_order {F : Type} `{PyFloat F} (l : list F) : forall x : F,
  py_max x l ∈ x :: l /\
  (strict_order_on (x :: l) ->
   (py_max x l = x \/ fltb x (py_max x l) = true) /\
   forall y, y ∈ x :: l -> fltb (py_max x l) y = false).
Proof.
  induction l as [|y l IH]; intros x.
  - split; [left|]. intros [Hirr _]. split; [now left|].
    intros y Hy. apply list_elem_of_singleton in Hy as ->. apply Hirr. left.
  - assert (Hstep : py_max x (y :: l) = py_max (if fltb x y then y else x) l) by reflexivity.
    rewrite Hstep. destruct (IH (if fltb x y then y else x)) as [Hin Hbound]. split.
    + destruct (fltb x y).
      * now right.
      * apply elem_of_cons in Hin as [->|Hin]; [left|right; now right].
    + intros Hord. pose proof Hord as [Hirr Htrans].
      assert (Hx : x ∈ x :: y :: l) by left.
      assert (Hy : y ∈ x :: y :: l) by (right; left).
      assert (Hm : py_max (if fltb x y then y else x) l ∈ x :: y :: l).
      { destruct (fltb x y).
        - now right.
        - apply elem_of_cons in Hin as [->|Hin]; [left|right; now right]. }
      destruct Hbound as [Hfrom Hall].
      { apply (strict_order_on_subset (x :: y :: l)); [exact Hord|].
        intros z Hz. destruct (fltb x y).
        - now right.
        - apply elem_of_cons in Hz as [->|Hz]; [left|right; now right]. }
      destruct (fltb x y) eqn:Hxy.
      * assert (Hxm : fltb x (py_max y l) = true).
        { destruct Hfrom as [->|Hym]; [exact Hxy|]. exact (Htrans x y _ Hx Hy Hm Hxy Hym). }
        split; [now right|]. intros z Hz.
        apply elem_of_cons in Hz as [->|Hz]; [|now apply Hall].
        destruct (fltb (py_max y l) x) eqn:Hmx; [|reflexivity].
        rewrite <- (Hirr x Hx). symmetry. exact (Htrans x _ x Hx Hm Hx Hxm Hmx).
      * split; [exact Hfrom|]. intros z Hz.
        apply elem_of_cons in Hz as [->|Hz]; [apply Hall; left|].
        apply elem_of_cons in Hz as [->|Hz]; [|apply Hall; now right].
        destruct Hfrom as [->|Hxm]; [exact Hxy|].
        destruct (fltb (py_max x l) y) eqn:Hmy; [|reflexivity].
        rewrite <- Hxy. symmetry. exact (Htrans x _ y Hx Hm Hy Hxm Hmy).
Qed.

Lemma py_min_order {F : Type} `{PyFloat F} (l : list F) : forall x : F,
  py_min x l ∈ x :: l /\
  (strict_order_on (x :: l) ->
   (py_min x l = x \/ fltb (py_min x l) x = true) /\
   forall y, y ∈ x :: l -> fltb y (py_min x l) = false).
Proof.
  induction l as [|y l IH]; intros x.
  - split; [left|]. intros [Hirr _]. split; [now left|].
    intros y Hy. apply list_elem_of_singleton in Hy as ->. apply Hirr. left.
  - assert (Hstep : py_min x (y :: l) = py_min (if fltb y x then y else x) l) by reflexivity.
    rewrite Hstep. destruct (IH (if fltb y x then y else x)) as [Hin Hbound]. split.
    + destruct (fltb y x).
      * now right.
      * apply elem_of_cons in Hin as [->|Hin]; [left|right; now right].
    + intros Hord. pose proof Hord as [Hirr Htrans].
      assert (Hx : x ∈ x :: y :: l) by left.
      assert (Hy : y ∈ x :: y :: l) by (right; left).
      assert (Hm : py_min (if fltb y x then y else x) l ∈ x :: y :: l).
      { destruct (fltb y x).
        - now right.
        - apply elem_of_cons in Hin as [->|Hin]; [left|right; now right]. }
      destruct Hbound as [Hfrom Hall].
      { apply (strict_order_on_subset (x :: y :: l)); [exact Hord|].
        intros z Hz. destruct (fltb y x).
        - now right.
        - apply elem_of_cons in Hz as [->|Hz]; [left|right; now right]. }
      destruct (fltb y x) eqn:Hyx.
      * assert (Hmx : fltb (py_min y l) x = true).
        { destruct Hfrom as [->|Hmy]; [exact Hyx|]. exact (Htrans _ y x Hm Hy Hx Hmy Hyx). }
        split; [now right|]. intros z Hz.
        apply elem_of_cons in Hz as [->|Hz]; [|now apply Hall].
        destruct (fltb x (py_min y l)) eqn:Hxm; [|reflexivity].
        rewrite <- (Hirr x Hx). symmetry. exact (Htrans x _ x Hx Hm Hx Hxm Hmx).
      * split; [exact Hfrom|]. intros z Hz.
        apply elem_of_cons in Hz as [->|Hz]; [apply Hall; left|].
        apply elem_of_cons in Hz as [->|Hz]; [|apply Hall; now right].
        destruct Hfrom as [->|Hmx]; [exact Hyx|].
        destruct (fltb y (py_min x l)) eqn:Hym; [|reflexivity].
        rewrite <- Hyx. symmetry. exact (Htrans y _ x Hy Hm Hx Hym Hmx).
Qed.

(** [<] on binary64 is irreflexive and transitive, whether or not a NaN is
    among the numbers. *)
Lemma SFltb_irrefl (a : SpecFloat.spec_float) : SpecFloat.SFltb a a = false.
Proof.
  unfold SpecFloat.SFltb, SpecFloat.SFcompare.
  destruct a as [[]|[]| |[] m e]; try reflexivity;
    rewrite Z.compare_refl; change (Pos.compare_cont Eq m m) with (Pos.compare m m);
    now rewrite Pos.compare_refl.
Qed.

Lemma SFltb_trans (a b c : SpecFloat.spec_float) :
  SpecFloat.SFltb a b = true -> SpecFloat.SFltb b c = true -> SpecFloat.SFltb a c = true.
Proof.
  unfold SpecFloat.SFltb, SpecFloat.SFcompare.
  destruct a as [[]|[]| |[] ma ea], b as [[]|[]| |[] mb eb], c as [[]|[]| |[] mc ec];
    try reflexivity; try discriminate;
    change (Pos.compare_cont Eq) with Pos.compare;
    destruct (Z.compare_spec ea eb), (Z.compare_spec eb ec), (Z.compare_spec ea ec);
    try reflexivity; try discriminate; try lia;
    destruct (Pos.compare_spec ma mb), (Pos.compare_spec mb mc), (Pos.compare_spec ma mc);
    simpl; try reflexivity; try discriminate; lia.
Qed.

Lemma binary64_strict_order (libm_pow2 : PrimFloat.float -> PrimFloat.float)
    (l : list PrimFloat.float) :
  @strict_order_on _ (binary64 libm_pow2) l.
Proof.
  split.
  - intros x _. cbn [fltb binary64]. rewrite FloatAxioms.ltb_spec. apply SFltb_irrefl.
  - intros x y z _ _ _. cbn [fltb binary64]. rewrite !FloatAxioms.ltb_spec.
    apply SFltb_trans.
Qed.

(** X8.  On a series with at least one value, "max" and "min" return one
    of the series' values ([None] items play no part).  Where [<] is
    irreflexive and transitive on the values, as it is on binary64 with or
    without a NaN, the maximum is below no value of the series and no value
    is below the minimum.  The mean of "average" is not bounded in this way:
    it is rounded. *)
Theorem aggregation_max_min_bounds {F : Type} `{PyFloat F} (series : TimeSeriesValues F) :
  drop_none series <> [] ->
  exists mx mn : F,
    aggregation_functions series (Some "max"%string) = Ok (Some mx) /\
    aggregation_functions series (Some "min"%string) = Ok (Some mn) /\
    Some mx ∈ series /\
    Some mn ∈ series /\
    (strict_order_on (drop_none series) ->
     forall y, Some y ∈ series -> fltb mx y = false /\ fltb y mn = false).
Proof.
  intros Hvals. unfold aggregation_functions.
  destruct (drop_none series) as [|x rest] eqn:Hdrop; [contradiction|]. simpl.
  destruct (py_max_order rest x) as [Hin_max Hmax].
  destruct (py_min_order rest x) as [Hin_min Hmin].
  eexists _, _. split_and!; try reflexivity.
  - apply elem_of_drop_none. now rewrite Hdrop.
  - apply elem_of_drop_none. now rewrite Hdrop.
  - intros Hord y Hy. apply elem_of_drop_none in Hy. rewrite Hdrop in Hy.
    destruct (Hmax Hord) as [_ Hup]. destruct (Hmin Hord) as [_ Hdown]. auto.
Qed.

Lemma aggregation_max_min_bounds_witness :
  exists mx mn : PrimFloat.float,
    aggregation_functions [None; Some 3%float; Some PrimFloat.nan; Some 1%float]
                          (Some "max"%string) = Ok (Some mx) /\
    aggregation_functions [None; Some 3%float; Some PrimFloat.nan; Some 1%float]
                          (Some "min"%string) = Ok (Some mn) /\
    Some mx ∈ [None; Some 3%float; Some PrimFloat.nan; Some 1%float] /\
    Some mn ∈ [None; Some 3%float; Some PrimFloat.nan; Some 1%float] /\
    forall y, Some y ∈ [None; Some 3%float; Some PrimFloat.nan; Some 1%float] ->
              fltb mx y = false /\ fltb y mn = false.
Proof.
  destruct (aggregation_max_min_bounds
              [None; Some 3%float; Some PrimFloat.nan; Some 1%float] ltac:(discriminate))
    as (mx & mn & Hmax & Hmin & Hin_max & Hin_min & Hbounds).
  exists mx, mn. split_and!; try assumption.
  apply Hbounds, (binary64_strict_order rounded_pow2).
Defined.

(** ** Statistics per point *)

(** The [k]-th column of [zip( *slices)] holds the [k]-th item of every slice,
    and exists exactly when there is a slice and every slice has a [k]-th
    item. *)
Lemma zip_star_lookup {F : Type} (slices : list (TimeSeriesValues F)) (k : nat)
    (col : TimeSeriesValues F) :
  zip_star slices !! k = Some col <->
  slices <> [] /\ Forall2 (fun s c => s !! k = Some c) slices col.
Proof.
  revert col. induction slices as [|l rest IH]; intros col.
  - simpl. split; [easy|]. intros [Hne _]. contradiction.
  - destruct rest as [|r rs].
    + cbn [zip_star]. unalias. rewrite list_lookup_fmap. split.
      * destruct (l !! k) as [x|] eqn:Hx; simpl; [|discriminate]. intros [= <-].
        split; [easy|]. repeat constructor. exact Hx.
      * intros [_ Hcol]. inversion Hcol as [|? ? ? ? Hx Hrest]; subst.
        inversion Hrest; subst. now rewrite Hx.
    + change (zip_star (l :: r :: rs))
        with (map (fun pr => fst pr :: snd pr) (combine l (zip_star (r :: rs)))).
      unalias. rewrite list_lookup_fmap. split.
      * destruct (combine _ _ !! k) as [[x c]|] eqn:Hk; simpl; [|discriminate].
        intros [= <-]. apply lookup_combine in Hk as [Hx Hc].
        apply IH in Hc as [_ Hc]. split; [easy|]. constructor; assumption.
      * intros [_ Hcol]. inversion Hcol as [|? x ? c Hx Hrest]; subst.
        assert (Hk : combine l (zip_star (r :: rs)) !! k = Some (x, c)).
        { apply lookup_combine. split; [exact Hx|]. apply IH. split; [easy|exact Hrest]. }
        unalias. now rewrite Hk.
Qed.

Lemma drop_none_nil_iff {F : Type} (series : TimeSeriesValues F) :
  drop_none series = [] <-> Forall (fun v => v = None) series.
Proof.
  split; [|apply drop_none_all_none].
  induction series as [|[x|] rest IH]; simpl; [constructor|discriminate|].
  intros Hrest. constructor; [reflexivity|auto].
Qed.

(** The points of a result, column by column. *)
Lemma data_stats_lookup {F : Type} `{PyFloat F} (slices : list (TimeSeriesValues F))
    (stats : list (option (DataStat F))) (k : nat) (point : option (DataStat F)) :
  _data_stats slices = Ok stats ->
  (stats !! k = Some point <->
   exists col, zip_star slices !! k = Some col /\ data_stat_of_column col = Ok point).
Proof.
  unfold _data_stats. intros Hrun. apply result_mapM_Forall2 in Hrun. split.
  - intros Hpoint. destruct (Forall2_lookup_r _ _ _ _ _ Hrun Hpoint) as (col & Hcol & Hstat).
    eauto.
  - intros (col & Hcol & Hstat).
    destruct (Forall2_lookup_l _ _ _ _ _ Hrun Hcol) as (point' & Hpoint & Hstat').
    congruence.
Qed.

Lemma data_stats_length {F : Type} `{PyFloat F} (slices : list (TimeSeriesValues F))
    (stats : list (option (DataStat F))) :
  _data_stats slices = Ok stats -> length stats = length (zip_star slices).
Proof. apply result_mapM_length. Qed.

Lemma data_stat_of_column_none {F : Type} `{PyFloat F} (col : TimeSeriesValues F) :
  data_stat_of_column col = Ok None <-> drop_none col = [].
Proof.
  unfold data_stat_of_column. destruct (drop_none col) as [|x rest]; [easy|].
  split; [|discriminate]. destruct (_std_dev _ _); discriminate.
Qed.

Lemma column_exists {F : Type} (slices : list (TimeSeriesValues F)) (k : nat) :
  (forall s, s ∈ slices -> (k < length s)%nat) ->
  exists col, Forall2 (fun s c => s !! k = Some c) slices col.
Proof.
  induction slices as [|s rest IH]; intros Hall; [exists []; constructor|].
  destruct IH as [col Hcol]; [intros s' Hs'; apply Hall; now right|].
  destruct (lookup_lt_is_Some_2 s k (Hall s ltac:(left))) as [c Hc].
  exists (c :: col). constructor; assumption.
Qed.

(** X9.  Whenever [_data_stats] returns: it has a point at position [k]
    exactly when there is at least one slice and every slice has a [k]-th
    item (so there are as many points as the shortest slice has items, and
    none without slices), and the point is [None] exactly when the [k]-th
    item of every slice is [None].  It raises only what the standard
    deviation of a column with at least two values raises, and it returns
    when no column has two values. *)
Theorem data_stats_points {F : Type} `{PyFloat F} (slices : list (TimeSeriesValues F)) :
  (forall stats (k : nat),
      _data_stats slices = Ok stats ->
      ((k < length stats)%nat <->
       slices <> [] /\ forall s, s ∈ slices -> (k < length s)%nat) /\
      (stats !! k = Some None <->
       slices <> [] /\ forall s, s ∈ slices -> s !! k = Some None)) /\
  (forall e,
      _data_stats slices = Raise e ->
      exists col x y rest,
        col ∈ zip_star slices /\ drop_none col = x :: y :: rest /\
        _std_dev (x :: y :: rest)
                 (fdiv (py_sum (x :: y :: rest))
                       (of_int (Z.of_nat (length (x :: y :: rest))))) = Raise e) /\
  ((forall col, col ∈ zip_star slices -> (length (drop_none col) <= 1)%nat) ->
   exists stats, _data_stats slices = Ok stats).
Proof.
  split_and!.
  - intros stats k Hrun. split.
    + rewrite <- lookup_lt_is_Some. split.
      * intros [point Hpoint].
        apply (data_stats_lookup slices stats k point Hrun) in Hpoint as (col & Hcol & _).
        apply zip_star_lookup in Hcol as [Hne Hcol]. split; [exact Hne|].
        intros s Hs. apply list_elem_of_lookup in Hs as [i Hi].
        destruct (Forall2_lookup_l _ _ _ _ _ Hcol Hi) as (c & _ & Hc).
        eapply lookup_lt_Some, Hc.
      * intros [Hne Hall]. destruct (column_exists slices k Hall) as [col Hcol].
        assert (Hzip : zip_star slices !! k = Some col) by (apply zip_star_lookup; auto).
        apply lookup_lt_is_Some. rewrite (data_stats_length slices stats Hrun).
        eapply lookup_lt_Some, Hzip.
    + rewrite (data_stats_lookup slices stats k None Hrun). split.
      * intros (col & Hcol & Hnone). apply zip_star_lookup in Hcol as [Hne Hcol].
        split; [exact Hne|]. intros s Hs.
        apply data_stat_of_column_none, drop_none_nil_iff in Hnone.
        rewrite Forall_forall in Hnone.
        apply list_elem_of_lookup in Hs as [i Hi].
        destruct (Forall2_lookup_l _ _ _ _ _ Hcol Hi) as (c & Hci & Hc).
        unalias. rewrite Hc. f_equal. apply Hnone. eapply list_elem_of_lookup_2, Hci.
      * intros [Hne Hall]. exists (repeat None (length slices)). split.
        -- apply zip_star_lookup. split; [exact Hne|]. clear Hne Hrun.
           induction slices as [|s rest IH]; simpl; constructor.
           ++ apply Hall. left.
           ++ apply IH. intros s' Hs'. apply Hall. now right.
        -- apply data_stat_of_column_none, drop_none_all_none.
           apply Forall_forall. intros v Hv. now apply list_elem_of_In, repeat_spec in Hv.
  - intros e Hrun. unfold _data_stats in Hrun.
    apply result_mapM_raise in Hrun as (col & Hcol & Hstat). exists col.
    unfold data_stat_of_column in Hstat.
    destruct (drop_none col) as [|x [|y rest]] eqn:Hdrop; [discriminate|discriminate|].
    exists x, y, rest. split; [exact Hcol|]. split; [reflexivity|].
    destruct (_std_dev _ _) as [d|e'] eqn:Hdev; [discriminate|]. now injection Hstat as ->.
  - intros Hshort. unfold _data_stats.
    induction (zip_star slices) as [|col cols IH]; [exists []; reflexivity|].
    destruct IH as [stats Hstats]; [intros c Hc; apply Hshort; now right|].
    cbn [result_mapM]. rewrite Hstats.
    pose proof (Hshort col ltac:(left)) as Hlen. unfold data_stat_of_column.
    destruct (drop_none col) as [|x [|y rest]]; [eexists; reflexivity|eexists; reflexivity|].
    simpl in Hlen. lia.
Qed.

(** X10.  A point of a result of [_data_stats] summarises the column of
    [k]-th items of the slices: its minimum and maximum are values of the
    column, its average is the left-to-right sum of the column's values
    divided by their number, and its standard deviation is [None] exactly
    when the column has a single value.  Where [<] is irreflexive and
    transitive on the column's values, as it is on binary64, the maximum is
    below no value of the column and no value is below the minimum. *)
Theorem data_stats_column_summary {F : Type} `{PyFloat F}
    (slices : list (TimeSeriesValues F)) (stats : list (option (DataStat F)))
    (k : nat) (st : DataStat F) :
  _data_stats slices = Ok stats ->
  stats !! k = Some (Some st) ->
  exists col,
    Forall2 (fun s c => s !! k = Some c) slices col /\
    Some (min_ st) ∈ col /\
    Some (max_ st) ∈ col /\
    average st = fdiv (py_sum (drop_none col)) (of_int (Z.of_nat (length (drop_none col)))) /\
    (stdev st = None <-> length (drop_none col) = 1%nat) /\
    (strict_order_on (drop_none col) ->
     forall y, Some y ∈ col -> fltb (max_ st) y = false /\ fltb y (min_ st) = false).
Proof.
  intros Hrun Hpoint.
  apply (data_stats_lookup slices stats k (Some st) Hrun) in Hpoint as (col & Hcol & Hst).
  apply zip_star_lookup in Hcol as [_ Hcol]. exists col. split; [exact Hcol|].
  unfold data_stat_of_column in Hst.
  destruct (drop_none col) as [|x rest] eqn:Hdrop; [discriminate|].
  destruct (_std_dev (x :: rest) _) as [deviation|e] eqn:Hdev; [|discriminate].
  cbn [rbind] in Hst. injection Hst as <-. cbn [min_ max_ average stdev].
  destruct (py_max_order rest x) as [Hin_max Hmax].
  destruct (py_min_order rest x) as [Hin_min Hmin].
  split_and!.
  - apply elem_of_drop_none. now rewrite Hdrop.
  - apply elem_of_drop_none. now rewrite Hdrop.
  - reflexivity.
  - unfold _std_dev in Hdev.
    destruct (Z.eqb_spec (Z.of_nat (length (x :: rest))) 1) as [Hone|Hmore].
    + injection Hdev as <-. split; [intros _; lia|reflexivity].
    + split; [|intros Hlen; lia]. intros ->.
      destruct (result_mapM fpow2 (x :: rest)); [|discriminate]. cbn [rbind] in Hdev.
      destruct (fpow2 _); [|discriminate]. cbn [rbind] in Hdev.
      destruct (fsqrt _); discriminate.
  - intros Hord y Hy. apply elem_of_drop_none in Hy. rewrite Hdrop in Hy.
    destruct (Hmax Hord) as [_ Hup]. destruct (Hmin Hord) as [_ Hdown]. auto.
Qed.

Lemma data_stats_column_summary_witness :
  let slices := [[Some 2%float]; [None]; [Some 4%float]] in
  let st := {| average := 3%float; min_ := 2%float; max_ := 4%float;
               stdev := Some (PrimFloat.sqrt 2%float) |} in
  exists col,
    Forall2 (fun s c => s !! 0%nat = Some c) slices col /\
    Some (min_ st) ∈ col /\
    Some (max_ st) ∈ col /\
    average st = fdiv (py_sum (drop_none col)) (of_int (Z.of_nat (length (drop_none col)))) /\
    (stdev st = None <-> length (drop_none col) = 1%nat) /\
    forall y, Some y ∈ col -> fltb (max_ st) y = false /\ fltb y (min_ st) = false.
Proof.
  cbv zeta.
  destruct (data_stats_column_summary [[Some 2%float]; [None]; [Some 4%float]]
              [Some {| average := 3%float; min_ := 2%float; max_ := 4%float;
                       stdev := Some (PrimFloat.sqrt 2%float) |}] 0%nat
              {| average := 3%float; min_ := 2%float; max_ := 4%float;
                 stdev := Some (PrimFloat.sqrt 2%float) |})
    as (col & Hcol & Hmin & Hmax & Havg & Hdev & Hbounds).
  - vm_compute. reflexivity.
  - reflexivity.
  - exists col. split_and!; try assumption. apply Hbounds, (binary64_strict_order rounded_pow2).
Defined.

(** ** The aligned windows *)

Lemma data_stats_shorter {F : Type} `{PyFloat F} (s : TimeSeriesValues F)
    (rest : list (TimeSeriesValues F)) (stats : list (option (DataStat F))) :
  _data_stats (s :: rest) = Ok stats -> (length stats <= length s)%nat.
Proof.
  intros Hrun.
  destruct (Nat.le_gt_cases (length stats) (length s)) as [|Hgt]; [assumption|].
  apply lookup_lt_is_Some in Hgt as [point Hpoint].
  apply (data_stats_lookup (s :: rest) stats _ point Hrun) in Hpoint as (col & Hcol & _).
  apply zip_star_lookup in Hcol as [_ Hcol].
  inversion Hcol as [|? c ? ? Hs _]; subst.
  apply lookup_lt_Some in Hs. lia.
Qed.

(** X11.  [_calculate_data_for_prediction] raises [IndexError] without
    slices.  With a first slice whose shift is 0 (as [compute_prediction]
    builds it) a result has the start, end and step of that slice's window
    and at most as many points as that slice has values; an exception of the
    upsampling of any slice is the exception of the call. *)
Theorem calculate_data_for_prediction_window {F : Type} `{PyFloat F}
    (ts : TimeSeries F) (rest : list (TimeSeries F * Z)) :
  _calculate_data_for_prediction (F := F) [] = Raise IndexError /\
  (forall data,
      _calculate_data_for_prediction ((ts, 0) :: rest) = Ok data ->
      data_twindow data = [ts_start ts; ts_end ts] /\
      step data = ts_step ts /\
      (num_points data <= length (ts_values ts))%nat) /\
  (forall e,
      upsample_each (twindow ts) rest = Raise e ->
      _calculate_data_for_prediction ((ts, 0) :: rest) = Raise e).
Proof.
  assert (Hfirst : bfill_upsample ts (tw_start (twindow ts) - 0, tw_end (twindow ts) - 0,
                                      tw_step (twindow ts)) = Ok (ts_values ts)).
  { assert (Heq : TimeWindow_eqb (tw_start (twindow ts) - 0, tw_end (twindow ts) - 0,
                                  tw_step (twindow ts)) (twindow ts) = true).
    { apply TimeWindow_eqb_eq. unfold twindow, tw_start, tw_end, tw_step. simpl.
      now rewrite !Z.sub_0_r. }
    unfold bfill_upsample. now rewrite Heq. }
  split_and!.
  - reflexivity.
  - intros data. unfold _calculate_data_for_prediction, _upsample.
    cbn [getitem lookup list_lookup rbind fst upsample_each]. rewrite Hfirst. cbn [rbind].
    destruct (upsample_each (twindow ts) rest) as [vs|e]; cbn [rbind]; [|discriminate].
    destruct (_data_stats (ts_values ts :: vs)) as [stats|e] eqn:Hstats; cbn [rbind];
      [|discriminate].
    intros [= <-]. cbn [data_twindow step]. split_and!; try reflexivity.
    unfold num_points. cbn [points]. apply (data_stats_shorter _ vs stats Hstats).
  - intros e He. unfold _calculate_data_for_prediction, _upsample.
    cbn [getitem lookup list_lookup rbind fst upsample_each]. rewrite Hfirst. cbn [rbind].
    now rewrite He.
Qed.

(** ** Buckets of the catalog periods *)

(** X12.  For each of the four catalog periods the bucket computed for a
    timestamp [t] contains [t]: it is one slice wide, starts at a multiple
    of the slice width in local time (with the UTC offset in force at [t]),
    and [rel_time] is the distance of [t] from its start. *)
Theorem timegroup_relative_time_bucket (zone : Zone) (name : _PeriodName) (t : Timestamp) :
  exists timegroup from_time until_time rel_time,
    get_timegroup_relative_time t (PREDICTION_PERIODS zone name)
    = (timegroup, from_time, until_time, rel_time) /\
    timegroup = identity_of (PREDICTION_PERIODS zone name) t /\
    from_time <= t < until_time /\
    until_time = from_time + pi_slice (PREDICTION_PERIODS zone name) /\
    rel_time = t - from_time /\
    (from_time - timezone_at zone t) mod pi_slice (PREDICTION_PERIODS zone name) = 0.
Proof.
  unfold get_timegroup_relative_time, identity_of.
  pose proof (catalog_offset_bounds zone name t) as [Hslice Hrel]. cbv zeta in *.
  assert (Hws : snd (pi_groupby (PREDICTION_PERIODS zone name) t)
                = _window_start zone t (pi_slice (PREDICTION_PERIODS zone name)))
    by (destruct name; reflexivity).
  destruct (pi_groupby (PREDICTION_PERIODS zone name) t) as [tg rel]. cbn [fst snd] in *.
  eexists _, _, _, _. split; [reflexivity|]. split_and!; try reflexivity; try lia.
  subst rel. unfold _window_start.
  set (a := t - timezone_at zone t). set (n := pi_slice (PREDICTION_PERIODS zone name)) in *.
  replace (t - a mod n - timezone_at zone t) with (a - a mod n) by (unfold a; lia).
  rewrite Zminus_mod_idemp_r, Z.sub_diag. apply Z.mod_0_l. lia.
Qed.

(** ** The walk at its ends *)

Lemma filter_all {A} (P : A -> Prop) `{forall x, Decision (P x)} (l : list A) :
  (forall x, P x) -> filter P l = l.
Proof.
  intros HP. induction l as [|x l IH]; [reflexivity|].
  rewrite filter_cons_True by apply HP. now rewrite IH.
Qed.

Lemma time_slices_no_horizon now horizon period_info timegroup :
  0 < pi_slice period_info ->
  horizon <= 0 ->
  _time_slices now horizon period_info timegroup = Ok [].
Proof.
  intros Hs Hh. destruct (time_slices_walk now horizon period_info timegroup Hs)
    as (n & Hn & ->).
  destruct n as [|n]; [reflexivity|]. pose proof (proj1 (Hn 0%nat) ltac:(lia)). lia.
Qed.

(** X13.  [_time_slices] raises [ValueError] for a period with slice width
    0.  With a positive slice width, a horizon of 0 or less gives no window
    at all; a positive horizon, when the wanted identity is that of [now],
    gives a list whose first window is the bucket of [now], so the list is
    not empty. *)
Theorem time_slices_ends now horizon period_info timegroup :
  (pi_slice period_info = 0 ->
   _time_slices now horizon period_info timegroup
   = Raise (ValueError "range() arg 3 must not be zero")) /\
  (0 < pi_slice period_info -> horizon <= 0 ->
   _time_slices now horizon period_info timegroup = Ok []) /\
  (0 < pi_slice period_info -> 0 < horizon ->
   identity_of period_info now = timegroup ->
   exists rest,
     _time_slices now horizon period_info timegroup = Ok (bucket_of period_info now :: rest)).
Proof.
  split_and!.
  - intros Hs. unfold _time_slices, py_range. now rewrite Hs.
  - apply time_slices_no_horizon.
  - intros Hs Hh Hid.
    destruct (time_slices_walk now horizon period_info timegroup Hs) as (n & Hn & ->).
    destruct n as [|n]; [pose proof (proj2 (Hn 0%nat) ltac:(lia)); lia|].
    unfold begins_back. cbn [seq map].
    replace (now - Z.of_nat 0 * pi_slice period_info) with now by lia.
    rewrite filter_cons_True by exact Hid. cbn [map]. eauto.
Qed.

Lemma time_slices_ends_witness :
  exists rest,
    _time_slices 1712053800 (2 * 86400) (PREDICTION_PERIODS utc wday) "tuesday"
    = Ok (bucket_of (PREDICTION_PERIODS utc wday) 1712053800 :: rest).
Proof.
  apply (proj2 (proj2 (time_slices_ends 1712053800 (2 * 86400)
                         (PREDICTION_PERIODS utc wday) "tuesday"))).
  - simpl. lia.
  - lia.
  - reflexivity.
Defined.

Lemma nat_lt_iff_eq (a b : nat) : (forall k : nat, (k < a)%nat <-> (k < b)%nat) -> a = b.
Proof.
  intros Hk. pose proof (Hk a). pose proof (Hk b). lia.
Qed.

Lemma time_slices_constant_count now horizon period_info timegroup :
  0 < pi_slice period_info ->
  (forall t, identity_of period_info t = timegroup) ->
  exists windows,
    _time_slices now horizon period_info timegroup = Ok windows /\
    forall n : nat,
      (forall k : nat, (k < n)%nat <-> Z.of_nat k * pi_slice period_info < horizon) ->
      length windows = n.
Proof.
  intros Hs Hid.
  destruct (time_slices_walk now horizon period_info timegroup Hs) as (n & Hn & ->).
  eexists. split; [reflexivity|]. intros m Hm.
  rewrite filter_all by exact Hid. unfold begins_back. rewrite !length_map, length_seq.
  apply nat_lt_iff_eq. intros k. rewrite Hn, Hm. lia.
Qed.

(** X14.  The periods "hour" and "minute" have a single bucket identity,
    so every visited timestamp yields a window: over a horizon of [d] days
    the identity "everyday" yields exactly [d] windows and the identity
    "everyhour" exactly [24 d], in every time zone. *)
Theorem time_slices_every_bucket (zone : Zone) (now d : Z) :
  0 <= d ->
  (exists windows,
      _time_slices now (d * 86400) (PREDICTION_PERIODS zone hour) "everyday" = Ok windows /\
      length windows = Z.to_nat d) /\
  (exists windows,
      _time_slices now (d * 86400) (PREDICTION_PERIODS zone minute) "everyhour" = Ok windows /\
      length windows = Z.to_nat (24 * d)).
Proof.
  intros Hd. split.
  - destruct (time_slices_constant_count now (d * 86400) (PREDICTION_PERIODS zone hour)
                "everyday") as (ws & Hrun & Hlen); [simpl; lia|reflexivity|].
    exists ws. split; [exact Hrun|]. apply Hlen. intros k. simpl. lia.
  - destruct (time_slices_constant_count now (d * 86400) (PREDICTION_PERIODS zone minute)
                "everyhour") as (ws & Hrun & Hlen); [simpl; lia|reflexivity|].
    exists ws. split; [exact Hrun|]. apply Hlen. intros k. simpl. lia.
Qed.

Lemma time_slices_every_bucket_witness :
  exists windows,
    _time_slices 1712053800 (3 * 86400) (PREDICTION_PERIODS berlin_2024 hour) "everyday"
    = Ok windows /\
    length windows = Z.to_nat 3.
Proof.
  apply (proj1 (time_slices_every_bucket berlin_2024 1712053800 3 ltac:(lia))).
Defined.

(** ** The orchestrator without a window, and after success *)

(** X15.  When the partitioner finds no window, as with a horizon of 0 days
    or less, [compute_prediction] has already deleted the stored artifact
    and then fails with [IndexError] on the first window's start, without a
    single livestatus query. *)
Theorem compute_prediction_without_window {F : Type} `{PyFloat F} (env : Environment F)
    (info : PredictionInfo F) (now : Z) (period_info : _PeriodInfo)
    (host_name : HostName) (service_description : ServiceName) (w : World) :
  (_time_slices now (horizon (info_params info) * 86400) period_info (info_name info) = Ok [] ->
   compute_prediction env info now period_info host_name service_description w
   = (Raise IndexError,
      {| dir_exists := dir_exists w;
         files := removed_files env (info_name info) (files w);
         rrd_queries := rrd_queries w |})) /\
  (0 < pi_slice period_info -> horizon (info_params info) <= 0 ->
   compute_prediction env info now period_info host_name service_description w
   = (Raise IndexError,
      {| dir_exists := dir_exists w;
         files := removed_files env (info_name info) (files w);
         rrd_queries := rrd_queries w |})).
Proof.
  assert (Hempty :
    _time_slices now (horizon (info_params info) * 86400) period_info (info_name info) = Ok [] ->
    compute_prediction env info now period_info host_name service_description w
    = (Raise IndexError,
       {| dir_exists := dir_exists w;
          files := removed_files env (info_name info) (files w);
          rrd_queries := rrd_queries w |})).
  { intros Hts. unfold compute_prediction. unfold bind at 1. rewrite remove_prediction_run.
    unfold bind at 1, lift at 1. rewrite Hts. reflexivity. }
  split; [exact Hempty|].
  intros Hs Hh. apply Hempty. apply time_slices_no_horizon; [exact Hs|lia].
Qed.

Lemma compute_prediction_without_window_witness :
  let info := {| info_name := "everyday"; info_time := 0; info_range := (0, 0);
                 info_cf := "MAX"; info_dsname := "load1"; info_slice := 86400;
                 info_params := {| period := hour; horizon := 0; levels_upper := None;
                                   levels_upper_min := None; levels_lower := None |} |} in
  compute_prediction (example_env false always_found) info 1712053800
                     (PREDICTION_PERIODS utc hour) "host" "service" stored_world
  = (Raise IndexError,
     {| dir_exists := true;
        files := removed_files (example_env false always_found) "everyday" (files stored_world);
        rrd_queries := [] |}).
Proof.
  cbv zeta.
  refine (proj2 (compute_prediction_without_window (example_env false always_found) _
                   1712053800 (PREDICTION_PERIODS utc hour) "host" "service" stored_world) _ _).
  - simpl. lia.
  - simpl. lia.
Defined.

(** X16.  After a successful [compute_prediction] the store holds what was
    computed: [get_data] for the bucket identity returns the returned data
    and [get_info] the given metadata (given that pydantic parses back what
    it serialised for them and that the two files have different names),
    and every window was queried exactly once, in order. *)
Theorem computed_prediction_is_stored {F : Type} `{PyFloat F} (env : Environment F)
    (info : PredictionInfo F) (now : Z) (period_info : _PeriodInfo)
    (host_name : HostName) (service_description : ServiceName) (w : World)
    (data : PredictionData F) (windows : _TimeSlices) :
  fst (compute_prediction env info now period_info host_name service_description w) = Ok data ->
  _time_slices now (horizon (info_params info) * 86400) period_info (info_name info)
  = Ok windows ->
  data_parse_raw env (data_json env data) = Some data ->
  info_parse_raw env (info_json env info) = Some info ->
  _info_file env (info_name info) <> _data_file env (info_name info) ->
  let w' := snd (compute_prediction env info now period_info host_name service_description w) in
  fst (get_data env (info_name info) w') = Ok (Some data) /\
  fst (get_info env (info_name info) w') = Ok (Some info) /\
  rrd_queries w'
  = rrd_queries w ++ map (slice_query info host_name service_description) windows.
Proof.
  intros Hok Hts Hdata Hinfo Hne.
  destruct (compute_prediction_run env info now period_info host_name service_description w)
    as (r & w' & m & Hrun & _ & Hqueries & Hres).
  rewrite Hts in Hqueries, Hres. rewrite Hrun in *. cbn [fst snd] in *. subst r.
  destruct Hres as (-> & responses & _ & _ & Hfiles & Hdir). split_and!.
  - unfold get_data. erewrite read_model_found; [reflexivity|exact Hdir| |exact Hdata].
    rewrite Hfiles. apply lookup_insert_eq.
  - unfold get_info. erewrite read_model_found; [reflexivity|exact Hdir| |exact Hinfo].
    rewrite Hfiles, lookup_insert_ne by congruence. apply lookup_insert_eq.
  - now rewrite Hqueries, firstn_all.
Qed.

Lemma computed_prediction_is_stored_witness :
  let env := example_env false always_found in
  let run := compute_prediction env example_info 1712053800 (PREDICTION_PERIODS utc hour)
                                "host" "service" stored_world in
  fst (get_data env "everyday" (snd run)) = Ok (Some example_data) /\
  fst (get_info env "everyday" (snd run)) = Ok (Some example_info) /\
  rrd_queries (snd run)
  = [] ++ map (slice_query example_info "host" "service")
              [(1712016000, 1712102400); (1711929600, 1712016000)].
Proof.
  cbv zeta.
  apply (computed_prediction_is_stored (example_env false always_found) example_info
           1712053800 (PREDICTION_PERIODS utc hour) "host" "service" stored_world
           example_data [(1712016000, 1712102400); (1711929600, 1712016000)]).
  - reflexivity.
  - reflexivity.
  - reflexivity.
  - reflexivity.
  - discriminate.
Defined.

(** ** The store: other buckets, unreadable files *)

Lemma read_model_same_file {A} (parse_raw : string -> option A) path (w w' : World) :
  (if dir_exists w then files w !! path else None)
  = (if dir_exists w' then files w' !! path else None) ->
  fst (read_model parse_raw path w) = fst (read_model parse_raw path w').
Proof.
  unfold read_model, read_text. intros Hsame.
  destruct (dir_exists w), (dir_exists w');
    repeat match goal with
           | |- context [files ?x !! path] => destruct (files x !! path) eqn:?
           end; simplify_eq; try reflexivity;
    repeat match goal with
           | |- context [parse_raw ?t] => destruct (parse_raw t)
           end; reflexivity.
Qed.

(** X17.  Saving or removing the prediction of one bucket identity leaves
    what [get_data] and [get_info] return for another bucket identity as it
    was, provided the files of the two identities have different names (and,
    for saving, that a directory that does not exist yet holds no files). *)
Theorem store_other_bucket_untouched {F : Type} (env : Environment F)
    (info : PredictionInfo F) (data : PredictionData F) (other : Timegroup) (w : World) :
  _data_file env other <> _data_file env (info_name info) ->
  _data_file env other <> _info_file env (info_name info) ->
  _info_file env other <> _data_file env (info_name info) ->
  _info_file env other <> _info_file env (info_name info) ->
  (world_ok w ->
   fst (get_data env other (snd (save_prediction env info data w)))
   = fst (get_data env other w) /\
   fst (get_info env other (snd (save_prediction env info data w)))
   = fst (get_info env other w)) /\
  fst (get_data env other (snd (remove_prediction env (info_name info) w)))
  = fst (get_data env other w) /\
  fst (get_info env other (snd (remove_prediction env (info_name info) w)))
  = fst (get_info env other w).
Proof.
  intros Hdd Hdi Hid Hii. rewrite save_prediction_run, remove_prediction_run. cbn [snd].
  unfold get_data, get_info, removed_files. split_and!.
  - intros Hok. split; apply read_model_same_file; cbn [dir_exists files];
      rewrite !lookup_insert_ne by congruence;
      (destruct (dir_exists w) eqn:Hdir; [reflexivity|]);
      rewrite (Hok Hdir); apply lookup_empty.
  - apply read_model_same_file. cbn [dir_exists files].
    now rewrite !lookup_delete_ne by congruence.
  - apply read_model_same_file. cbn [dir_exists files].
    now rewrite !lookup_delete_ne by congruence.
Qed.

Lemma store_other_bucket_untouched_witness :
  let env := example_env false not_found in
  fst (get_data env "everyday" (snd (remove_prediction env "monday" stored_world)))
  = fst (get_data env "everyday" stored_world).
Proof.
  cbv zeta.
  refine (proj1 (proj2 (store_other_bucket_untouched (example_env false not_found)
            {| info_name := "monday"; info_time := 0; info_range := (0, 0);
               info_cf := "max"; info_dsname := "load1"; info_slice := 86400;
               info_params := example_params |}
            example_data "everyday" stored_world _ _ _ _)));
    discriminate.
Defined.

(** X18.  [get_data] and [get_info] never change the store.  They return
    [None] exactly when the file (or the directory) is missing; a file that
    is there and does not parse is not reported as absent: the validation
    error comes out. *)
Theorem get_prediction_outcomes {F : Type} (env : Environment F) (timegroup : Timegroup)
    (w : World) :
  snd (get_data env timegroup w) = w /\
  snd (get_info env timegroup w) = w /\
  (fst (get_data env timegroup w) = Ok None <->
   dir_exists w = false \/ files w !! _data_file env timegroup = None) /\
  (fst (get_info env timegroup w) = Ok None <->
   dir_exists w = false \/ files w !! _info_file env timegroup = None) /\
  (forall text,
      dir_exists w = true ->
      files w !! _data_file env timegroup = Some text ->
      data_parse_raw env text = None ->
      fst (get_data env timegroup w) = Raise ValidationError) /\
  (forall text,
      dir_exists w = true ->
      files w !! _info_file env timegroup = Some text ->
      info_parse_raw env text = None ->
      fst (get_info env timegroup w) = Raise ValidationError).
Proof.
  unfold get_data, get_info, read_model, read_text.
  destruct (dir_exists w) eqn:Hdir.
  - destruct (files w !! _data_file env timegroup) as [dtext|] eqn:Hd;
      destruct (files w !! _info_file env timegroup) as [itext|] eqn:Hi;
      try destruct (data_parse_raw env dtext) eqn:Hpd;
      try destruct (info_parse_raw env itext) eqn:Hpi;
      cbn [fst snd]; split_and!; try reflexivity;
      try (split; [discriminate|intros [?|?]; discriminate]);
      try (split; [auto|reflexivity]);
      intros text _ [= <-] Hnone; congruence.
  - cbn [fst snd]. split_and!; try reflexivity; try (split; [auto|reflexivity]);
      intros text Htrue; discriminate.
Qed.

(** ** Downsampling: errors and the empty series *)





(** ** Instances of the nested cases *)

Lemma TimeSeries_new_from_data_witness :
  TimeSeries_new (fun z : Z => if Z.eqb z 99 then Raise (ValueError "int") else Ok z)
    (fun z => 2 * z) [Some 0; Some 60] None
  = Raise IndexError.
Proof.
  apply (proj2 (proj1 (proj2 (proj2
           (TimeSeries_new_from_data
              (fun z : Z => if Z.eqb z 99 then Raise (ValueError "int") else Ok z)
              (fun z => 2 * z) [Some 0; Some 60]))) 2%nat ltac:(lia)
           ltac:(intros [|[|j]] Hj; [eexists; reflexivity|eexists; reflexivity|lia])));
    reflexivity.
Defined.

Lemma calculate_data_for_prediction_window_witness :
  _calculate_data_for_prediction
    [(mkTimeSeries 0 20 10 [Some 1%float; None], 0); (mkTimeSeries 100 120 5 [], 100)]
  = Raise IndexError.
Proof.
  apply (proj2 (proj2 (calculate_data_for_prediction_window
                         (mkTimeSeries 0 20 10 [Some 1%float; None])
                         [(mkTimeSeries 100 120 5 [], 100)]))).
  reflexivity.
Defined.

Lemma get_prediction_outcomes_witness :
  fst (get_data (example_env false not_found) "everyday"
         {| dir_exists := true;
            files := {[ "everyday"%string := "{"%string ]};
            rrd_queries := [] |})
  = Raise ValidationError.
Proof.
  apply (proj1 (proj2 (proj2 (proj2 (proj2
           (get_prediction_outcomes (example_env false not_found) "everyday" _)))))
         "{"%string); reflexivity.
Defined.
